(** * Sentora central server: alert evaluation and notification

    A shallow embedding of [server.py]: the threshold checks of
    [check_thresholds], the channel fan-out of [send_alert], the
    acknowledge and configuration endpoints, and the periodic
    [check_agent_status] sweep with its Redis suppression flag.

    Conventions of the embedding.
    - A Python [float] is a binary64 primitive float; [a > b] is
      [PrimFloat.ltb b a].
    - A naive [datetime] is the number of microseconds since
      0001-01-01T00:00:00; [isoformat] renders it the way
      [datetime.isoformat()] does, and MongoDB compares the rendered
      strings bytewise.
    - MongoDB collections are lists of documents in natural order, Redis is
      a finite map from keys to a value and its expiry time; a key is
      served up to and including the instant of its expiry.
    - An environment holds one reading of the clock, the [now] of the
      operation run in it. Operations that follow one another are run in
      environments of their own; nothing is stated about the order or the
      distance of two clock readings within one operation.
    - Effects are threaded through a state-and-exception monad [M]; every
      call that leaves the process (SMTP, HTTP, a MongoDB or Redis write)
      is appended to the [trace] of the world.

    The second part covers the read side of the server (the GET
    endpoints) and the collectors of the agent in [agent.py], whose
    answers are the reports the server checks. *)

From Stdlib Require Import ZArith String Ascii List Bool Lia.
From Stdlib Require Import PrimFloat SpecFloat FloatOps.
From stdpp Require Import base strings gmap list pretty.
From Stdlib Require Import Sorted Permutation.

Open Scope string_scope.
Open Scope list_scope.
Open Scope Z_scope.
Set Warnings "-register-all".

(** ** Python values and formatting *)

(** A decoded JSON value, the [Any] of [Dict[str, Any]]. *)
Inductive pyval : Type :=
| PNone
| PBool (b : bool)
| PInt (z : Z)
| PFloat (f : float)
| PStr (s : string)
| PList (l : list pyval)
| PDict (d : list (string * pyval)).

(** What the interpreter supplies and the repository does not define: the
    shortest round-trip rendering of a float, and the [repr] of a list or
    dict. *)
Class PyRuntime := {
  float_repr : float -> string;
  container_repr : pyval -> string
}.

(** [bool(v)] *)
Definition py_bool (v : pyval) : bool :=
  match v with
  | PNone => false
  | PBool b => b
  | PInt z => negb (z =? 0)
  | PFloat f => negb (PrimFloat.eqb f 0%float)
  | PStr s => negb (String.eqb s "")
  | PList l => match l with [] => false | _ => true end
  | PDict d => match d with [] => false | _ => true end
  end.

(** [str(v)], what an f-string replacement field prints. *)
Definition py_str `{PyRuntime} (v : pyval) : string :=
  match v with
  | PNone => "None"
  | PBool true => "True"
  | PBool false => "False"
  | PInt z => pretty z
  | PFloat f => float_repr f
  | PStr s => s
  | PList _ | PDict _ => container_repr v
  end.

(** [d.get(key)] on a dict kept as its item list, in insertion order. *)
Fixpoint dict_get {A : Type} (d : list (string * A)) (key : string) : option A :=
  match d with
  | [] => None
  | (k, v) :: d' => if String.eqb k key then Some v else dict_get d' key
  end.

Definition nl : string := String (ascii_of_N 10) EmptyString.

(** ** Naive datetimes and [isoformat] *)

Definition DI400Y : Z := 146097.
Definition DI100Y : Z := 36524.
Definition DI4Y : Z := 1461.

Definition DAYS_BEFORE_MONTH (m : Z) : Z :=
  match m with
  | 1 => 0 | 2 => 31 | 3 => 59 | 4 => 90 | 5 => 120 | 6 => 151 | 7 => 181
  | 8 => 212 | 9 => 243 | 10 => 273 | 11 => 304 | 12 => 334 | _ => 0
  end.

Definition DAYS_IN_MONTH (m : Z) : Z :=
  match m with
  | 1 => 31 | 2 => 28 | 3 => 31 | 4 => 30 | 5 => 31 | 6 => 30 | 7 => 31
  | 8 => 31 | 9 => 30 | 10 => 31 | 11 => 30 | 12 => 31 | _ => 0
  end.

Definition b2z (b : bool) : Z := if b then 1 else 0.

(** Month and day of the zero-based day [n] of a year: the tail of
    [datetime._ord2ymd]. *)
Definition month_day (leapyear : bool) (n : Z) : Z * Z :=
  let month := Z.shiftr (n + 50) 5 in
  let preceding := DAYS_BEFORE_MONTH month + b2z ((2 <? month) && leapyear) in
  if n <? preceding then
    let month := month - 1 in
    let preceding :=
      preceding - (DAYS_IN_MONTH month + b2z ((month =? 2) && leapyear)) in
    (month, n - preceding + 1)
  else (month, n - preceding + 1).

(** [datetime._ord2ymd]: proleptic Gregorian ordinal (1 is 0001-01-01) to
    year, month, day. *)
Definition ord2ymd (n0 : Z) : Z * Z * Z :=
  let n := n0 - 1 in
  let n400 := n / DI400Y in let n := n mod DI400Y in
  let year := n400 * 400 + 1 in
  let n100 := n / DI100Y in let n := n mod DI100Y in
  let n4 := n / DI4Y in let n := n mod DI4Y in
  let n1 := n / 365 in let n := n mod 365 in
  let year := year + n100 * 100 + n4 * 4 + n1 in
  if (n1 =? 4) || (n100 =? 4) then (year - 1, 12, 31)
  else
    let leapyear := (n1 =? 3) && (negb (n4 =? 24) || (n100 =? 3)) in
    let '(month, day) := month_day leapyear n in
    (year, month, day).

Definition digit (n : Z) : ascii := ascii_of_N (48 + Z.to_N n).

(** ["%0wd" % n] for a field [0 <= n < 10^w], which every datetime field
    is. *)
Fixpoint zfill (w : nat) (n : Z) : string :=
  match w with
  | O => EmptyString
  | S w' => zfill w' (n / 10) +:+ String (digit (n mod 10)) EmptyString
  end.

Definition US_PER_SECOND : Z := 1000000.
Definition US_PER_DAY : Z := 86400 * US_PER_SECOND.
Definition MAXORDINAL : Z := 3652059.

(** One past [datetime.max], in microseconds since [datetime.min]. *)
Definition DATETIME_END : Z := MAXORDINAL * US_PER_DAY.

(** [timedelta(minutes=10)] and the [ex=3600] of the Redis flag. *)
Definition TEN_MINUTES : Z := 600 * US_PER_SECOND.
Definition ONE_HOUR : Z := 3600 * US_PER_SECOND.

(** The [.ffffff] part, omitted when the microsecond field is zero. *)
Definition fraction (microsecond : Z) : string :=
  if microsecond =? 0 then "" else "." +:+ zfill 6 microsecond.

(** [datetime.isoformat()] *)
Definition isoformat (t : Z) : string :=
  let ordinal := t / US_PER_DAY + 1 in
  let rest := t mod US_PER_DAY in
  let '(year, month, day) := ord2ymd ordinal in
  let microsecond := rest mod US_PER_SECOND in
  let seconds := rest / US_PER_SECOND in
  let second := seconds mod 60 in
  let minutes := seconds / 60 in
  let minute := minutes mod 60 in
  let hour := minutes / 60 in
  zfill 4 year +:+ "-" +:+ zfill 2 month +:+ "-" +:+ zfill 2 day +:+ "T" +:+
  zfill 2 hour +:+ ":" +:+ zfill 2 minute +:+ ":" +:+ zfill 2 second +:+
  fraction microsecond.

(** ** Configuration and request models *)

(** The module-level settings read from the process environment. *)
Record settings : Type := {
  ALERT_EMAIL_ENABLED : bool;
  ALERT_EMAIL_FROM : string;
  ALERT_EMAIL_TO : string;
  ALERT_EMAIL_SMTP_SERVER : string;
  ALERT_EMAIL_SMTP_PORT : Z;
  ALERT_EMAIL_USERNAME : string;
  ALERT_EMAIL_PASSWORD : string;
  ALERT_TELEGRAM_ENABLED : bool;
  ALERT_TELEGRAM_BOT_TOKEN : string;
  ALERT_TELEGRAM_CHAT_ID : string;
  ALERT_DISCORD_ENABLED : bool;
  ALERT_DISCORD_WEBHOOK_URL : string;
  API_KEYS : list string
}.

Record MetricsData : Type := {
  cpu_usage : option float;
  ram_usage : option float;
  disk_usage : option (list (string * float));
  network : option (list (string * list (string * float)));
  services : option (list (string * string));
  ssh_brute_force : option (list (string * pyval));
  timestamp : string;
  agent_name : string;
  hostname : string
}.

Record AlertConfig : Type := {
  cpu_threshold : float;
  ram_threshold : float;
  disk_threshold : float;
  service_alerts : bool;
  ssh_brute_force_alerts : bool
}.

(** [AlertConfig()], every field at its declared default. *)
Definition AlertConfig_default : AlertConfig := {|
  cpu_threshold := 80%float;
  ram_threshold := 85%float;
  disk_threshold := 90%float;
  service_alerts := true;
  ssh_brute_force_alerts := true
|}.

(** ** Stored documents *)

(** The value of an [_id] field: the ObjectId the driver assigns on
    [insert_one], or a string. BSON equality never identifies the two. *)
Inductive bson_id : Type :=
| ObjectId (n : N)
| BsonString (s : string).

Definition bson_id_eqb (a b : bson_id) : bool :=
  match a, b with
  | ObjectId n, ObjectId m => (n =? m)%N
  | BsonString s, BsonString t => String.eqb s t
  | _, _ => false
  end.

Definition hex_digit (n : N) : ascii :=
  if (n <? 10)%N then ascii_of_N (48 + n) else ascii_of_N (87 + n).

Fixpoint hexfill (w : nat) (n : N) : string :=
  match w with
  | O => EmptyString
  | S w' => hexfill w' (n / 16) +:+ String (hex_digit (n mod 16)) EmptyString
  end.

(** [str(_id)]: the 24 hexadecimal digits of an ObjectId. *)
Definition bson_id_str (i : bson_id) : string :=
  match i with
  | ObjectId n => hexfill 24 n
  | BsonString s => s
  end.

Record alert_doc : Type := {
  al_id : bson_id;
  al_agent_name : string;
  al_hostname : string;
  al_alert_type : string;
  al_message : string;
  al_timestamp : string;
  al_acknowledged : bool
}.

(** An agent document. Its only writers are the upsert of
    [receive_metrics], which sets the first three fields, and
    [update_agent_config], which stores [config.dict()] of a validated
    [AlertConfig]; so rebuilding an [AlertConfig] from the stored
    dictionary in [check_thresholds] yields the stored record. *)
Record agent_doc : Type := {
  ag_name : string;
  ag_hostname : string;
  ag_last_seen : string;
  ag_alert_config : option AlertConfig
}.

(** ** The world outside the process *)

Inductive log_level : Type := INFO | ERROR.

Inductive smtp_step : Type :=
| SmtpConnect (server : string) (port : Z)
| SmtpStartTls
| SmtpLogin (username password : string)
| SmtpSendMessage (from to subject body : string)
| SmtpQuit.

Inductive http_result : Type :=
| HttpRaises (msg : string)
| HttpResponse (status_code : Z) (text : string).

Inductive event : Type :=
| EvInsertMetrics
| EvInsertAlert (d : alert_doc)
| EvUpdateAlert (matched modified : Z)
| EvUpdateAgent (name : string)
| EvRedisSet (key : string) (expires_at : Z)
| EvSmtp (step : smtp_step)
| EvHttpPost (url : string) (payload : list (string * string)).

Inductive exn : Type :=
| HTTPException (status_code : Z) (detail : string)
| PyMongoError
| OverflowError
| SMTPException (msg : string)
| RequestException (msg : string).

Record world : Type := {
  metrics_collection : list MetricsData;
  alerts_collection : list alert_doc;
  agents_collection : list agent_doc;
  oid_counter : N;
  redis_client : gmap string (string * Z);
  logger : list (log_level * string);
  trace : list event
}.

(** What one operation is run against: the settings, the clock reading
    [datetime.now()] (also the clock of the Redis server), whether MongoDB
    answers, and how the SMTP server and the HTTP endpoints react to the
    call made at a given position of the trace. *)
Record env : Type := {
  config : settings;
  now : Z;
  mongo_up : bool;
  smtp_fault : nat -> smtp_step -> option string;
  http_reply : nat -> string -> http_result
}.

(** ** The state-and-exception monad *)

Inductive result (A : Type) : Type :=
| Ok (a : A) (w : world)
| Raise (e : exn) (w : world).
Arguments Ok {A} a w.
Arguments Raise {A} e w.

Definition M (A : Type) : Type := env -> world -> result A.

Definition ret {A : Type} (a : A) : M A := fun _ w => Ok a w.

Definition bind {A B : Type} (c : M A) (k : A -> M B) : M B :=
  fun e w =>
    match c e w with
    | Ok a w' => k a e w'
    | Raise x w' => Raise x w'
    end.

Definition raise {A : Type} (x : exn) : M A := fun _ w => Raise x w.

(** [try: body  except Exception as x: handler x]; every modelled
    exception derives from [Exception]. *)
Definition try_except {A : Type} (body : M A) (handler : exn -> M A) : M A :=
  fun e w =>
    match body e w with
    | Ok a w' => Ok a w'
    | Raise x w' => handler x e w'
    end.

Notation "x <- c ;; k" := (bind c (fun x => k))
  (at level 90, c at level 89, k at level 200, right associativity).
Notation "c ;;; k" := (bind c (fun _ => k))
  (at level 90, k at level 200, right associativity).

Definition when (b : bool) (c : M unit) : M unit :=
  if b then c else ret tt.

(** [for x in xs: acc = body acc x] *)
Fixpoint for_each {A B : Type} (xs : list A) (acc : B) (body : B -> A -> M B)
  : M B :=
  match xs with
  | [] => ret acc
  | x :: xs' => acc' <- body acc x ;; for_each xs' acc' body
  end.

Definition res_world {A : Type} (r : result A) : world :=
  match r with Ok _ w => w | Raise _ w => w end.

Definition ask : M env := fun e w => Ok e w.
Definition get_world : M world := fun _ w => Ok w w.

(** ** Primitive effects *)

Definition set_alerts (w : world) (l : list alert_doc) : world :=
  {| metrics_collection := metrics_collection w; alerts_collection := l;
     agents_collection := agents_collection w; oid_counter := oid_counter w;
     redis_client := redis_client w; logger := logger w; trace := trace w |}.

Definition set_agents (w : world) (l : list agent_doc) : world :=
  {| metrics_collection := metrics_collection w;
     alerts_collection := alerts_collection w;
     agents_collection := l; oid_counter := oid_counter w;
     redis_client := redis_client w; logger := logger w; trace := trace w |}.

Definition set_metrics (w : world) (l : list MetricsData) : world :=
  {| metrics_collection := l; alerts_collection := alerts_collection w;
     agents_collection := agents_collection w; oid_counter := oid_counter w;
     redis_client := redis_client w; logger := logger w; trace := trace w |}.

Definition set_oid_counter (w : world) (n : N) : world :=
  {| metrics_collection := metrics_collection w;
     alerts_collection := alerts_collection w;
     agents_collection := agents_collection w; oid_counter := n;
     redis_client := redis_client w; logger := logger w; trace := trace w |}.

Definition set_redis (w : world) (r : gmap string (string * Z)) : world :=
  {| metrics_collection := metrics_collection w;
     alerts_collection := alerts_collection w;
     agents_collection := agents_collection w; oid_counter := oid_counter w;
     redis_client := r; logger := logger w; trace := trace w |}.

Definition add_log (w : world) (lvl : log_level) (msg : string) : world :=
  {| metrics_collection := metrics_collection w;
     alerts_collection := alerts_collection w;
     agents_collection := agents_collection w; oid_counter := oid_counter w;
     redis_client := redis_client w; logger := logger w ++ [(lvl, msg)];
     trace := trace w |}.

Definition emit (w : world) (ev : event) : world :=
  {| metrics_collection := metrics_collection w;
     alerts_collection := alerts_collection w;
     agents_collection := agents_collection w; oid_counter := oid_counter w;
     redis_client := redis_client w; logger := logger w;
     trace := trace w ++ [ev] |}.

(** [logger.info(msg)] and [logger.error(msg)] *)
Definition log (lvl : log_level) (msg : string) : M unit :=
  fun _ w => Ok tt (add_log w lvl msg).

(** Every MongoDB call raises when the server does not answer. *)
Definition mongo_call : M unit :=
  fun e w => if mongo_up e then Ok tt w else Raise PyMongoError w.

(** [str(e)] of a caught exception. *)
Definition exn_str (x : exn) : string :=
  match x with
  | HTTPException _ detail => detail
  | PyMongoError => "MongoDB is not available"
  | OverflowError => "date value out of range"
  | SMTPException msg => msg
  | RequestException msg => msg
  end.

(** One call on the [smtplib.SMTP] session. *)
Definition smtp (step : smtp_step) : M unit :=
  fun e w =>
    let w' := emit w (EvSmtp step) in
    match smtp_fault e (length (trace w)) step with
    | Some msg => Raise (SMTPException msg) w'
    | None => Ok tt w'
    end.

(** [requests.post(url, ...)], returning the status code and the text. *)
Definition requests_post (url : string) (payload : list (string * string))
  : M (Z * string) :=
  fun e w =>
    let w' := emit w (EvHttpPost url payload) in
    match http_reply e (length (trace w)) url with
    | HttpRaises msg => Raise (RequestException msg) w'
    | HttpResponse status_code text => Ok (status_code, text) w'
    end.

(** [alerts_collection.insert_one(doc).inserted_id]: the driver assigns a
    fresh ObjectId. *)
Definition insert_one_alert
  (agent_name hostname alert_type message timestamp : string)
  (acknowledged : bool) : M bson_id :=
  mongo_call ;;;
  fun _ w =>
    let doc := {| al_id := ObjectId (oid_counter w);
                  al_agent_name := agent_name; al_hostname := hostname;
                  al_alert_type := alert_type; al_message := message;
                  al_timestamp := timestamp;
                  al_acknowledged := acknowledged |} in
    Ok (al_id doc)
       (emit (set_oid_counter (set_alerts w (alerts_collection w ++ [doc]))
                              (oid_counter w + 1)%N)
             (EvInsertAlert doc)).

(** [collection.find_one(filter)] and [list(collection.find(filter))] *)
Definition find_one_agent (p : agent_doc -> bool) : M (option agent_doc) :=
  mongo_call ;;; fun _ w => Ok (List.find p (agents_collection w)) w.

Definition find_agents (p : agent_doc -> bool) : M (list agent_doc) :=
  mongo_call ;;; fun _ w => Ok (List.filter p (agents_collection w)) w.

Record UpdateResult : Type := {
  matched_count : Z;
  modified_count : Z
}.

(** [update_one] on a collection: the first document matching [p] is
    updated by [f], which answers [None] when the update leaves the
    document as it is. *)
Fixpoint update_first {A : Type} (p : A -> bool) (f : A -> option A)
  (l : list A) : list A * UpdateResult :=
  match l with
  | [] => ([], {| matched_count := 0; modified_count := 0 |})
  | x :: l' =>
      if p x then
        match f x with
        | Some y => (y :: l', {| matched_count := 1; modified_count := 1 |})
        | None => (x :: l', {| matched_count := 1; modified_count := 0 |})
        end
      else
        let '(l'', r) := update_first p f l' in (x :: l'', r)
  end.

Definition update_one_alert (p : alert_doc -> bool)
  (f : alert_doc -> option alert_doc) : M UpdateResult :=
  mongo_call ;;;
  fun _ w =>
    let '(l, r) := update_first p f (alerts_collection w) in
    Ok r (emit (set_alerts w l)
               (EvUpdateAlert (matched_count r) (modified_count r))).

Definition update_one_agent (name : string) (p : agent_doc -> bool)
  (f : agent_doc -> option agent_doc) (upsert : option agent_doc)
  : M UpdateResult :=
  mongo_call ;;;
  fun _ w =>
    let '(l, r) := update_first p f (agents_collection w) in
    let l' := match upsert with
              | Some d => if matched_count r =? 0 then l ++ [d] else l
              | None => l
              end in
    Ok r (emit (set_agents w l') (EvUpdateAgent name)).

Definition insert_one_metrics (m : MetricsData) : M unit :=
  mongo_call ;;;
  fun _ w =>
    Ok tt (emit (set_metrics w (metrics_collection w ++ [m])) EvInsertMetrics).

(** [redis_client.get(key)]: the value of a key that has not expired.
    Redis drops a key once the clock has passed its expiry time, so at the
    instant of the expiry the key is still served. *)
Definition redis_get (key : string) : M (option string) :=
  fun e w =>
    Ok (match redis_client w !! key with
        | Some (v, expires_at) => if now e <=? expires_at then Some v else None
        | None => None
        end) w.

(** [redis_client.set(key, value, ex=seconds)] *)
Definition redis_set (key value : string) (ex : Z) : M unit :=
  fun e w =>
    Ok tt (emit (set_redis w (<[key := (value, now e + ex)]> (redis_client w)))
                (EvRedisSet key (now e + ex))).

(** Truth value of an optional byte string. *)
Definition bytes_truthy (v : option string) : bool :=
  match v with
  | Some s => negb (String.eqb s "")
  | None => false
  end.

Definition str_truthy (s : string) : bool := negb (String.eqb s "").

(** ** Notification channels *)

Definition send_email_alert (subject message : string) : M bool :=
  e <- ask ;;
  let c := config e in
  if negb (ALERT_EMAIL_ENABLED c) then
    log INFO "Email alerts are disabled" ;;; ret false
  else
    try_except
      (smtp (SmtpConnect (ALERT_EMAIL_SMTP_SERVER c) (ALERT_EMAIL_SMTP_PORT c)) ;;;
       when (str_truthy (ALERT_EMAIL_USERNAME c)
             && str_truthy (ALERT_EMAIL_PASSWORD c))
         (smtp SmtpStartTls ;;;
          smtp (SmtpLogin (ALERT_EMAIL_USERNAME c) (ALERT_EMAIL_PASSWORD c))) ;;;
       smtp (SmtpSendMessage (ALERT_EMAIL_FROM c) (ALERT_EMAIL_TO c)
                             subject message) ;;;
       smtp SmtpQuit ;;;
       log INFO ("Email alert sent: " +:+ subject) ;;;
       ret true)
      (fun x =>
         log ERROR ("Failed to send email alert: " +:+ exn_str x) ;;;
         ret false).

Definition send_telegram_alert (message : string) : M bool :=
  e <- ask ;;
  let c := config e in
  if negb (ALERT_TELEGRAM_ENABLED c) then
    log INFO "Telegram alerts are disabled" ;;; ret false
  else
    try_except
      (let url := "https://api.telegram.org/bot" +:+ ALERT_TELEGRAM_BOT_TOKEN c
                  +:+ "/sendMessage" in
       let data := [("chat_id", ALERT_TELEGRAM_CHAT_ID c); ("text", message);
                    ("parse_mode", "Markdown")] in
       response <- requests_post url data ;;
       if response.1 =? 200 then
         log INFO "Telegram alert sent" ;;; ret true
       else
         log ERROR ("Failed to send Telegram alert: " +:+ response.2) ;;;
         ret false)
      (fun x =>
         log ERROR ("Failed to send Telegram alert: " +:+ exn_str x) ;;;
         ret false).

Definition send_discord_alert (message : string) : M bool :=
  e <- ask ;;
  let c := config e in
  if negb (ALERT_DISCORD_ENABLED c) then
    log INFO "Discord alerts are disabled" ;;; ret false
  else
    try_except
      (let data := [("content", message)] in
       response <- requests_post (ALERT_DISCORD_WEBHOOK_URL c) data ;;
       if response.1 =? 204 then
         log INFO "Discord alert sent" ;;; ret true
       else
         log ERROR ("Failed to send Discord alert: " +:+ pretty response.1
                    +:+ " - " +:+ response.2) ;;;
         ret false)
      (fun x =>
         log ERROR ("Failed to send Discord alert: " +:+ exn_str x) ;;;
         ret false).

(** Send an alert through all configured channels. *)
Definition send_alert (alert_type agent_name hostname message : string)
  : M string :=
  e <- ask ;;
  let c := config e in
  let timestamp := isoformat (now e) in
  alert_id <- insert_one_alert agent_name hostname alert_type message
                               timestamp false ;;
  let alert_message :=
    nl +:+ "ALERT: " +:+ alert_type +:+ nl +:+
    "Agent: " +:+ agent_name +:+ " (" +:+ hostname +:+ ")" +:+ nl +:+
    "Time: " +:+ timestamp +:+ nl +:+
    "Message: " +:+ message +:+ nl +:+ "    " in
  when (ALERT_EMAIL_ENABLED c)
    (send_email_alert
       ("Sentora Alert: " +:+ alert_type +:+ " on " +:+ hostname)
       alert_message ;;; ret tt) ;;;
  when (ALERT_TELEGRAM_ENABLED c)
    (send_telegram_alert alert_message ;;; ret tt) ;;;
  when (ALERT_DISCORD_ENABLED c)
    (send_discord_alert alert_message ;;; ret tt) ;;;
  ret (bson_id_str alert_id).

(** ** Threshold checks *)

(** The effective configuration of [check_thresholds]: the stored
    [alert_config] of the agent, the defaults when the agent is unknown or
    has none. *)
Definition resolve_alert_config (agent_config : option agent_doc)
  : AlertConfig :=
  match agent_config with
  | Some doc =>
      match ag_alert_config doc with
      | Some c => c
      | None => AlertConfig_default
      end
  | None => AlertConfig_default
  end.

Section Thresholds.
Context `{PyRuntime}.

(** Check if any metrics exceed thresholds and send alerts if needed. *)
Definition check_thresholds (metrics : MetricsData)
  : M (list (list (string * string))) :=
  let agent_name := agent_name metrics in
  let hostname := hostname metrics in
  let alerts_sent := [] in
  agent_config <- find_one_agent (fun d => String.eqb (ag_name d) agent_name) ;;
  let alert_config := resolve_alert_config agent_config in
  alerts_sent <-
    match cpu_usage metrics with
    | Some cpu =>
        if PrimFloat.ltb (cpu_threshold alert_config) cpu then
          let message :=
            "CPU usage is " +:+ float_repr cpu +:+
            "%, which exceeds the threshold of " +:+
            float_repr (cpu_threshold alert_config) +:+ "%" in
          alert_id <- send_alert "CPU_HIGH" agent_name hostname message ;;
          ret (alerts_sent ++ [[("type", "CPU_HIGH"); ("id", alert_id)]])
        else ret alerts_sent
    | None => ret alerts_sent
    end ;;
  alerts_sent <-
    match ram_usage metrics with
    | Some ram =>
        if PrimFloat.ltb (ram_threshold alert_config) ram then
          let message :=
            "RAM usage is " +:+ float_repr ram +:+
            "%, which exceeds the threshold of " +:+
            float_repr (ram_threshold alert_config) +:+ "%" in
          alert_id <- send_alert "RAM_HIGH" agent_name hostname message ;;
          ret (alerts_sent ++ [[("type", "RAM_HIGH"); ("id", alert_id)]])
        else ret alerts_sent
    | None => ret alerts_sent
    end ;;
  alerts_sent <-
    match disk_usage metrics with
    | Some items =>
        for_each items alerts_sent (fun alerts_sent '(path, usage) =>
          if PrimFloat.ltb (disk_threshold alert_config) usage then
            let message :=
              "Disk usage for " +:+ path +:+ " is " +:+ float_repr usage +:+
              "%, which exceeds the threshold of " +:+
              float_repr (disk_threshold alert_config) +:+ "%" in
            alert_id <- send_alert "DISK_HIGH" agent_name hostname message ;;
            ret (alerts_sent ++
                 [[("type", "DISK_HIGH"); ("id", alert_id); ("path", path)]])
          else ret alerts_sent)
    | None => ret alerts_sent
    end ;;
  alerts_sent <-
    match service_alerts alert_config, services metrics with
    | true, Some items =>
        for_each items alerts_sent (fun alerts_sent '(service, status) =>
          if negb (String.eqb status "active") then
            let message := "Service " +:+ service +:+ " is " +:+ status in
            alert_id <- send_alert "SERVICE_DOWN" agent_name hostname message ;;
            ret (alerts_sent ++
                 [[("type", "SERVICE_DOWN"); ("id", alert_id);
                   ("service", service)]])
          else ret alerts_sent)
    | _, _ => ret alerts_sent
    end ;;
  alerts_sent <-
    match ssh_brute_force_alerts alert_config, ssh_brute_force metrics with
    | true, Some d =>
        if py_bool (default (PBool false) (dict_get d "threshold_exceeded"))
        then
          let failed_attempts :=
            default (PInt 0) (dict_get d "failed_attempts") in
          let message :=
            "SSH brute force attack detected with " +:+
            py_str failed_attempts +:+ " failed login attempts" in
          alert_id <- send_alert "SSH_BRUTE_FORCE" agent_name hostname message ;;
          ret (alerts_sent ++ [[("type", "SSH_BRUTE_FORCE"); ("id", alert_id)]])
        else ret alerts_sent
    | _, _ => ret alerts_sent
    end ;;
  ret alerts_sent.
End Thresholds.

(** ** API endpoints *)

Definition verify_api_key (x_api_key : string) : M string :=
  e <- ask ;;
  if negb (existsb (String.eqb x_api_key) (API_KEYS (config e))) then
    raise (HTTPException 401 "Invalid API key")
  else ret x_api_key.

(** [POST /data], up to the response; the threshold check is queued as a
    background task and runs after it ([submit] below). *)
Definition receive_metrics (metrics : MetricsData) (x_api_key : string)
  : M (list (string * string)) :=
  verify_api_key x_api_key ;;;
  log INFO ("Received metrics from " +:+ agent_name metrics +:+ " (" +:+
            hostname metrics +:+ ")") ;;;
  insert_one_metrics metrics ;;;
  e <- ask ;;
  let last_seen := isoformat (now e) in
  update_one_agent (agent_name metrics)
    (fun d => String.eqb (ag_name d) (agent_name metrics))
    (fun d => Some {| ag_name := agent_name metrics;
                      ag_hostname := hostname metrics;
                      ag_last_seen := last_seen;
                      ag_alert_config := ag_alert_config d |})
    (Some {| ag_name := agent_name metrics;
             ag_hostname := hostname metrics;
             ag_last_seen := last_seen;
             ag_alert_config := None |}) ;;;
  ret [("status", "success"); ("message", "Metrics received")].

(** One report: the request handler, then its background task. *)
Definition submit `{PyRuntime} (metrics : MetricsData) (x_api_key : string)
  : M (list (list (string * string))) :=
  receive_metrics metrics x_api_key ;;; check_thresholds metrics.

(** [POST /alerts/{alert_id}/acknowledge] *)
Definition acknowledge_alert (alert_id : string) (x_api_key : string)
  : M (list (string * string)) :=
  verify_api_key x_api_key ;;;
  result <- update_one_alert
              (fun d => bson_id_eqb (al_id d) (BsonString alert_id))
              (fun d =>
                 if al_acknowledged d then None
                 else Some {| al_id := al_id d;
                              al_agent_name := al_agent_name d;
                              al_hostname := al_hostname d;
                              al_alert_type := al_alert_type d;
                              al_message := al_message d;
                              al_timestamp := al_timestamp d;
                              al_acknowledged := true |}) ;;
  if modified_count result =? 0 then
    raise (HTTPException 404 "Alert not found")
  else ret [("status", "success"); ("message", "Alert acknowledged")].

(** [POST /agent/{agent_name}/config] *)
Definition update_agent_config (agent_name : string) (cfg : AlertConfig)
  (x_api_key : string) : M (list (string * string)) :=
  verify_api_key x_api_key ;;;
  result <- update_one_agent agent_name
              (fun d => String.eqb (ag_name d) agent_name)
              (fun d => Some {| ag_name := ag_name d;
                                ag_hostname := ag_hostname d;
                                ag_last_seen := ag_last_seen d;
                                ag_alert_config := Some cfg |})
              None ;;
  if matched_count result =? 0 then
    raise (HTTPException 404 "Agent not found")
  else ret [("status", "success"); ("message", "Agent configuration updated")].

(** ** The periodic liveness task *)

(** The body of the loop of [check_agent_status] for one inactive agent:
    alert unless the Redis flag of the agent is set, then set the flag for
    an hour. Answers whether an alert was sent. *)
Definition alert_inactive_agent (agent : agent_doc) : M bool :=
  let alert_key := "agent_inactive:" +:+ ag_name agent in
  flag <- redis_get alert_key ;;
  if negb (bytes_truthy flag) then
    let message := "Agent has not reported in over 10 minutes" in
    send_alert "AGENT_INACTIVE" (ag_name agent) (ag_hostname agent) message ;;;
    redis_set alert_key "1" ONE_HOUR ;;;
    ret true
  else ret false.

(** The two parts of that body between which another worker can run:
    the check of the flag, one Redis round trip, and what follows it for
    the answer [flag] the check gave. [alert_inactive_agent] is the first
    followed by the second. *)
Definition gate_check (agent : agent_doc) : M (option string) :=
  redis_get ("agent_inactive:" +:+ ag_name agent).

Definition gate_admit (agent : agent_doc) (flag : option string) : M bool :=
  let alert_key := "agent_inactive:" +:+ ag_name agent in
  if negb (bytes_truthy flag) then
    let message := "Agent has not reported in over 10 minutes" in
    send_alert "AGENT_INACTIVE" (ag_name agent) (ag_hostname agent) message ;;;
    redis_set alert_key "1" ONE_HOUR ;;;
    ret true
  else ret false.

(** The query of [check_agent_status]: the agents whose [last_seen] string
    is below the rendered threshold. *)
Definition inactive_agents (threshold : Z) (agents : list agent_doc)
  : list agent_doc :=
  List.filter (fun d => String.ltb (ag_last_seen d) (isoformat threshold))
              agents.

(** Check if any agents have stopped reporting. *)
Definition check_agent_status : M unit :=
  e <- ask ;;
  if now e - TEN_MINUTES <? 0 then raise OverflowError
  else
    let threshold := now e - TEN_MINUTES in
    inactive <- find_agents
                  (fun d => String.ltb (ag_last_seen d) (isoformat threshold)) ;;
    for_each inactive tt (fun _ agent =>
      alert_inactive_agent agent ;;; ret tt).

(** ** The threshold evaluator as a pure function

    The specification describes [check_thresholds] as a pure evaluator
    that produces candidates, each of which is then recorded and
    dispatched. [Evaluate] follows that description, with the alert types
    and messages of the code; [check_thresholds_refines] below shows that
    the code is [fire_all] over it. *)

Record AlertCandidate : Type := {
  kind : string;
  detail : string;
  extra : list (string * string)
}.

Section Evaluator.
Context `{PyRuntime}.

Definition cpu_candidates (m : MetricsData) (policy : AlertConfig)
  : list AlertCandidate :=
  match cpu_usage m with
  | Some cpu =>
      if PrimFloat.ltb (cpu_threshold policy) cpu then
        [{| kind := "CPU_HIGH";
            detail := "CPU usage is " +:+ float_repr cpu +:+
                      "%, which exceeds the threshold of " +:+
                      float_repr (cpu_threshold policy) +:+ "%";
            extra := [] |}]
      else []
  | None => []
  end.

Definition ram_candidates (m : MetricsData) (policy : AlertConfig)
  : list AlertCandidate :=
  match ram_usage m with
  | Some ram =>
      if PrimFloat.ltb (ram_threshold policy) ram then
        [{| kind := "RAM_HIGH";
            detail := "RAM usage is " +:+ float_repr ram +:+
                      "%, which exceeds the threshold of " +:+
                      float_repr (ram_threshold policy) +:+ "%";
            extra := [] |}]
      else []
  | None => []
  end.

Definition disk_candidate (policy : AlertConfig) (item : string * float)
  : AlertCandidate :=
  {| kind := "DISK_HIGH";
     detail := "Disk usage for " +:+ item.1 +:+ " is " +:+
               float_repr item.2 +:+
               "%, which exceeds the threshold of " +:+
               float_repr (disk_threshold policy) +:+ "%";
     extra := [("path", item.1)] |}.

Definition disk_candidates (m : MetricsData) (policy : AlertConfig)
  : list AlertCandidate :=
  match disk_usage m with
  | Some items =>
      map (disk_candidate policy)
          (List.filter (fun item => PrimFloat.ltb (disk_threshold policy) item.2)
                       items)
  | None => []
  end.

Definition service_candidate (item : string * string) : AlertCandidate :=
  {| kind := "SERVICE_DOWN";
     detail := "Service " +:+ item.1 +:+ " is " +:+ item.2;
     extra := [("service", item.1)] |}.

Definition service_candidates (m : MetricsData) (policy : AlertConfig)
  : list AlertCandidate :=
  match service_alerts policy, services m with
  | true, Some items =>
      map service_candidate
          (List.filter (fun item => negb (String.eqb item.2 "active")) items)
  | _, _ => []
  end.

Definition ssh_candidates (m : MetricsData) (policy : AlertConfig)
  : list AlertCandidate :=
  match ssh_brute_force_alerts policy, ssh_brute_force m with
  | true, Some d =>
      if py_bool (default (PBool false) (dict_get d "threshold_exceeded"))
      then
        [{| kind := "SSH_BRUTE_FORCE";
            detail := "SSH brute force attack detected with " +:+
                      py_str (default (PInt 0) (dict_get d "failed_attempts"))
                      +:+ " failed login attempts";
            extra := [] |}]
      else []
  | _, _ => []
  end.

Definition Evaluate (snapshot : MetricsData) (policy : AlertConfig)
  : list AlertCandidate :=
  cpu_candidates snapshot policy ++ ram_candidates snapshot policy ++
  disk_candidates snapshot policy ++ service_candidates snapshot policy ++
  ssh_candidates snapshot policy.
End Evaluator.

(** Record and dispatch one candidate, and note it in [alerts_sent]. *)
Definition fire (agent_name hostname : string)
  (alerts_sent : list (list (string * string))) (c : AlertCandidate)
  : M (list (list (string * string))) :=
  alert_id <- send_alert (kind c) agent_name hostname (detail c) ;;
  ret (alerts_sent ++ [[("type", kind c); ("id", alert_id)] ++ extra c]).

Definition fire_all (agent_name hostname : string)
  (cs : list AlertCandidate) (alerts_sent : list (list (string * string)))
  : M (list (list (string * string))) :=
  for_each cs alerts_sent (fire agent_name hostname).

(** ** Observations used in the statements *)

Definition has_type (ty : string) (d : alert_doc) : bool :=
  String.eqb (al_alert_type d) ty.

(** The alert records an operation added to the collection. *)
Definition new_alerts {A : Type} (w : world) (r : result A) : list alert_doc :=
  drop (length (alerts_collection w)) (alerts_collection (res_world r)).

Definition result_value {A : Type} (r : result A) : option A :=
  match r with Ok a _ => Some a | Raise _ _ => None end.

(** The entries of [alerts_sent] of a given type. *)
Definition sent_of_type (ty : string) (sent : list (list (string * string)))
  : list (list (string * string)) :=
  List.filter (fun entry => match dict_get entry "type" with
                            | Some t => String.eqb t ty
                            | None => false
                            end) sent.

Definition is_channel_event (ev : event) : bool :=
  match ev with
  | EvSmtp _ | EvHttpPost _ _ => true
  | _ => false
  end.

Definition is_smtp_event (ev : event) : bool :=
  match ev with EvSmtp _ => true | _ => false end.

(** The record [send_alert] inserts into a world. *)
Definition alert_record (e : env) (w : world)
  (alert_type agent_name hostname message : string) : alert_doc :=
  {| al_id := ObjectId (oid_counter w);
     al_agent_name := agent_name; al_hostname := hostname;
     al_alert_type := alert_type; al_message := message;
     al_timestamp := isoformat (now e); al_acknowledged := false |}.

Definition enabled_channels (c : settings) : nat :=
  (if ALERT_EMAIL_ENABLED c then 1 else 0)%nat +
  (if ALERT_TELEGRAM_ENABLED c then 1 else 0)%nat +
  (if ALERT_DISCORD_ENABLED c then 1 else 0)%nat.

(** A Redis key holds a live flag. *)
Definition live (e : env) (w : world) (key : string) : Prop :=
  exists v expires_at,
    redis_client w !! key = Some (v, expires_at) /\ now e <= expires_at.

(** Every flag in Redis is one the liveness task wrote. *)
Definition flags_ok (w : world) : Prop :=
  forall key v expires_at,
    redis_client w !! key = Some (v, expires_at) -> v = "1".

Definition inactive_key (agent : agent_doc) : string :=
  "agent_inactive:" +:+ ag_name agent.

(** An operation left the collections, the id counter and Redis as they
    were. *)
Definition same_store (w w' : world) : Prop :=
  metrics_collection w' = metrics_collection w /\
  alerts_collection w' = alerts_collection w /\
  agents_collection w' = agents_collection w /\
  oid_counter w' = oid_counter w /\
  redis_client w' = redis_client w.

(** The shape of the calls one channel makes when it is attempted. *)
Definition email_attempt (c : settings) (evs : list event) : Prop :=
  exists rest,
    evs = EvSmtp (SmtpConnect (ALERT_EMAIL_SMTP_SERVER c)
                              (ALERT_EMAIL_SMTP_PORT c)) :: rest /\
    forallb is_smtp_event rest = true.

Definition telegram_attempt (c : settings) (evs : list event) : Prop :=
  exists text,
    evs = [EvHttpPost ("https://api.telegram.org/bot" +:+
                       ALERT_TELEGRAM_BOT_TOKEN c +:+ "/sendMessage")
                      [("chat_id", ALERT_TELEGRAM_CHAT_ID c); ("text", text);
                       ("parse_mode", "Markdown")]].

Definition discord_attempt (c : settings) (evs : list event) : Prop :=
  exists text,
    evs = [EvHttpPost (ALERT_DISCORD_WEBHOOK_URL c) [("content", text)]].

(** A channel function returned normally: it touched no store, made the
    calls [P] describes and logged exactly one line. *)
Definition channel_ok (c : M bool) (e : env) (w : world)
  (P : list event -> Prop) : Prop :=
  exists b w' evs entry,
    c e w = Ok b w' /\ same_store w w' /\
    trace w' = trace w ++ evs /\ P evs /\
    logger w' = logger w ++ [entry].

(** The calls of one fan-out: those of the e-mail channel, then of the
    Telegram channel, then of the Discord channel, each present exactly
    when the channel is enabled. *)
Definition dispatched (c : settings) (sends : list event) : Prop :=
  exists evs_email evs_telegram evs_discord,
    sends = evs_email ++ evs_telegram ++ evs_discord /\
    (if ALERT_EMAIL_ENABLED c then email_attempt c evs_email
     else evs_email = []) /\
    (if ALERT_TELEGRAM_ENABLED c then telegram_attempt c evs_telegram
     else evs_telegram = []) /\
    (if ALERT_DISCORD_ENABLED c then discord_attempt c evs_discord
     else evs_discord = []).

(** What a completed [send_alert] did to the world: the record [d] was
    appended, then the enabled channels were tried, one log line each. *)
Definition alert_fired (e : env) (w : world) (d : alert_doc) (w' : world)
  : Prop :=
  alerts_collection w' = alerts_collection w ++ [d] /\
  oid_counter w' = (oid_counter w + 1)%N /\
  metrics_collection w' = metrics_collection w /\
  agents_collection w' = agents_collection w /\
  redis_client w' = redis_client w /\
  exists sends logs,
    trace w' = trace w ++ EvInsertAlert d :: sends /\
    dispatched (config e) sends /\
    logger w' = logger w ++ logs /\
    length logs = enabled_channels (config e).

(** The records and the [alerts_sent] entries that firing the candidates
    [cs] produces when the next ObjectId is [n]. *)
Fixpoint fired_docs (e : env) (agent_name hostname : string) (n : N)
  (cs : list AlertCandidate) : list alert_doc :=
  match cs with
  | [] => []
  | c :: cs' =>
      {| al_id := ObjectId n; al_agent_name := agent_name;
         al_hostname := hostname; al_alert_type := kind c;
         al_message := detail c; al_timestamp := isoformat (now e);
         al_acknowledged := false |}
      :: fired_docs e agent_name hostname (n + 1)%N cs'
  end.

Fixpoint fired_entries (n : N) (cs : list AlertCandidate)
  : list (list (string * string)) :=
  match cs with
  | [] => []
  | c :: cs' =>
      ([("type", kind c); ("id", hexfill 24 n)] ++ extra c)
      :: fired_entries (n + 1)%N cs'
  end.

(** The agent document [check_thresholds] looks up. *)
Definition stored_agent (w : world) (name : string) : option agent_doc :=
  List.find (fun d => String.eqb (ag_name d) name) (agents_collection w).

Definition of_kind (ty : string) (c : AlertCandidate) : bool :=
  String.eqb (kind c) ty.

(** A run raised no alert of type [ty]: it inserted no record of the type
    and, if it completed, its [alerts_sent] has no entry of the type. *)
Definition no_alert_of_type (ty : string) (w : world)
  (r : result (list (list (string * string)))) : Prop :=
  List.filter (has_type ty) (new_alerts w r) = [] /\
  forall sent, result_value r = Some sent -> sent_of_type ty sent = [].

(** The entries of [alerts_sent] that name the disk path [path]. *)
Definition entries_for_path (path : string)
  (sent : list (list (string * string))) : list (list (string * string)) :=
  List.filter (fun entry => match dict_get entry "path" with
                            | Some p => String.eqb p path
                            | None => false
                            end) sent.

(** The disk items over the threshold of a policy. *)
Definition over_threshold (policy : AlertConfig)
  (items : list (string * float)) : list (string * float) :=
  List.filter (fun item => PrimFloat.ltb (disk_threshold policy) item.2) items.

(** The delivery outcomes a run logged: [true] for an INFO line, [false]
    for an ERROR line. *)
Definition logged_outcomes (w : world) : list bool :=
  map (fun entry => match entry.1 with INFO => true | ERROR => false end)
      (logger w).

(** The loop body of [check_agent_status], as run for each inactive
    agent. *)
Definition sweep_body (_ : unit) (agent : agent_doc) : M unit :=
  alert_inactive_agent agent ;;; ret tt.

(** The decidable form of [live]. *)
Definition live_b (e : env) (w : world) (key : string) : bool :=
  match redis_client w !! key with
  | Some (_, expires_at) => now e <=? expires_at
  | None => false
  end.

(** The agents of a list that a sweep admits: those without a live flag. *)
Definition admitted (e : env) (w : world) (agents : list agent_doc)
  : list agent_doc :=
  List.filter (fun a => negb (live_b e w (inactive_key a))) agents.

(** What the writers of the agents collection maintain: one document per
    agent name, each with a [last_seen] that renders a datetime. *)
Definition agents_wf (agents : list agent_doc) : Prop :=
  List.NoDup (map ag_name agents) /\
  Forall (fun d => exists t, 0 <= t < DATETIME_END /\
                             ag_last_seen d = isoformat t) agents.

(** No [SmtpLogin] in [evs] unless the session has been secured by
    [SmtpStartTls] since its [SmtpConnect]. *)
Fixpoint tls_before_login (secured : bool) (evs : list event) : bool :=
  match evs with
  | [] => true
  | EvSmtp (SmtpConnect _ _) :: rest => tls_before_login false rest
  | EvSmtp SmtpStartTls :: rest => tls_before_login true rest
  | EvSmtp (SmtpLogin _ _) :: rest => secured && tls_before_login secured rest
  | _ :: rest => tls_before_login secured rest
  end.

Definition is_login_event (ev : event) : bool :=
  match ev with
  | EvSmtp (SmtpLogin _ _) | EvSmtp SmtpStartTls => true
  | _ => false
  end.

(** The records of [docs] about the agent called [name]. *)
Definition records_about (name : string) (docs : list alert_doc)
  : list alert_doc :=
  List.filter (fun d => String.eqb (al_agent_name d) name) docs.

(** What a record says, its id and its timestamp apart: type, agent,
    hostname, message and the acknowledged flag. *)
Definition record_content (d : alert_doc)
  : string * string * string * string * bool :=
  (al_alert_type d, al_agent_name d, al_hostname d, al_message d,
   al_acknowledged d).

(** What the liveness task records about an agent it alerts for. *)
Definition inactive_content (agent : agent_doc)
  : string * string * string * string * bool :=
  ("AGENT_INACTIVE", ag_name agent, ag_hostname agent,
   "Agent has not reported in over 10 minutes", false).


(** Runs of the liveness task one after the other, at the moments of
    [es]; the result lists, run by run, the records the run inserted. *)
Fixpoint sweep_each (es : list env) (w : world)
  : result (list (list alert_doc)) :=
  match es with
  | [] => Ok [] w
  | e :: es' =>
      match check_agent_status e w with
      | Raise x w1 => Raise x w1
      | Ok _ w1 =>
          match sweep_each es' w1 with
          | Raise x w2 => Raise x w2
          | Ok runs w2 => Ok (new_alerts w (check_agent_status e w) :: runs) w2
          end
      end
  end.

(** The services whose status is anything but [active]. *)
Definition not_active (items : list (string * string))
  : list (string * string) :=
  List.filter (fun item => negb (String.eqb item.2 "active")) items.

(** ** Reading back: the GET endpoints *)

(** The limits of [timedelta], in microseconds. *)
Definition TIMEDELTA_MIN : Z := -999999999 * US_PER_DAY.
Definition TIMEDELTA_MAX : Z := 1000000000 * US_PER_DAY - 1.

(** [timedelta(hours=hours)] *)
Definition timedelta_hours (hours : Z) : M Z :=
  let us := hours * 3600 * US_PER_SECOND in
  if (us <? TIMEDELTA_MIN) || (TIMEDELTA_MAX <? us) then raise OverflowError
  else ret us.

(** [moment - delta] on a datetime *)
Definition datetime_sub (moment delta : Z) : M Z :=
  let r := moment - delta in
  if (r <? 0) || (DATETIME_END <=? r) then raise OverflowError else ret r.

(** [cursor.sort(key, -1)]: descending on a string field, documents with
    equal keys kept in the order of the collection. *)
Fixpoint insert_desc {A : Type} (key : A -> string) (x : A) (l : list A)
  : list A :=
  match l with
  | [] => [x]
  | y :: l' =>
      if String.leb (key y) (key x) then x :: y :: l'
      else y :: insert_desc key x l'
  end.

Definition sort_desc {A : Type} (key : A -> string) (l : list A) : list A :=
  fold_right (insert_desc key) [] l.

(** An alert as the API returns it: the projection drops [_id]. *)
Record alert_view : Type := {
  av_agent_name : string;
  av_hostname : string;
  av_alert_type : string;
  av_message : string;
  av_timestamp : string;
  av_acknowledged : bool
}.

Definition project_alert (d : alert_doc) : alert_view :=
  {| av_agent_name := al_agent_name d; av_hostname := al_hostname d;
     av_alert_type := al_alert_type d; av_message := al_message d;
     av_timestamp := al_timestamp d; av_acknowledged := al_acknowledged d |}.

Definition find_alerts (p : alert_doc -> bool) : M (list alert_doc) :=
  mongo_call ;;; fun _ w => Ok (List.filter p (alerts_collection w)) w.

Definition find_metrics (p : MetricsData -> bool) : M (list MetricsData) :=
  mongo_call ;;; fun _ w => Ok (List.filter p (metrics_collection w)) w.

(** The time window of a query, on the rendered timestamps. *)
Definition in_window (start_time end_time : Z) (stamp : string) : bool :=
  String.leb (isoformat start_time) stamp && String.leb stamp (isoformat end_time).

(** [GET /agents] *)
Definition get_agents (x_api_key : string) : M (list agent_doc) :=
  verify_api_key x_api_key ;;;
  find_agents (fun _ => true).

(** The filter of the history query: the reports of one agent whose own
    timestamp lies in the window. *)
Definition history_query (name : string) (start_time end_time : Z)
  (m : MetricsData) : bool :=
  String.eqb (agent_name m) name
  && in_window start_time end_time (timestamp m).

(** [GET /history/{agent_name}] *)
Definition get_agent_history (agent_name : string) (hours : Z)
  (x_api_key : string) : M (string * list MetricsData) :=
  verify_api_key x_api_key ;;;
  e <- ask ;;
  let end_time := now e in
  delta <- timedelta_hours hours ;;
  start_time <- datetime_sub end_time delta ;;
  metrics <- find_metrics (history_query agent_name start_time end_time) ;;
  ret (agent_name, sort_desc timestamp metrics).

(** [GET /alerts] *)
Definition get_alerts (acknowledged : option bool) (hours : Z)
  (x_api_key : string) : M (list alert_view) :=
  verify_api_key x_api_key ;;;
  e <- ask ;;
  let end_time := now e in
  delta <- timedelta_hours hours ;;
  start_time <- datetime_sub end_time delta ;;
  alerts <- find_alerts (fun d =>
              in_window start_time end_time (al_timestamp d)
              && match acknowledged with
                 | Some flag => Bool.eqb (al_acknowledged d) flag
                 | None => true
                 end) ;;
  ret (map project_alert (sort_desc al_timestamp alerts)).

(** Every alert carries a timestamp that renders a datetime, as
    [send_alert] writes it. *)
Definition alerts_wf (alerts : list alert_doc) : Prop :=
  Forall (fun d => exists t, 0 <= t < DATETIME_END /\
                             al_timestamp d = isoformat t) alerts.

(** The window of a query is representable: neither the [timedelta] nor
    the start of the window overflows. *)
Definition window_ok (e : env) (hours : Z) : Prop :=
  TIMEDELTA_MIN <= hours * 3600 * US_PER_SECOND <= TIMEDELTA_MAX /\
  0 <= now e - hours * 3600 * US_PER_SECOND < DATETIME_END.

Definition descending {A : Type} (key : A -> string) (a b : A) : Prop :=
  String.leb (key b) (key a) = true.

(** ** The monitoring agent ([agent.py])

    The agent reads its host through [psutil], [subprocess] and [os]; the
    answers of the host are the fields of [host], an exception being the
    left injection with its message. Each collector returns its value
    together with the lines it logs. *)

(** The keys of the YAML configuration that the collectors below read. *)
Record agent_config : Type := {
  cfg_agent_name : string;
  cfg_cpu_enabled : bool;
  cfg_ram_enabled : bool;
  cfg_disk_enabled : bool;
  cfg_disk_paths : list string;
  cfg_services_enabled : bool;
  cfg_services_list : list string;
  cfg_ssh_enabled : bool;
  cfg_ssh_log_path : string;
  cfg_ssh_threshold : Z
}.

Record host : Type := {
  (** [psutil.cpu_percent(interval=1)] *)
  psutil_cpu_percent : string + float;
  (** [psutil.virtual_memory().percent] *)
  psutil_virtual_memory_percent : string + float;
  (** [psutil.disk_usage(path).percent] *)
  psutil_disk_usage_percent : string -> string + float;
  (** the stripped standard output of [systemctl is-active service] *)
  systemctl_is_active : string -> string + string;
  (** [os.path.exists(path)] *)
  os_path_exists : string -> bool;
  (** the standard output of [tail -n 100 path] *)
  tail_100 : string -> string + string
}.

Inductive agent_level : Type := LOG_INFO | LOG_WARNING | LOG_ERROR.

Definition agent_log : Type := list (agent_level * string).

(** [d[key] = value] on a dict kept as its item list: a known key keeps
    its place, a new key goes last. *)
Fixpoint dict_set {A : Type} (d : list (string * A)) (key : string) (value : A)
  : list (string * A) :=
  match d with
  | [] => [(key, value)]
  | (k, v) :: d' =>
      if String.eqb k key then (k, value) :: d'
      else (k, v) :: dict_set d' key value
  end.

Definition get_cpu_usage (c : agent_config) (h : host)
  : option float * agent_log :=
  if negb (cfg_cpu_enabled c) then (None, [])
  else
    match psutil_cpu_percent h with
    | inr percent => (Some percent, [])
    | inl e => (None, [(LOG_ERROR, "Error getting CPU usage: " +:+ e)])
    end.

Definition get_ram_usage (c : agent_config) (h : host)
  : option float * agent_log :=
  if negb (cfg_ram_enabled c) then (None, [])
  else
    match psutil_virtual_memory_percent h with
    | inr percent => (Some percent, [])
    | inl e => (None, [(LOG_ERROR, "Error getting RAM usage: " +:+ e)])
    end.

(** The loop of [get_disk_usage]; the first exception leaves it. *)
Fixpoint disk_usage_loop (h : host) (paths : list string)
  (disk_usage : list (string * float)) : string + list (string * float) :=
  match paths with
  | [] => inr disk_usage
  | path :: paths' =>
      match psutil_disk_usage_percent h path with
      | inl e => inl e
      | inr percent => disk_usage_loop h paths' (dict_set disk_usage path percent)
      end
  end.

Definition get_disk_usage (c : agent_config) (h : host)
  : option (list (string * float)) * agent_log :=
  if negb (cfg_disk_enabled c) then (None, [])
  else
    match disk_usage_loop h (cfg_disk_paths c) [] with
    | inr disk_usage => (Some disk_usage, [])
    | inl e => (None, [(LOG_ERROR, "Error getting disk usage: " +:+ e)])
    end.

(** The loop of [get_service_status]; a check that raises is logged and
    the service is recorded as unknown. *)
Fixpoint service_status_loop (h : host) (services : list string)
  (service_status : list (string * string)) (logs : agent_log)
  : list (string * string) * agent_log :=
  match services with
  | [] => (service_status, logs)
  | service :: services' =>
      match systemctl_is_active h service with
      | inr status =>
          service_status_loop h services'
            (dict_set service_status service status) logs
      | inl e =>
          service_status_loop h services'
            (dict_set service_status service "unknown")
            (logs ++ [(LOG_ERROR,
                       "Error checking service " +:+ service +:+ ": " +:+ e)])
      end
  end.

Definition get_service_status (c : agent_config) (h : host)
  : option (list (string * string)) * agent_log :=
  if negb (cfg_services_enabled c) then (None, [])
  else
    let '(service_status, logs) :=
      service_status_loop h (cfg_services_list c) [] [] in
    (Some service_status, logs).

(** [len(re.findall(pattern, s))] for a pattern without metacharacters:
    the matches are found from left to right and do not overlap, so after
    a match the scan resumes behind it ([skip] characters further). *)
Fixpoint findall_count (pattern : string) (skip : nat) (s : string) : nat :=
  match s with
  | EmptyString => O
  | String _ s' =>
      match skip with
      | S k => findall_count pattern k s'
      | O =>
          if String.prefix pattern s
          then S (findall_count pattern (String.length pattern - 1) s')
          else findall_count pattern O s'
      end
  end.

Definition failed_password_count (log_content : string) : Z :=
  Z.of_nat (findall_count "Failed password for" O log_content).

Definition check_ssh_brute_force (c : agent_config) (h : host)
  : option (list (string * pyval)) * agent_log :=
  if negb (cfg_ssh_enabled c) then (None, [])
  else
    let log_path := cfg_ssh_log_path c in
    if negb (os_path_exists h log_path) then
      (None, [(LOG_WARNING, "SSH log file not found: " +:+ log_path)])
    else
      match tail_100 h log_path with
      | inr log_content =>
          let failed_attempts := failed_password_count log_content in
          (Some [("failed_attempts", PInt failed_attempts);
                 ("threshold_exceeded",
                  PBool (cfg_ssh_threshold c <=? failed_attempts))], [])
      | inl e =>
          (None, [(LOG_ERROR,
                   "Error checking SSH brute force attempts: " +:+ e)])
      end.

(** ** Devices for the calendar proofs *)

(** Lexicographic combination of two comparisons. *)
Definition lexc (c1 c2 : comparison) : comparison :=
  match c1 with Eq => c2 | _ => c1 end.

(** [ord2ymd] up to the day of the year: the year, whether it is a leap
    year, and the zero-based day in it. *)
Definition ord2yd (n0 : Z) : Z * bool * Z :=
  let n := n0 - 1 in
  let n400 := n / DI400Y in let n := n mod DI400Y in
  let n100 := n / DI100Y in let n := n mod DI100Y in
  let n4 := n / DI4Y in let n := n mod DI4Y in
  let n1 := n / 365 in let n := n mod 365 in
  let year := n400 * 400 + 1 + n100 * 100 + n4 * 4 + n1 in
  if (n1 =? 4) || (n100 =? 4) then (year - 1, true, 365)
  else (year, (n1 =? 3) && (negb (n4 =? 24) || (n100 =? 3)), n).

Definition pair_ltb (a b : Z * Z) : bool :=
  (a.1 <? b.1) || ((a.1 =? b.1) && (a.2 <? b.2)).

(** Day [k] of a year has a month and a day in range, below those of day
    [k + 1]. *)
Definition month_day_ok (l : bool) (k : nat) : bool :=
  let n := Z.of_nat k in
  let md := month_day l n in
  (1 <=? md.1) && (md.1 <=? 12) && (1 <=? md.2) && (md.2 <=? 31) &&
  pair_ltb md (month_day l (n + 1)).

Definition ymd_cmp (a b : Z * Z * Z) : comparison :=
  lexc (a.1.1 ?= b.1.1) (lexc (a.1.2 ?= b.1.2) (a.2 ?= b.2)).

(** ** A runtime and a deployment for the worked examples *)

(** [repr] of a float with an integral value below 10^16, the only floats
    the examples print; Python prints these as the integer followed by
    [.0]. *)
Definition example_float_repr (f : float) : string :=
  match Prim2SF f with
  | S754_zero s => if s then "-0.0" else "0.0"
  | S754_infinity s => if s then "-inf" else "inf"
  | S754_nan => "nan"
  | S754_finite s m e =>
      let magnitude :=
        if e <? 0 then
          if Z.pos m mod 2 ^ (- e) =? 0 then Some (Z.pos m / 2 ^ (- e)) else None
        else Some (Z.pos m * 2 ^ e) in
      match magnitude with
      | Some z =>
          if z <? 10 ^ 16 then (if s then "-" else "") +:+ pretty z +:+ ".0"
          else "<float>"
      | None => "<float>"
      end
  end.

(** [repr] of a value whose strings need no escaping. *)
Fixpoint example_repr (v : pyval) : string :=
  match v with
  | PNone => "None"
  | PBool true => "True"
  | PBool false => "False"
  | PInt z => pretty z
  | PFloat f => example_float_repr f
  | PStr s => "'" +:+ s +:+ "'"
  | PList l => "[" +:+ String.concat ", " (map example_repr l) +:+ "]"
  | PDict d =>
      "{" +:+
      String.concat ", "
        (map (fun kv => let '(k, x) := kv in
                        "'" +:+ k +:+ "': " +:+ example_repr x) d)
      +:+ "}"
  end.

Definition example_runtime : PyRuntime :=
  {| float_repr := example_float_repr; container_repr := example_repr |}.

Definition example_settings : settings := {|
  ALERT_EMAIL_ENABLED := true;
  ALERT_EMAIL_FROM := "alerts@sentora.local";
  ALERT_EMAIL_TO := "admin@example.com";
  ALERT_EMAIL_SMTP_SERVER := "localhost";
  ALERT_EMAIL_SMTP_PORT := 25;
  ALERT_EMAIL_USERNAME := "";
  ALERT_EMAIL_PASSWORD := "";
  ALERT_TELEGRAM_ENABLED := true;
  ALERT_TELEGRAM_BOT_TOKEN := "token";
  ALERT_TELEGRAM_CHAT_ID := "42";
  ALERT_DISCORD_ENABLED := true;
  ALERT_DISCORD_WEBHOOK_URL := "https://discord.example/hook";
  API_KEYS := ["your_api_key_here"]
|}.

(** 2024-01-01T00:00:00 *)
Definition example_time : Z := 63839664000000000.

(** Every service answers and every channel delivers. *)
Definition env_at (t : Z) : env := {|
  config := example_settings;
  now := t;
  mongo_up := true;
  smtp_fault := fun _ _ => None;
  http_reply := fun _ url =>
    if String.eqb url "https://discord.example/hook"
    then HttpResponse 204 "" else HttpResponse 200 "ok"
|}.

(** Every channel fails: the SMTP server refuses the connection and both
    HTTP endpoints time out. *)
Definition env_channels_down (t : Z) : env := {|
  config := example_settings;
  now := t;
  mongo_up := true;
  smtp_fault := fun _ _ => Some "Connection refused";
  http_reply := fun _ _ => HttpRaises "Read timed out"
|}.

(** MongoDB does not answer. *)
Definition env_mongo_down (t : Z) : env := {|
  config := example_settings;
  now := t;
  mongo_up := false;
  smtp_fault := fun _ _ => None;
  http_reply := fun _ _ => HttpResponse 200 "ok"
|}.

Definition empty_world : world := {|
  metrics_collection := [];
  alerts_collection := [];
  agents_collection := [];
  oid_counter := 0;
  redis_client := ∅;
  logger := [];
  trace := []
|}.

Definition example_metrics (cpu : option float)
  (disk : option (list (string * float)))
  (ssh : option (list (string * pyval))) : MetricsData := {|
  cpu_usage := cpu;
  ram_usage := None;
  disk_usage := disk;
  network := None;
  services := None;
  ssh_brute_force := ssh;
  timestamp := "2024-01-01T00:00:00";
  agent_name := "web-1";
  hostname := "web-1.local"
|}.

Definition cpu_92 : MetricsData := example_metrics (Some 92%float) None None.

(** A world whose only alert has a string [_id] and is not acknowledged
    yet: the one shape of record the filter of [acknowledge_alert] can
    match. *)
Definition world_with_string_id : world :=
  set_alerts empty_world
    [{| al_id := BsonString "a1"; al_agent_name := "web-1";
        al_hostname := "web-1.local"; al_alert_type := "CPU_HIGH";
        al_message := "CPU usage is 92.0%, which exceeds the threshold of 80.0%";
        al_timestamp := "2024-01-01T00:00:00"; al_acknowledged := false |}].

(** An agent last seen 601 seconds before [example_time], one last seen
    599 seconds before it, and a world that knows both. *)
Definition stale_agent : agent_doc := {|
  ag_name := "db-1"; ag_hostname := "db-1.local";
  ag_last_seen := isoformat (example_time - 601 * US_PER_SECOND);
  ag_alert_config := None
|}.

Definition fresh_agent : agent_doc := {|
  ag_name := "web-1"; ag_hostname := "web-1.local";
  ag_last_seen := isoformat (example_time - 599 * US_PER_SECOND);
  ag_alert_config := None
|}.

Definition world_with_agents : world :=
  set_agents empty_world [stale_agent; fresh_agent].

Definition disk_95_40 : MetricsData :=
  example_metrics None (Some [("/data", 95%float); ("/backup", 40%float)]) None.

Definition ssh_exceeded_only : MetricsData :=
  example_metrics None None (Some [("threshold_exceeded", PBool true)]).

(** ** More example data *)

(** A policy that differs from the defaults in every field. *)
Definition strict_policy : AlertConfig := {|
  cpu_threshold := 50%float;
  ram_threshold := 60%float;
  disk_threshold := 70%float;
  service_alerts := false;
  ssh_brute_force_alerts := false
|}.

(** A report with memory at 91 and one service of three not running. *)
Definition ram_91_sshd_failed : MetricsData := {|
  cpu_usage := None;
  ram_usage := Some 91%float;
  disk_usage := None;
  network := None;
  services := Some [("nginx", "active"); ("sshd", "failed"); ("cron", "active")];
  ssh_brute_force := None;
  timestamp := "2024-01-01T00:00:00";
  agent_name := "web-1";
  hostname := "web-1.local"
|}.

(** An agent with every monitor on. *)
Definition example_agent_config (paths : list string) : agent_config := {|
  cfg_agent_name := "web-1";
  cfg_cpu_enabled := true;
  cfg_ram_enabled := true;
  cfg_disk_enabled := true;
  cfg_disk_paths := paths;
  cfg_services_enabled := true;
  cfg_services_list := ["nginx"; "sshd"; "nginx"];
  cfg_ssh_enabled := true;
  cfg_ssh_log_path := "/var/log/auth.log";
  cfg_ssh_threshold := 2
|}.

Definition example_auth_log : string :=
  "Jan  1 00:00:01 web-1 sshd[1]: Failed password for root from 10.0.0.1" +:+
  nl +:+
  "Jan  1 00:00:02 web-1 sshd[1]: Accepted password for ada from 10.0.0.2" +:+
  nl +:+
  "Jan  1 00:00:03 web-1 sshd[1]: Failed password for invalid user x" +:+
  nl.

(** A host with two mounted disks, on which [systemctl] knows nginx and
    cannot be run for anything else. *)
Definition example_host : host := {|
  psutil_cpu_percent := inr 12.5%float;
  psutil_virtual_memory_percent := inr 91%float;
  psutil_disk_usage_percent := fun path =>
    if String.eqb path "/" then inr 40%float
    else if String.eqb path "/data" then inr 95%float
    else inl ("[Errno 2] No such file or directory: '" +:+ path +:+ "'");
  systemctl_is_active := fun service =>
    if String.eqb service "nginx" then inr "active"
    else inl "[Errno 12] Cannot allocate memory";
  os_path_exists := fun _ => true;
  tail_100 := fun _ => inr example_auth_log
|}.

(** * Worked runs *)

Example isoformat_midnight : isoformat example_time = "2024-01-01T00:00:00".
Proof. vm_compute. reflexivity. Qed.

Example isoformat_microsecond :
  isoformat (example_time + 1) = "2024-01-01T00:00:00.000001".
Proof. vm_compute. reflexivity. Qed.

Example isoformat_min_max :
  isoformat 0 = "0001-01-01T00:00:00" /\
  isoformat (DATETIME_END - 1) = "9999-12-31T23:59:59.999999".
Proof. split; vm_compute; reflexivity. Qed.

Example isoformat_leap_day :
  isoformat (example_time + 59 * US_PER_DAY) = "2024-02-29T00:00:00".
Proof. vm_compute. reflexivity. Qed.

Example cpu_92_message :
  map al_message
      (alerts_collection
         (res_world (check_thresholds (H := example_runtime) cpu_92
                                      (env_at example_time) empty_world)))
  = ["CPU usage is 92.0%, which exceeds the threshold of 80.0%"].
Proof. vm_compute. reflexivity. Qed.

Example cpu_92_trace :
  map is_channel_event
      (trace (res_world (check_thresholds (H := example_runtime) cpu_92
                                          (env_at example_time) empty_world)))
  = [false; true; true; true; true; true].
Proof. vm_compute. reflexivity. Qed.

(** * The calendar: [isoformat] preserves the order of time *)

Lemma ord2ymd_yd n :
  ord2ymd n = let '(y, l, doy) := ord2yd n in
              let '(m, d) := month_day l doy in (y, m, d).
Proof.
  unfold ord2ymd, ord2yd.
  destruct ((_ =? 4) || (_ =? 4)); reflexivity.
Qed.

Lemma ord2yd_digits n :
  1 <= n ->
  let '(y, l, doy) := ord2yd n in
  exists q c f k,
    0 <= q /\ 0 <= c <= 3 /\ 0 <= f <= 24 /\ 0 <= k <= 3 /\
    0 <= doy <= 364 + b2z l /\
    l = (k =? 3) && (negb (f =? 24) || (c =? 3)) /\
    y = 400 * q + 100 * c + 4 * f + k + 1 /\
    n - 1 = 146097 * q + 36524 * c + 1461 * f + 365 * k + doy.
Proof.
  intros H1. unfold ord2yd, DI400Y, DI100Y, DI4Y.
  set (a := n - 1). assert (Ha : 0 <= a) by lia. clearbody a. clear H1 n.
  pose proof (Z.div_mod a 146097 ltac:(lia)) as E0.
  pose proof (Z.mod_pos_bound a 146097 ltac:(lia)) as B0.
  set (q0 := a / 146097) in *. set (r0 := a mod 146097) in *. clearbody q0 r0.
  pose proof (Z.div_mod r0 36524 ltac:(lia)) as E1.
  pose proof (Z.mod_pos_bound r0 36524 ltac:(lia)) as B1.
  set (q1 := r0 / 36524) in *. set (r1 := r0 mod 36524) in *. clearbody q1 r1.
  pose proof (Z.div_mod r1 1461 ltac:(lia)) as E2.
  pose proof (Z.mod_pos_bound r1 1461 ltac:(lia)) as B2.
  set (q2 := r1 / 1461) in *. set (r2 := r1 mod 1461) in *. clearbody q2 r2.
  pose proof (Z.div_mod r2 365 ltac:(lia)) as E3.
  pose proof (Z.mod_pos_bound r2 365 ltac:(lia)) as B3.
  set (q3 := r2 / 365) in *. set (r3 := r2 mod 365) in *. clearbody q3 r3.
  assert (0 <= q0) by lia. assert (0 <= q1 <= 4) by lia.
  assert (0 <= q2 <= 24) by lia. assert (0 <= q3 <= 4) by lia.
  destruct (Z.eqb_spec q3 4) as [K4|K4]; [|destruct (Z.eqb_spec q1 4) as [C4|C4]];
    cbn [orb].
  - exists q0, q1, q2, 3.
    assert (q2 <> 24) by lia.
    destruct (Z.eqb_spec q2 24); [lia|]. cbn. repeat split; lia.
  - exists q0, 3, 24, 3. cbn. repeat split; lia.
  - exists q0, q1, q2, q3.
    destruct ((q3 =? 3) && (negb (q2 =? 24) || (q1 =? 3))) eqn:L;
      cbn [b2z]; repeat split; lia.
Qed.

Lemma ord2yd_lex n n' :
  1 <= n -> n < n' ->
  let '(y, l, doy) := ord2yd n in
  let '(y', l', doy') := ord2yd n' in
  1 <= y /\ 0 <= doy <= 364 + b2z l /\ 0 <= doy' <= 364 + b2z l' /\
  (y < y' \/ (y = y' /\ l = l' /\ doy < doy')).
Proof.
  intros H1 Hlt.
  pose proof (ord2yd_digits n H1) as Da.
  pose proof (ord2yd_digits n' ltac:(lia)) as Db.
  destruct (ord2yd n) as [[y l] doy], (ord2yd n') as [[y' l'] doy'].
  destruct Da as (q & c & f & k & Hq & Hc & Hf & Hk & Hd & Hl & Hy & Hn).
  destruct Db as (q' & c' & f' & k' & Hq' & Hc' & Hf' & Hk' & Hd' & Hl' & Hy' & Hn').
  split; [lia|]. split; [lia|]. split; [lia|].
  assert (Hl2 : b2z l' = 0 \/ (k' = 3 /\ (f' <> 24 \/ c' = 3))).
  { rewrite Hl'. destruct (Z.eqb_spec k' 3), (Z.eqb_spec f' 24), (Z.eqb_spec c' 3);
      cbn; lia. }
  assert (Hl1 : b2z l = 0 \/ (k = 3 /\ (f <> 24 \/ c = 3))).
  { rewrite Hl. destruct (Z.eqb_spec k 3), (Z.eqb_spec f 24), (Z.eqb_spec c 3);
      cbn; lia. }
  assert (Hb : 0 <= b2z l <= 1 /\ 0 <= b2z l' <= 1) by (destruct l, l'; cbn; lia).
  assert (Hlex : y < y' \/ (q = q' /\ c = c' /\ f = f' /\ k = k' /\ doy < doy')) by lia.
  destruct Hlex as [?|(-> & -> & -> & -> & ?)]; [left; assumption|].
  right. subst y y' l l'. auto.
Qed.


Lemma month_day_table l :
  forallb (month_day_ok l) (seq 0 (if l then 365 else 364)) = true.
Proof. destruct l; vm_compute; reflexivity. Qed.

Lemma month_day_last l :
  let md := month_day l (364 + b2z l) in
  1 <= md.1 <= 12 /\ 1 <= md.2 <= 31.
Proof. destruct l; vm_compute; intuition discriminate. Qed.

Lemma pair_ltb_trans a b c :
  pair_ltb a b = true -> pair_ltb b c = true -> pair_ltb a c = true.
Proof. unfold pair_ltb. destruct a, b, c; simpl. lia. Qed.

Lemma month_day_step l n :
  0 <= n < 364 + b2z l ->
  month_day_ok l (Z.to_nat n) = true.
Proof.
  intros Hn. pose proof (month_day_table l) as Ht.
  rewrite forallb_forall in Ht. apply Ht. apply in_seq.
  destruct l; simpl in *; lia.
Qed.

Lemma month_day_range l n :
  0 <= n <= 364 + b2z l ->
  let md := month_day l n in 1 <= md.1 <= 12 /\ 1 <= md.2 <= 31.
Proof.
  intros Hn. destruct (Z.eq_dec n (364 + b2z l)) as [->|Hne].
  - apply month_day_last.
  - pose proof (month_day_step l n ltac:(lia)) as Hs.
    unfold month_day_ok in Hs. rewrite Z2Nat.id in Hs by lia.
    simpl. lia.
Qed.

Lemma month_day_mono l n n' :
  0 <= n -> n < n' -> n' <= 364 + b2z l ->
  pair_ltb (month_day l n) (month_day l n') = true.
Proof.
  intros H0 Hlt Hle.
  assert (Hk : exists k : nat, n' = n + 1 + Z.of_nat k).
  { exists (Z.to_nat (n' - n - 1)). lia. }
  destruct Hk as [k ->]. induction k as [|k IH].
  - pose proof (month_day_step l n ltac:(lia)) as Hs.
    unfold month_day_ok in Hs. rewrite Z2Nat.id in Hs by lia.
    replace (n + 1 + Z.of_nat 0) with (n + 1) by lia.
    apply andb_prop in Hs. tauto.
  - eapply pair_ltb_trans; [apply IH; lia|].
    pose proof (month_day_step l (n + 1 + Z.of_nat k) ltac:(lia)) as Hs.
    unfold month_day_ok in Hs. rewrite Z2Nat.id in Hs by lia.
    replace (n + 1 + Z.of_nat (S k)) with (n + 1 + Z.of_nat k + 1) by lia.
    apply andb_prop in Hs. tauto.
Qed.

Lemma ord2ymd_lt n n' :
  1 <= n -> n < n' -> ymd_cmp (ord2ymd n) (ord2ymd n') = Lt.
Proof.
  intros H1 Hlt. pose proof (ord2yd_lex n n' H1 Hlt) as H.
  rewrite !ord2ymd_yd.
  destruct (ord2yd n) as [[y l] doy], (ord2yd n') as [[y' l'] doy'].
  destruct H as (Hy & Hd & Hd' & [Hyy | (-> & -> & Hdd)]).
  - destruct (month_day l doy), (month_day l' doy'). unfold ymd_cmp; simpl.
    apply Z.compare_lt_iff in Hyy. now rewrite Hyy.
  - pose proof (month_day_mono l' doy doy' ltac:(lia) Hdd ltac:(lia)) as Hm.
    destruct (month_day l' doy) as [m d], (month_day l' doy') as [m' d'].
    unfold ymd_cmp, pair_ltb in *; simpl in *. rewrite Z.compare_refl. simpl.
    rewrite orb_true_iff, andb_true_iff, !Z.ltb_lt, Z.eqb_eq in Hm.
    destruct Hm as [Hm | [-> Hm]].
    + apply Z.compare_lt_iff in Hm. now rewrite Hm.
    + rewrite Z.compare_refl. simpl. now apply Z.compare_lt_iff.
Qed.

Lemma ord2ymd_range n :
  1 <= n <= 3652059 ->
  let '(y, m, d) := ord2ymd n in 1 <= y <= 9999 /\ 1 <= m <= 12 /\ 1 <= d <= 31.
Proof.
  intros Hn. pose proof (ord2yd_lex n 3652060 ltac:(lia) ltac:(lia)) as H.
  rewrite ord2ymd_yd.
  change (ord2yd 3652060) with (10000, true, 0) in H.
  destruct (ord2yd n) as [[y l] doy].
  destruct H as (Hy & Hd & _ & Hyy).
  pose proof (month_day_range l doy Hd) as Hr.
  destruct (month_day l doy) as [m d]. simpl in Hr. lia.
Qed.

Lemma lexc_assoc a b c : lexc (lexc a b) c = lexc a (lexc b c).
Proof. now destruct a. Qed.

Lemma compare_app p1 p2 s1 s2 :
  String.length p1 = String.length p2 ->
  String.compare (p1 +:+ s1) (p2 +:+ s2)
  = lexc (String.compare p1 p2) (String.compare s1 s2).
Proof.
  revert p2. induction p1 as [|a p1 IH]; intros [|b p2] Hlen; simpl in *; try discriminate.
  - reflexivity.
  - destruct (Ascii.compare a b); try reflexivity. apply IH. congruence.
Qed.

Lemma length_app_str s1 s2 :
  String.length (s1 +:+ s2) = (String.length s1 + String.length s2)%nat.
Proof. induction s1 as [|a s1 IH]; simpl; [reflexivity | now rewrite IH]. Qed.

Lemma zfill_length w n : String.length (zfill w n) = w.
Proof.
  revert n. induction w as [|w IH]; intros n; simpl; [reflexivity|].
  rewrite length_app_str, IH. simpl. lia.
Qed.

Lemma digit_compare a b :
  0 <= a < 10 -> 0 <= b < 10 ->
  Ascii.compare (digit a) (digit b) = (a ?= b).
Proof.
  intros Ha Hb. unfold Ascii.compare, digit.
  rewrite !N_ascii_embedding by lia.
  rewrite <- N2Z.inj_compare, !N2Z.inj_add, !Z2N.id by lia.
  apply Z.add_compare_mono_l.
Qed.

Lemma divmod_compare D a b :
  0 < D -> (a ?= b) = lexc (a / D ?= b / D) (a mod D ?= b mod D).
Proof.
  intros HD.
  pose proof (Z.div_mod a D ltac:(lia)) as Ea.
  pose proof (Z.div_mod b D ltac:(lia)) as Eb.
  pose proof (Z.mod_pos_bound a D HD) as Ba.
  pose proof (Z.mod_pos_bound b D HD) as Bb.
  destruct (Z.compare_spec (a / D) (b / D)) as [He|Hl|Hg]; simpl.
  - rewrite He in Ea.
    destruct (Z.compare_spec (a mod D) (b mod D)).
    + apply Z.compare_eq_iff. lia.
    + apply Z.compare_lt_iff. lia.
    + apply Z.compare_gt_iff. lia.
  - apply Z.compare_lt_iff. nia.
  - apply Z.compare_gt_iff. nia.
Qed.

Lemma zfill_compare w a b :
  0 <= a < 10 ^ Z.of_nat w -> 0 <= b < 10 ^ Z.of_nat w ->
  String.compare (zfill w a) (zfill w b) = (a ?= b).
Proof.
  revert a b. induction w as [|w IH]; intros a b Ha Hb.
  - simpl in *. assert (a = 0) by lia. assert (b = 0) by lia. now subst.
  - rewrite Nat2Z.inj_succ, Z.pow_succ_r in Ha, Hb by lia.
    simpl. rewrite compare_app by now rewrite !zfill_length.
    rewrite IH by (split; [apply Z.div_pos; lia | apply Z.div_lt_upper_bound; lia]).
    simpl. rewrite digit_compare by (apply Z.mod_pos_bound; lia).
    rewrite (divmod_compare 10 a b) by lia.
    now destruct (a mod 10 ?= b mod 10).
Qed.

Lemma ymd_cmp_refl a : ymd_cmp a a = Eq.
Proof. unfold ymd_cmp. now rewrite !Z.compare_refl. Qed.

Lemma ymd_cmp_antisym a b : ymd_cmp a b = CompOpp (ymd_cmp b a).
Proof.
  unfold ymd_cmp.
  rewrite (Z.compare_antisym b.1.1), (Z.compare_antisym b.1.2), (Z.compare_antisym b.2).
  destruct (b.1.1 ?= a.1.1), (b.1.2 ?= a.1.2), (b.2 ?= a.2); reflexivity.
Qed.

Lemma ord2ymd_compare n n' :
  1 <= n -> 1 <= n' -> ymd_cmp (ord2ymd n) (ord2ymd n') = (n ?= n').
Proof.
  intros Hn Hn'. destruct (Z.compare_spec n n') as [->|Hlt|Hgt].
  - apply ymd_cmp_refl.
  - now apply ord2ymd_lt.
  - rewrite ymd_cmp_antisym, ord2ymd_lt; auto.
Qed.

Lemma fraction_compare u1 u2 :
  0 <= u1 < 1000000 -> 0 <= u2 < 1000000 ->
  String.compare (fraction u1) (fraction u2) = (u1 ?= u2).
Proof.
  intros H1 H2. unfold fraction.
  destruct (Z.eqb_spec u1 0) as [->|N1], (Z.eqb_spec u2 0) as [->|N2]; simpl.
  - reflexivity.
  - destruct u2; [lia | reflexivity | lia].
  - destruct u1; [lia | reflexivity | lia].
  - change (String.compare (zfill 6 u1) (zfill 6 u2) = (u1 ?= u2)).
    apply zfill_compare; simpl; lia.
Qed.

Lemma isoformat_compare t1 t2 :
  0 <= t1 < DATETIME_END -> 0 <= t2 < DATETIME_END ->
  String.compare (isoformat t1) (isoformat t2) = (t1 ?= t2).
Proof.
  unfold DATETIME_END, MAXORDINAL, US_PER_DAY, US_PER_SECOND. intros H1 H2.
  unfold isoformat, US_PER_DAY, US_PER_SECOND.
  change (86400 * 1000000) with 86400000000 in *.
  rewrite (divmod_compare 86400000000 t1 t2) by lia.
  pose proof (Z.mod_pos_bound t1 86400000000 ltac:(lia)) as R1.
  pose proof (Z.mod_pos_bound t2 86400000000 ltac:(lia)) as R2.
  assert (D1 : 0 <= t1 / 86400000000 < 3652059)
    by (split; [apply Z.div_pos; lia | apply Z.div_lt_upper_bound; lia]).
  assert (D2 : 0 <= t2 / 86400000000 < 3652059)
    by (split; [apply Z.div_pos; lia | apply Z.div_lt_upper_bound; lia]).
  set (r1 := t1 mod 86400000000) in *. set (r2 := t2 mod 86400000000) in *.
  set (d1 := t1 / 86400000000) in *. set (d2 := t2 / 86400000000) in *.
  clearbody r1 r2 d1 d2. clear H1 H2 t1 t2.
  replace (d1 ?= d2) with (d1 + 1 ?= d2 + 1)
    by (rewrite !(Z.add_comm _ 1); apply Z.add_compare_mono_l).
  rewrite <- (ord2ymd_compare (d1 + 1) (d2 + 1)) by lia.
  pose proof (ord2ymd_range (d1 + 1) ltac:(lia)) as Y1.
  pose proof (ord2ymd_range (d2 + 1) ltac:(lia)) as Y2.
  destruct (ord2ymd (d1 + 1)) as [[y1 m1] dd1], (ord2ymd (d2 + 1)) as [[y2 m2] dd2].
  unfold ymd_cmp; simpl fst; simpl snd.
  rewrite (divmod_compare 1000000 r1 r2) by lia.
  pose proof (Z.mod_pos_bound r1 1000000 ltac:(lia)) as U1.
  pose proof (Z.mod_pos_bound r2 1000000 ltac:(lia)) as U2.
  assert (S1 : 0 <= r1 / 1000000 < 86400)
    by (split; [apply Z.div_pos; lia | apply Z.div_lt_upper_bound; lia]).
  assert (S2 : 0 <= r2 / 1000000 < 86400)
    by (split; [apply Z.div_pos; lia | apply Z.div_lt_upper_bound; lia]).
  set (u1 := r1 mod 1000000) in *. set (u2 := r2 mod 1000000) in *.
  set (s1 := r1 / 1000000) in *. set (s2 := r2 / 1000000) in *.
  clearbody u1 u2 s1 s2. clear R1 R2 r1 r2.
  rewrite (divmod_compare 60 s1 s2) by lia.
  pose proof (Z.mod_pos_bound s1 60 ltac:(lia)) as SS1.
  pose proof (Z.mod_pos_bound s2 60 ltac:(lia)) as SS2.
  assert (M1 : 0 <= s1 / 60 < 1440)
    by (split; [apply Z.div_pos; lia | apply Z.div_lt_upper_bound; lia]).
  assert (M2 : 0 <= s2 / 60 < 1440)
    by (split; [apply Z.div_pos; lia | apply Z.div_lt_upper_bound; lia]).
  set (mi1 := s1 / 60) in *. set (mi2 := s2 / 60) in *.
  rewrite (divmod_compare 60 mi1 mi2) by lia.
  pose proof (Z.mod_pos_bound mi1 60 ltac:(lia)) as MM1.
  pose proof (Z.mod_pos_bound mi2 60 ltac:(lia)) as MM2.
  assert (HH1 : 0 <= mi1 / 60 < 24)
    by (split; [apply Z.div_pos; lia | apply Z.div_lt_upper_bound; lia]).
  assert (HH2 : 0 <= mi2 / 60 < 24)
    by (split; [apply Z.div_pos; lia | apply Z.div_lt_upper_bound; lia]).
  fold (fraction u1) (fraction u2).
  repeat (rewrite compare_app by (rewrite ?zfill_length; reflexivity)).
  rewrite !zfill_compare by (simpl; lia).
  rewrite fraction_compare by lia.
  simpl String.compare. simpl lexc at 1.
  repeat rewrite lexc_assoc.
  reflexivity.
Qed.

Lemma isoformat_ltb t1 t2 :
  0 <= t1 < DATETIME_END -> 0 <= t2 < DATETIME_END ->
  String.ltb (isoformat t1) (isoformat t2) = (t1 <? t2).
Proof.
  intros H1 H2. unfold String.ltb, Z.ltb. now rewrite isoformat_compare.
Qed.

(** * The monad *)

Lemma bind_ok {A B : Type} (c : M A) (k : A -> M B) e w a w' :
  c e w = Ok a w' -> bind c k e w = k a e w'.
Proof. intros Hc. unfold bind. now rewrite Hc. Qed.

Lemma bind_raise {A B : Type} (c : M A) (k : A -> M B) e w x w' :
  c e w = Raise x w' -> bind c k e w = Raise x w'.
Proof. intros Hc. unfold bind. now rewrite Hc. Qed.

Lemma bind_assoc {A B C : Type} (c : M A) (k : A -> M B) (k' : B -> M C) e w :
  bind (bind c k) k' e w = bind c (fun a => bind (k a) k') e w.
Proof. unfold bind. now destruct (c e w). Qed.

Lemma bind_ret_r {A : Type} (c : M A) e w : bind c ret e w = c e w.
Proof. unfold bind, ret. now destruct (c e w). Qed.

Lemma bind_ext {A B : Type} (c c' : M A) (k k' : A -> M B) e w :
  c e w = c' e w -> (forall a w', k a e w' = k' a e w') ->
  bind c k e w = bind c' k' e w.
Proof. intros Hc Hk. unfold bind. rewrite Hc. destruct (c' e w); auto. Qed.

Lemma for_each_app {A B : Type} (xs ys : list A) (acc : B)
  (body : B -> A -> M B) e w :
  for_each (xs ++ ys) acc body e w
  = bind (for_each xs acc body) (fun acc' => for_each ys acc' body) e w.
Proof.
  revert acc w. induction xs as [|x xs IH]; intros acc w; simpl.
  - reflexivity.
  - rewrite bind_assoc. apply bind_ext; [reflexivity|]. intros a w'. apply IH.
Qed.

Lemma same_store_refl w : same_store w w.
Proof. repeat split. Qed.

Lemma same_store_trans w1 w2 w3 :
  same_store w1 w2 -> same_store w2 w3 -> same_store w1 w3.
Proof.
  unfold same_store. intros (?&?&?&?&?) (?&?&?&?&?).
  repeat split; congruence.
Qed.

(** * The notification channels never raise *)

Ltac channel_done :=
  do 4 eexists; split; [reflexivity|]; cbn;
  split; [apply same_store_refl || (repeat split)|];
  split; [rewrite <- ?app_assoc; cbn [app]; reflexivity|];
  split; [|reflexivity].

Lemma send_email_alert_ok subject message e w :
  ALERT_EMAIL_ENABLED (config e) = true ->
  channel_ok (send_email_alert subject message) e w (email_attempt (config e)).
Proof.
  intros Hen. unfold channel_ok, send_email_alert, bind, ask, try_except, when.
  rewrite Hen. cbn [negb]. unfold smtp, log, ret, bind. cbn.
  destruct (smtp_fault e (length (trace w)) _) as [m1|]; cbn.
  { channel_done. exists []. split; reflexivity. }
  destruct (str_truthy _ && str_truthy _); cbn.
  - destruct (smtp_fault e _ SmtpStartTls) as [m2|]; cbn.
    { channel_done. eexists. split; reflexivity. }
    destruct (smtp_fault e _ (SmtpLogin _ _)) as [m3|]; cbn.
    { channel_done. eexists. split; reflexivity. }
    destruct (smtp_fault e _ (SmtpSendMessage _ _ _ _)) as [m4|]; cbn.
    { channel_done. eexists. split; reflexivity. }
    destruct (smtp_fault e _ SmtpQuit) as [m5|]; cbn;
      channel_done; eexists; split; reflexivity.
  - destruct (smtp_fault e _ (SmtpSendMessage _ _ _ _)) as [m4|]; cbn.
    { channel_done. eexists. split; reflexivity. }
    destruct (smtp_fault e _ SmtpQuit) as [m5|]; cbn;
      channel_done; eexists; split; reflexivity.
Qed.

Lemma send_telegram_alert_ok message e w :
  ALERT_TELEGRAM_ENABLED (config e) = true ->
  channel_ok (send_telegram_alert message) e w (telegram_attempt (config e)).
Proof.
  intros Hen.
  unfold channel_ok, send_telegram_alert, bind, ask, try_except.
  rewrite Hen. cbn [negb]. unfold requests_post, log, ret, bind. cbn.
  destruct (http_reply e _ _) as [m|status text]; cbn.
  - channel_done. eexists. reflexivity.
  - destruct (status =? 200); cbn; channel_done; eexists; reflexivity.
Qed.

Lemma send_discord_alert_ok message e w :
  ALERT_DISCORD_ENABLED (config e) = true ->
  channel_ok (send_discord_alert message) e w (discord_attempt (config e)).
Proof.
  intros Hen.
  unfold channel_ok, send_discord_alert, bind, ask, try_except.
  rewrite Hen. cbn [negb]. unfold requests_post, log, ret, bind. cbn.
  destruct (http_reply e _ _) as [m|status text]; cbn.
  - channel_done. eexists. reflexivity.
  - destruct (status =? 204); cbn; channel_done; eexists; reflexivity.
Qed.

(** * [send_alert]: record first, then every enabled channel *)

Lemma when_channel (flag : bool) (c : M bool) e w (P : list event -> Prop) :
  (flag = true -> channel_ok c e w P) ->
  exists w' evs logs,
    when flag (c ;;; ret tt) e w = Ok tt w' /\ same_store w w' /\
    trace w' = trace w ++ evs /\
    (if flag then P evs else evs = []) /\
    logger w' = logger w ++ logs /\
    length logs = if flag then 1%nat else 0%nat.
Proof.
  intros Hc. destruct flag; cbn.
  - destruct (Hc eq_refl) as (b & w' & evs & entry & Hrun & Hs & Ht & HP & Hl).
    exists w', evs, [entry]. rewrite (bind_ok _ _ _ _ _ _ Hrun).
    split; [reflexivity|]. repeat (split; [assumption|]). reflexivity.
  - exists w, [], []. rewrite !app_nil_r.
    split; [reflexivity|]. split; [apply same_store_refl|]. auto.
Qed.

Lemma email_attempt_channel c evs :
  email_attempt c evs -> forallb is_channel_event evs = true.
Proof.
  intros (rest & -> & Hrest). cbn. rewrite forallb_forall in *.
  intros ev Hin. specialize (Hrest ev Hin). now destruct ev.
Qed.

Lemma dispatched_channel c sends :
  dispatched c sends -> forallb is_channel_event sends = true.
Proof.
  intros (ee & et & ed & -> & He & Ht & Hd).
  rewrite !forallb_app.
  assert (forallb is_channel_event ee = true) as ->.
  { destruct (ALERT_EMAIL_ENABLED c); [eauto using email_attempt_channel|].
    now subst. }
  assert (forallb is_channel_event et = true) as ->.
  { destruct (ALERT_TELEGRAM_ENABLED c); [|now subst].
    destruct Ht as (text & ->). reflexivity. }
  assert (forallb is_channel_event ed = true) as ->.
  { destruct (ALERT_DISCORD_ENABLED c); [|now subst].
    destruct Hd as (text & ->). reflexivity. }
  reflexivity.
Qed.

Lemma send_alert_spec alert_type agent_name hostname message e w :
  mongo_up e = true ->
  exists w',
    send_alert alert_type agent_name hostname message e w
    = Ok (hexfill 24 (oid_counter w)) w' /\
    alert_fired e w (alert_record e w alert_type agent_name hostname message) w'.
Proof.
  intros Hup. unfold send_alert.
  unfold bind at 1. unfold ask at 1.
  unfold bind at 1. unfold insert_one_alert at 1. unfold bind at 1.
  unfold mongo_call at 1. rewrite Hup.
  set (d := alert_record e w alert_type agent_name hostname message).
  change {| al_id := ObjectId (oid_counter w); al_agent_name := agent_name;
            al_hostname := hostname; al_alert_type := alert_type;
            al_message := message; al_timestamp := isoformat (now e);
            al_acknowledged := false |} with d.
  set (w0 := emit _ _).
  set (alert_message := nl +:+ _).
  destruct (when_channel (ALERT_EMAIL_ENABLED (config e))
              (send_email_alert
                 ("Sentora Alert: " +:+ alert_type +:+ " on " +:+ hostname)
                 alert_message) e w0 (email_attempt (config e)))
    as (w1 & ev1 & l1 & R1 & S1 & T1 & P1 & L1 & N1).
  { intros Hen. now apply send_email_alert_ok. }
  destruct (when_channel (ALERT_TELEGRAM_ENABLED (config e))
              (send_telegram_alert alert_message) e w1
              (telegram_attempt (config e)))
    as (w2 & ev2 & l2 & R2 & S2 & T2 & P2 & L2 & N2).
  { intros Hen. now apply send_telegram_alert_ok. }
  destruct (when_channel (ALERT_DISCORD_ENABLED (config e))
              (send_discord_alert alert_message) e w2
              (discord_attempt (config e)))
    as (w3 & ev3 & l3 & R3 & S3 & T3 & P3 & L3 & N3).
  { intros Hen. now apply send_discord_alert_ok. }
  exists w3.
  rewrite (bind_ok _ _ _ _ _ _ R1), (bind_ok _ _ _ _ _ _ R2),
    (bind_ok _ _ _ _ _ _ R3).
  split; [reflexivity|].
  pose proof (same_store_trans _ _ _ S1 (same_store_trans _ _ _ S2 S3))
    as (Hm & Ha & Hg & Ho & Hr).
  unfold alert_fired. rewrite Hm, Ha, Hg, Ho, Hr. subst w0. cbn.
  repeat (split; [reflexivity|]).
  exists (ev1 ++ ev2 ++ ev3), (l1 ++ l2 ++ l3).
  split. { rewrite T3, T2, T1. cbn. now rewrite <- !app_assoc. }
  split. { exists ev1, ev2, ev3. auto. }
  split. { rewrite L3, L2, L1. cbn. now rewrite <- !app_assoc. }
  rewrite !length_app, N1, N2, N3. unfold enabled_channels. lia.
Qed.

Lemma send_alert_down alert_type agent_name hostname message e w :
  mongo_up e = false ->
  send_alert alert_type agent_name hostname message e w = Raise PyMongoError w.
Proof.
  intros Hdown. unfold send_alert, bind, ask, insert_one_alert, bind, mongo_call.
  now rewrite Hdown.
Qed.

(** * [check_thresholds] fires the candidates of [Evaluate] *)

Lemma fire_spec agent_name hostname acc c e w :
  mongo_up e = true ->
  exists w',
    fire agent_name hostname acc c e w
    = Ok (acc ++ [[("type", kind c); ("id", hexfill 24 (oid_counter w))]
                  ++ extra c]) w' /\
    alert_fired e w (alert_record e w (kind c) agent_name hostname (detail c)) w'.
Proof.
  intros Hup.
  destruct (send_alert_spec (kind c) agent_name hostname (detail c) e w Hup)
    as (w' & Hrun & Hfired).
  exists w'. unfold fire. rewrite (bind_ok _ _ _ _ _ _ Hrun). auto.
Qed.

Lemma fire_all_spec agent_name hostname cs acc e w :
  mongo_up e = true ->
  exists w',
    fire_all agent_name hostname cs acc e w
    = Ok (acc ++ fired_entries (oid_counter w) cs) w' /\
    alerts_collection w'
    = alerts_collection w ++ fired_docs e agent_name hostname (oid_counter w) cs /\
    oid_counter w' = (oid_counter w + N.of_nat (length cs))%N /\
    metrics_collection w' = metrics_collection w /\
    agents_collection w' = agents_collection w /\
    redis_client w' = redis_client w.
Proof.
  intros Hup. revert acc w.
  induction cs as [|c cs IH]; intros acc w.
  - exists w. cbn. rewrite !app_nil_r, N.add_0_r. repeat split.
  - destruct (fire_spec agent_name hostname acc c e w Hup)
      as (w1 & Hrun & Ha & Ho & Hm & Hg & Hr & _).
    destruct (IH (acc ++ [[("type", kind c); ("id", hexfill 24 (oid_counter w))]
                          ++ extra c]) w1)
      as (w2 & Hrun2 & Ha2 & Ho2 & Hm2 & Hg2 & Hr2).
    exists w2. unfold fire_all in *. cbn [for_each].
    rewrite (bind_ok _ _ _ _ _ _ Hrun), Hrun2.
    rewrite Ha2, Ho2, Hm2, Hg2, Hr2, Ha, Ho, Hm, Hg, Hr.
    cbn [fired_entries fired_docs length].
    rewrite <- !app_assoc. cbn [app].
    repeat split. lia.
Qed.

Lemma fire_all_down agent_name hostname c cs acc e w :
  mongo_up e = false ->
  fire_all agent_name hostname (c :: cs) acc e w = Raise PyMongoError w.
Proof.
  intros Hdown. unfold fire_all. cbn [for_each]. unfold fire.
  rewrite bind_assoc.
  now rewrite (bind_raise _ _ _ _ _ _ (send_alert_down _ _ _ _ _ _ Hdown)).
Qed.

Section Refinement.
Context `{PyRuntime}.

Lemma disk_loop_fires agent_name hostname policy items acc e w :
  for_each items acc (fun alerts_sent '(path, usage) =>
    if PrimFloat.ltb (disk_threshold policy) usage then
      let message :=
        "Disk usage for " +:+ path +:+ " is " +:+ float_repr usage +:+
        "%, which exceeds the threshold of " +:+
        float_repr (disk_threshold policy) +:+ "%" in
      alert_id <- send_alert "DISK_HIGH" agent_name hostname message ;;
      ret (alerts_sent ++
           [[("type", "DISK_HIGH"); ("id", alert_id); ("path", path)]])
    else ret alerts_sent) e w
  = fire_all agent_name hostname
      (map (disk_candidate policy)
           (List.filter (fun item => PrimFloat.ltb (disk_threshold policy) item.2)
                        items))
      acc e w.
Proof.
  revert acc w. induction items as [|[path usage] items IH]; intros acc w.
  - reflexivity.
  - cbn [for_each List.filter snd].
    destruct (PrimFloat.ltb (disk_threshold policy) usage).
    + cbn [map]. unfold fire_all. cbn [for_each].
      apply bind_ext; [reflexivity|]. intros a w'. apply IH.
    + unfold bind at 1. unfold ret at 1. apply IH.
Qed.

Lemma service_loop_fires agent_name hostname items acc e w :
  for_each items acc (fun alerts_sent '(service, status) =>
    if negb (String.eqb status "active") then
      let message := "Service " +:+ service +:+ " is " +:+ status in
      alert_id <- send_alert "SERVICE_DOWN" agent_name hostname message ;;
      ret (alerts_sent ++
           [[("type", "SERVICE_DOWN"); ("id", alert_id);
             ("service", service)]])
    else ret alerts_sent) e w
  = fire_all agent_name hostname
      (map service_candidate
           (List.filter (fun item => negb (String.eqb item.2 "active")) items))
      acc e w.
Proof.
  revert acc w. induction items as [|[service status] items IH]; intros acc w.
  - reflexivity.
  - cbn [for_each List.filter snd].
    destruct (negb (String.eqb status "active")).
    + cbn [map]. unfold fire_all. cbn [for_each].
      apply bind_ext; [reflexivity|]. intros a w'. apply IH.
    + unfold bind at 1. unfold ret at 1. apply IH.
Qed.

Lemma fire_all_app agent_name hostname cs1 cs2 acc e w :
  fire_all agent_name hostname (cs1 ++ cs2) acc e w
  = bind (fire_all agent_name hostname cs1 acc)
         (fun acc' => fire_all agent_name hostname cs2 acc') e w.
Proof. apply for_each_app. Qed.

Lemma fire_all_one agent_name hostname c acc e w :
  fire_all agent_name hostname [c] acc e w = fire agent_name hostname acc c e w.
Proof. unfold fire_all. cbn [for_each]. apply bind_ret_r. Qed.

Lemma check_thresholds_refines metrics e w :
  mongo_up e = true ->
  check_thresholds metrics e w
  = fire_all (agent_name metrics) (hostname metrics)
      (Evaluate metrics
         (resolve_alert_config (stored_agent w (agent_name metrics))))
      [] e w.
Proof.
  intros Hup. unfold check_thresholds.
  unfold bind at 1. unfold find_one_agent at 1. unfold bind at 1.
  unfold mongo_call at 1. rewrite Hup. fold (stored_agent w (agent_name metrics)).
  set (policy := resolve_alert_config _). clearbody policy.
  unfold Evaluate.
  rewrite fire_all_app. apply bind_ext.
  { unfold cpu_candidates. destruct (cpu_usage metrics) as [cpu|]; [|reflexivity].
    destruct (PrimFloat.ltb _ cpu); [|reflexivity].
    now rewrite fire_all_one. }
  clear w. intros acc w.
  rewrite fire_all_app. apply bind_ext.
  { unfold ram_candidates. destruct (ram_usage metrics) as [ram|]; [|reflexivity].
    destruct (PrimFloat.ltb _ ram); [|reflexivity].
    now rewrite fire_all_one. }
  clear acc w. intros acc w.
  rewrite fire_all_app. apply bind_ext.
  { unfold disk_candidates. destruct (disk_usage metrics) as [items|]; [|reflexivity].
    apply disk_loop_fires. }
  clear acc w. intros acc w.
  rewrite fire_all_app. apply bind_ext.
  { unfold service_candidates.
    destruct (service_alerts policy); [|reflexivity].
    destruct (services metrics) as [items|]; [|reflexivity].
    apply service_loop_fires. }
  clear acc w. intros acc w.
  rewrite bind_ret_r. unfold ssh_candidates.
  destruct (ssh_brute_force_alerts policy); [|reflexivity].
  destruct (ssh_brute_force metrics) as [d|]; [|reflexivity].
  destruct (py_bool _); [|reflexivity].
  now rewrite fire_all_one.
Qed.

Lemma check_thresholds_down metrics e w :
  mongo_up e = false ->
  check_thresholds metrics e w = Raise PyMongoError w.
Proof.
  intros Hdown. unfold check_thresholds.
  unfold bind at 1. unfold find_one_agent at 1. unfold bind at 1.
  unfold mongo_call at 1. now rewrite Hdown.
Qed.
End Refinement.

(** * What a run of [check_thresholds] records *)

Lemma fired_docs_of_kind ty e agent_name hostname n cs :
  map al_message (List.filter (has_type ty) (fired_docs e agent_name hostname n cs))
  = map detail (List.filter (of_kind ty) cs).
Proof.
  revert n. induction cs as [|c cs IH]; intros n; [reflexivity|].
  cbn [fired_docs List.filter]. unfold has_type at 1, of_kind at 1.
  cbn [al_alert_type]. destruct (String.eqb (kind c) ty); cbn [map].
  - f_equal. apply IH.
  - apply IH.
Qed.

Lemma fired_entries_of_kind ty n cs :
  map (fun entry => dict_get entry "path") (sent_of_type ty (fired_entries n cs))
  = map (fun c => dict_get (extra c) "path") (List.filter (of_kind ty) cs).
Proof.
  revert n. induction cs as [|c cs IH]; intros n; [reflexivity|].
  unfold sent_of_type in *. cbn [fired_entries List.filter].
  unfold of_kind at 1. change (dict_get (_ ++ extra c) "type") with (Some (kind c)).
  destruct (String.eqb (kind c) ty); cbn [map].
  - f_equal. apply IH.
  - apply IH.
Qed.

Lemma filter_of_kind_other ty k cs :
  Forall (fun c => kind c = k) cs -> k <> ty ->
  List.filter (of_kind ty) cs = [].
Proof.
  intros Hall Hne. induction Hall as [|c cs Hc _ IH]; [reflexivity|].
  cbn. unfold of_kind at 1. rewrite Hc.
  destruct (String.eqb_spec k ty); [contradiction|]. apply IH.
Qed.

Section Runs.
Context `{PyRuntime}.

(** The outcome of [check_thresholds] in terms of [Evaluate]. *)
Lemma check_thresholds_up metrics e w :
  mongo_up e = true ->
  let cs := Evaluate metrics
              (resolve_alert_config (stored_agent w (agent_name metrics))) in
  exists w',
    check_thresholds metrics e w = Ok (fired_entries (oid_counter w) cs) w' /\
    new_alerts w (check_thresholds metrics e w)
    = fired_docs e (agent_name metrics) (hostname metrics) (oid_counter w) cs /\
    alerts_collection w'
    = alerts_collection w ++ new_alerts w (check_thresholds metrics e w) /\
    agents_collection w' = agents_collection w /\
    redis_client w' = redis_client w.
Proof.
  intros Hup cs. rewrite check_thresholds_refines by assumption. fold cs.
  destruct (fire_all_spec (agent_name metrics) (hostname metrics) cs [] e w Hup)
    as (w' & Hrun & Ha & _ & _ & Hg & Hr).
  exists w'. rewrite Hrun. split; [reflexivity|].
  unfold new_alerts. cbn [res_world]. rewrite Ha, drop_app_length. auto.
Qed.

Lemma check_thresholds_down_new metrics e w :
  mongo_up e = false ->
  new_alerts w (check_thresholds metrics e w) = [] /\
  result_value (check_thresholds metrics e w) = None.
Proof.
  intros Hdown. rewrite check_thresholds_down by assumption.
  unfold new_alerts. cbn. split; [apply drop_all|reflexivity].
Qed.

Lemma cpu_candidates_kind m p :
  Forall (fun c => kind c = "CPU_HIGH") (cpu_candidates m p).
Proof.
  unfold cpu_candidates. destruct (cpu_usage m); [|constructor].
  destruct (PrimFloat.ltb _ _); repeat constructor.
Qed.

Lemma ram_candidates_kind m p :
  Forall (fun c => kind c = "RAM_HIGH") (ram_candidates m p).
Proof.
  unfold ram_candidates. destruct (ram_usage m); [|constructor].
  destruct (PrimFloat.ltb _ _); repeat constructor.
Qed.

Lemma disk_candidates_kind m p :
  Forall (fun c => kind c = "DISK_HIGH") (disk_candidates m p).
Proof.
  unfold disk_candidates. destruct (disk_usage m); [|constructor].
  apply List.Forall_forall. intros c Hin. apply in_map_iff in Hin.
  now destruct Hin as (item & <- & _).
Qed.

Lemma service_candidates_kind m p :
  Forall (fun c => kind c = "SERVICE_DOWN") (service_candidates m p).
Proof.
  unfold service_candidates.
  destruct (service_alerts p); [|constructor].
  destruct (services m); [|constructor].
  apply List.Forall_forall. intros c Hin. apply in_map_iff in Hin.
  now destruct Hin as (item & <- & _).
Qed.

Lemma ssh_candidates_kind m p :
  Forall (fun c => kind c = "SSH_BRUTE_FORCE") (ssh_candidates m p).
Proof.
  unfold ssh_candidates.
  destruct (ssh_brute_force_alerts p); [|constructor].
  destruct (ssh_brute_force m); [|constructor].
  destruct (py_bool _); repeat constructor.
Qed.

(** The candidates of one kind come from the rule of that kind alone. *)
Lemma Evaluate_of_kind ty m p :
  List.filter (of_kind ty) (Evaluate m p)
  = if String.eqb ty "CPU_HIGH" then cpu_candidates m p
    else if String.eqb ty "RAM_HIGH" then ram_candidates m p
    else if String.eqb ty "DISK_HIGH" then disk_candidates m p
    else if String.eqb ty "SERVICE_DOWN" then service_candidates m p
    else if String.eqb ty "SSH_BRUTE_FORCE" then ssh_candidates m p
    else [].
Proof.
  assert (Hsame : forall k cs,
    Forall (fun c => kind c = k) cs -> List.filter (of_kind k) cs = cs).
  { intros k cs Hall. induction Hall as [|c cs Hc _ IH]; [reflexivity|].
    cbn. unfold of_kind at 1. rewrite Hc, String.eqb_refl. now rewrite IH. }
  unfold Evaluate. rewrite !List.filter_app.
  pose proof (cpu_candidates_kind m p) as K1.
  pose proof (ram_candidates_kind m p) as K2.
  pose proof (disk_candidates_kind m p) as K3.
  pose proof (service_candidates_kind m p) as K4.
  pose proof (ssh_candidates_kind m p) as K5.
  destruct (String.eqb_spec ty "CPU_HIGH") as [->|N1].
  { rewrite (Hsame _ _ K1).
    rewrite (filter_of_kind_other _ _ _ K2), (filter_of_kind_other _ _ _ K3),
      (filter_of_kind_other _ _ _ K4), (filter_of_kind_other _ _ _ K5)
      by discriminate.
    now rewrite !app_nil_r. }
  rewrite (filter_of_kind_other _ _ _ K1) by congruence.
  destruct (String.eqb_spec ty "RAM_HIGH") as [->|N2].
  { rewrite (Hsame _ _ K2).
    rewrite (filter_of_kind_other _ _ _ K3),
      (filter_of_kind_other _ _ _ K4), (filter_of_kind_other _ _ _ K5)
      by discriminate.
    now rewrite !app_nil_r. }
  rewrite (filter_of_kind_other _ _ _ K2) by congruence.
  destruct (String.eqb_spec ty "DISK_HIGH") as [->|N3].
  { rewrite (Hsame _ _ K3).
    rewrite (filter_of_kind_other _ _ _ K4), (filter_of_kind_other _ _ _ K5)
      by discriminate.
    now rewrite !app_nil_r. }
  rewrite (filter_of_kind_other _ _ _ K3) by congruence.
  destruct (String.eqb_spec ty "SERVICE_DOWN") as [->|N4].
  { rewrite (Hsame _ _ K4).
    rewrite (filter_of_kind_other _ _ _ K5) by discriminate.
    now rewrite !app_nil_r. }
  rewrite (filter_of_kind_other _ _ _ K4) by congruence.
  destruct (String.eqb_spec ty "SSH_BRUTE_FORCE") as [->|N5].
  { now rewrite (Hsame _ _ K5). }
  now rewrite (filter_of_kind_other _ _ _ K5) by congruence.
Qed.

(** No candidate of a kind, no record and no [alerts_sent] entry of that
    kind, whether the run completes or not. *)
Lemma no_candidate_no_alert ty metrics e w :
  (forall p, List.filter (of_kind ty) (Evaluate metrics p) = []) ->
  no_alert_of_type ty w (check_thresholds metrics e w).
Proof.
  intros Hnone. unfold no_alert_of_type. destruct (mongo_up e) eqn:Hup.
  - destruct (check_thresholds_up metrics e w Hup) as (w' & Hrun & Hnew & _).
    rewrite Hnew, Hrun. split.
    + apply map_eq_nil with (f := al_message).
      now rewrite fired_docs_of_kind, Hnone.
    + intros sent [= <-].
      apply map_eq_nil with (f := fun entry => dict_get entry "path").
      now rewrite fired_entries_of_kind, Hnone.
  - destruct (check_thresholds_down_new metrics e w Hup) as (-> & ->).
    split; [reflexivity|discriminate].
Qed.

(** C2. A metric field that is absent ([None]) raises no alert about that
    field, under every stored policy and in every world: no record of the
    kind is inserted and [alerts_sent] has no entry of the kind. This holds
    for [cpu_usage] and CPU_HIGH, [ram_usage] and RAM_HIGH, [disk_usage] and
    DISK_HIGH, [services] and SERVICE_DOWN, [ssh_brute_force] and
    SSH_BRUTE_FORCE. *)
Theorem absent_field_no_alert metrics e w :
  (cpu_usage metrics = None ->
   no_alert_of_type "CPU_HIGH" w (check_thresholds metrics e w)) /\
  (ram_usage metrics = None ->
   no_alert_of_type "RAM_HIGH" w (check_thresholds metrics e w)) /\
  (disk_usage metrics = None ->
   no_alert_of_type "DISK_HIGH" w (check_thresholds metrics e w)) /\
  (services metrics = None ->
   no_alert_of_type "SERVICE_DOWN" w (check_thresholds metrics e w)) /\
  (ssh_brute_force metrics = None ->
   no_alert_of_type "SSH_BRUTE_FORCE" w (check_thresholds metrics e w)).
Proof.
  split; [|split; [|split; [|split]]];
    intros Habsent; apply no_candidate_no_alert; intros p;
    rewrite Evaluate_of_kind; cbn [String.eqb Ascii.eqb Bool.eqb].
  - unfold cpu_candidates. now rewrite Habsent.
  - unfold ram_candidates. now rewrite Habsent.
  - unfold disk_candidates. now rewrite Habsent.
  - unfold service_candidates. rewrite Habsent. now destruct (service_alerts p).
  - unfold ssh_candidates. rewrite Habsent.
    now destruct (ssh_brute_force_alerts p).
Qed.
End Runs.

(** * Disk usage: one alert per path over the threshold *)

Lemma filter_key_absent (P : string * float -> bool) path items :
  ~ List.In path (map fst items) ->
  List.filter (fun item => String.eqb item.1 path) (List.filter P items) = [].
Proof.
  induction items as [|[p u] items IH]; intros Hnot; [reflexivity|].
  cbn in Hnot. cbn [List.filter].
  assert (Hp : String.eqb p path = false).
  { apply String.eqb_neq. intros ->. apply Hnot. now left. }
  destruct (P (p, u)); cbn [List.filter fst]; rewrite ?Hp; apply IH; tauto.
Qed.

Lemma count_path_over (P : string * float -> bool) items path pct :
  List.NoDup (map fst items) -> List.In (path, pct) items ->
  length (List.filter (fun item => String.eqb item.1 path) (List.filter P items))
  = if P (path, pct) then 1%nat else 0%nat.
Proof.
  induction items as [|[p u] items IH]; intros Hnd Hin; [destruct Hin|].
  cbn [map fst] in Hnd. apply List.NoDup_cons_iff in Hnd as [Hfresh Hnd].
  destruct Hin as [[= -> ->]|Hin].
  - cbn [List.filter]. destruct (P (path, pct)); cbn [List.filter fst];
      rewrite ?String.eqb_refl, filter_key_absent by assumption; reflexivity.
  - assert (Hp : String.eqb p path = false).
    { apply String.eqb_neq. intros ->. apply Hfresh.
      apply in_map_iff. now exists (path, pct). }
    cbn [List.filter]. destruct (P (p, u)); cbn [List.filter fst];
      rewrite ?Hp; now apply IH.
Qed.

Lemma length_filter_map {A B : Type} (f : A -> B) (g : B -> bool) l :
  length (List.filter (fun x => g (f x)) l) = length (List.filter g (map f l)).
Proof.
  induction l as [|x l IH]; [reflexivity|]. cbn.
  destruct (g (f x)); cbn; now rewrite IH.
Qed.

Section DiskAlerts.
Context `{PyRuntime}.

Lemma disk_candidates_paths metrics policy items :
  disk_usage metrics = Some items ->
  map (fun c => dict_get (extra c) "path") (disk_candidates metrics policy)
  = map (fun item => Some item.1) (over_threshold policy items).
Proof.
  intros Hd. unfold disk_candidates, over_threshold. rewrite Hd.
  rewrite List.map_map. apply List.map_ext. now intros [p u].
Qed.

(** C3. With a disk-usage map [items], a run that reaches the checks
    raises DISK_HIGH for exactly the paths whose percentage is strictly over
    the disk threshold of the policy in force, in the order of the map: the
    DISK_HIGH entries of [alerts_sent] name those paths, the inserted
    DISK_HIGH records carry their messages, and (keys of a map being
    distinct) a path of the map has one entry when its percentage is over
    the threshold and none otherwise. *)
Theorem disk_alerts_per_path metrics items e w :
  mongo_up e = true ->
  disk_usage metrics = Some items ->
  List.NoDup (map fst items) ->
  let policy := resolve_alert_config (stored_agent w (agent_name metrics)) in
  exists sent w',
    check_thresholds metrics e w = Ok sent w' /\
    map (fun entry => dict_get entry "path") (sent_of_type "DISK_HIGH" sent)
    = map (fun item => Some item.1) (over_threshold policy items) /\
    map al_message
        (List.filter (has_type "DISK_HIGH")
                     (new_alerts w (check_thresholds metrics e w)))
    = map (fun item => detail (disk_candidate policy item))
          (over_threshold policy items) /\
    forall path pct,
      List.In (path, pct) items ->
      length (entries_for_path path (sent_of_type "DISK_HIGH" sent))
      = if PrimFloat.ltb (disk_threshold policy) pct then 1%nat else 0%nat.
Proof.
  intros Hup Hd Hnd policy.
  destruct (check_thresholds_up metrics e w Hup) as (w' & Hrun & Hnew & _).
  fold policy in Hrun, Hnew.
  assert (Hpaths :
    map (fun entry => dict_get entry "path")
        (sent_of_type "DISK_HIGH"
           (fired_entries (oid_counter w) (Evaluate metrics policy)))
    = map (fun item => Some item.1) (over_threshold policy items)).
  { rewrite fired_entries_of_kind, Evaluate_of_kind. cbn [String.eqb Ascii.eqb Bool.eqb].
    now apply disk_candidates_paths. }
  eexists _, w'. split; [exact Hrun|]. split; [exact Hpaths|]. split.
  - rewrite Hnew, fired_docs_of_kind, Evaluate_of_kind.
    cbn [String.eqb Ascii.eqb Bool.eqb].
    unfold disk_candidates, over_threshold. rewrite Hd. now rewrite List.map_map.
  - intros path pct Hin. unfold entries_for_path.
    rewrite (length_filter_map (fun entry => dict_get entry "path")
               (fun o => match o with
                         | Some p => String.eqb p path
                         | None => false
                         end)).
    rewrite Hpaths.
    rewrite <- (length_filter_map (fun item : string * float => Some item.1)).
    unfold over_threshold.
    apply (count_path_over
             (fun item => PrimFloat.ltb (disk_threshold policy) item.2)
             items path pct Hnd Hin).
Qed.

(** * SSH brute force: missing keys *)

(** C10. When the [ssh_brute_force] map is present but has no
    [threshold_exceeded] key, no SSH_BRUTE_FORCE alert is raised; when the
    key holds a true value, SSH alerts are on and [failed_attempts] is
    missing, the one SSH_BRUTE_FORCE record reports 0 failed attempts. *)
Theorem ssh_missing_keys metrics d e w :
  ssh_brute_force metrics = Some d ->
  (dict_get d "threshold_exceeded" = None ->
   no_alert_of_type "SSH_BRUTE_FORCE" w (check_thresholds metrics e w)) /\
  (forall v,
     dict_get d "threshold_exceeded" = Some v -> py_bool v = true ->
     dict_get d "failed_attempts" = None ->
     mongo_up e = true ->
     ssh_brute_force_alerts
       (resolve_alert_config (stored_agent w (agent_name metrics))) = true ->
     map al_message
         (List.filter (has_type "SSH_BRUTE_FORCE")
                      (new_alerts w (check_thresholds metrics e w)))
     = ["SSH brute force attack detected with 0 failed login attempts"]).
Proof.
  intros Hssh. split.
  - intros Hkey. apply no_candidate_no_alert. intros p.
    rewrite Evaluate_of_kind. cbn [String.eqb Ascii.eqb Bool.eqb].
    unfold ssh_candidates. rewrite Hssh, Hkey.
    now destruct (ssh_brute_force_alerts p).
  - intros v Hkey Htrue Hmissing Hup Hon.
    destruct (check_thresholds_up metrics e w Hup) as (w' & _ & Hnew & _).
    rewrite Hnew, fired_docs_of_kind, Evaluate_of_kind.
    cbn [String.eqb Ascii.eqb Bool.eqb].
    unfold ssh_candidates. rewrite Hon, Hssh, Hkey, Hmissing.
    cbn [from_option id]. rewrite Htrue. reflexivity.
Qed.
End DiskAlerts.

(** * Submitting a report *)

Lemma upsert_keeps_policy name host last_seen l :
  let p := fun d => String.eqb (ag_name d) name in
  let f := fun d => Some {| ag_name := name; ag_hostname := host;
                            ag_last_seen := last_seen;
                            ag_alert_config := ag_alert_config d |} in
  let fresh := {| ag_name := name; ag_hostname := host;
                  ag_last_seen := last_seen; ag_alert_config := None |} in
  resolve_alert_config
    (List.find p (let '(l', r) := update_first p f l in
                  if matched_count r =? 0 then l' ++ [fresh] else l'))
  = resolve_alert_config (List.find p l).
Proof.
  intros p f fresh. induction l as [|x l IH].
  - cbn. unfold p. cbn. now rewrite String.eqb_refl.
  - cbn [update_first List.find]. destruct (p x) eqn:Hx.
    + cbn. unfold p at 1. cbn. now rewrite String.eqb_refl.
    + revert IH. destruct (update_first p f l) as [l' r]. intros IH.
      destruct (matched_count r =? 0); cbn [app List.find]; now rewrite Hx.
Qed.

Lemma receive_metrics_spec metrics x_api_key e w :
  mongo_up e = true ->
  existsb (String.eqb x_api_key) (API_KEYS (config e)) = true ->
  exists w1,
    receive_metrics metrics x_api_key e w
    = Ok [("status", "success"); ("message", "Metrics received")] w1 /\
    alerts_collection w1 = alerts_collection w /\
    oid_counter w1 = oid_counter w /\
    redis_client w1 = redis_client w /\
    resolve_alert_config (stored_agent w1 (agent_name metrics))
    = resolve_alert_config (stored_agent w (agent_name metrics)).
Proof.
  intros Hup Hkey.
  pose proof (upsert_keeps_policy (agent_name metrics) (hostname metrics)
                (isoformat (now e)) (agents_collection w)) as Hpol.
  cbv zeta in Hpol.
  unfold receive_metrics, verify_api_key, bind, ask, log, insert_one_metrics,
    update_one_agent, bind, mongo_call, raise, ret.
  rewrite Hkey, Hup. cbn.
  destruct (update_first _ _ (agents_collection w)) as [l' r].
  eexists. split; [reflexivity|]. cbn. repeat (split; [reflexivity|]).
  unfold stored_agent. cbn. exact Hpol.
Qed.

Section Submissions.
Context `{PyRuntime}.

(** One accepted report over the CPU threshold adds exactly one CPU_HIGH
    record and leaves the policy of the agent as it was. *)
Lemma submit_adds_cpu_high metrics cpu x_api_key e w :
  mongo_up e = true ->
  existsb (String.eqb x_api_key) (API_KEYS (config e)) = true ->
  cpu_usage metrics = Some cpu ->
  PrimFloat.ltb
    (cpu_threshold (resolve_alert_config (stored_agent w (agent_name metrics))))
    cpu = true ->
  exists sent w',
    submit metrics x_api_key e w = Ok sent w' /\
    length (List.filter (has_type "CPU_HIGH") (alerts_collection w'))
    = S (length (List.filter (has_type "CPU_HIGH") (alerts_collection w))) /\
    resolve_alert_config (stored_agent w' (agent_name metrics))
    = resolve_alert_config (stored_agent w (agent_name metrics)).
Proof.
  intros Hup Hkey Hcpu Hover.
  destruct (receive_metrics_spec metrics x_api_key e w Hup Hkey)
    as (w1 & Hrecv & Ha1 & Ho1 & _ & Hpol).
  destruct (check_thresholds_up metrics e w1 Hup)
    as (w' & Hrun & Hnew & Hall & Hagents & _).
  rewrite Hpol in Hrun, Hnew. rewrite Ha1 in Hall.
  exists (fired_entries (oid_counter w1)
            (Evaluate metrics
               (resolve_alert_config (stored_agent w (agent_name metrics))))), w'.
  unfold submit. rewrite (bind_ok _ _ _ _ _ _ Hrecv). split; [exact Hrun|].
  split.
  - rewrite Hall, Hnew, List.filter_app, length_app.
    rewrite <- (length_map al_message (List.filter _ (fired_docs _ _ _ _ _))).
    rewrite fired_docs_of_kind, Evaluate_of_kind.
    cbn [String.eqb Ascii.eqb Bool.eqb].
    unfold cpu_candidates. rewrite Hcpu, Hover. cbn. lia.
  - unfold stored_agent in *. now rewrite Hagents.
Qed.

(** C1, as the code has it. Every accepted report whose [cpu_usage] is
    over the CPU threshold of the policy in force adds exactly one CPU_HIGH
    record: the same report submitted twice, at any two times and in any
    world, adds two. Reports pass through no suppression window. *)
Theorem cpu_high_every_submission metrics cpu x_api_key e1 e2 w :
  mongo_up e1 = true -> mongo_up e2 = true ->
  existsb (String.eqb x_api_key) (API_KEYS (config e1)) = true ->
  existsb (String.eqb x_api_key) (API_KEYS (config e2)) = true ->
  cpu_usage metrics = Some cpu ->
  PrimFloat.ltb
    (cpu_threshold (resolve_alert_config (stored_agent w (agent_name metrics))))
    cpu = true ->
  exists sent1 w1 sent2 w2,
    submit metrics x_api_key e1 w = Ok sent1 w1 /\
    length (List.filter (has_type "CPU_HIGH") (alerts_collection w1))
    = S (length (List.filter (has_type "CPU_HIGH") (alerts_collection w))) /\
    submit metrics x_api_key e2 w1 = Ok sent2 w2 /\
    length (List.filter (has_type "CPU_HIGH") (alerts_collection w2))
    = S (S (length (List.filter (has_type "CPU_HIGH") (alerts_collection w)))).
Proof.
  intros Hup1 Hup2 Hkey1 Hkey2 Hcpu Hover.
  destruct (submit_adds_cpu_high metrics cpu x_api_key e1 w Hup1 Hkey1 Hcpu Hover)
    as (sent1 & w1 & Hrun1 & Hcount1 & Hpol1).
  rewrite <- Hpol1 in Hover.
  destruct (submit_adds_cpu_high metrics cpu x_api_key e2 w1 Hup2 Hkey2 Hcpu Hover)
    as (sent2 & w2 & Hrun2 & Hcount2 & _).
  exists sent1, w1, sent2, w2. rewrite Hcount2, Hcount1. auto.
Qed.
End Submissions.

(** * Policy resolution *)

Section Policy.
Context `{PyRuntime}.

(** The policy of an agent without a stored configuration. When MongoDB
    answers and the agent has no stored configuration (it is unknown, or
    its document has no [alert_config]), the checks run to completion
    against the hardcoded defaults; when MongoDB does not answer, the
    lookup raises and the exception leaves [check_thresholds] before any
    check, with the world as it was. A stored configuration is held as a
    validated [AlertConfig], the way [update_agent_config] writes it; what
    [AlertConfig] would do with a stored document of another shape is not
    part of the embedding. *)
Theorem policy_defaults_when_unset metrics e w :
  (mongo_up e = true ->
   (forall doc, stored_agent w (agent_name metrics) = Some doc ->
                ag_alert_config doc = None) ->
   exists w',
     check_thresholds metrics e w
     = Ok (fired_entries (oid_counter w) (Evaluate metrics AlertConfig_default))
          w' /\
     new_alerts w (check_thresholds metrics e w)
     = fired_docs e (agent_name metrics) (hostname metrics) (oid_counter w)
                  (Evaluate metrics AlertConfig_default)) /\
  (mongo_up e = false ->
   check_thresholds metrics e w = Raise PyMongoError w).
Proof.
  split.
  - intros Hup Hunset.
    destruct (check_thresholds_up metrics e w Hup) as (w' & Hrun & Hnew & _).
    assert (Hdef : resolve_alert_config (stored_agent w (agent_name metrics))
                   = AlertConfig_default).
    { unfold resolve_alert_config.
      destruct (stored_agent w (agent_name metrics)) as [doc|]; [|reflexivity].
      now rewrite (Hunset doc eq_refl). }
    rewrite Hdef in Hrun, Hnew. eauto.
  - apply check_thresholds_down.
Qed.
End Policy.

(** * Dispatch *)


(** C6. The record [send_alert] stores is the one its arguments
    describe, stamped with [now] and not acknowledged. It is inserted
    before the first call of any channel, and two runs from the same world
    at the same time that differ only in how the channels behave (all
    deliver, some fail, all fail) return the same id, the id of that
    record, and leave that same record appended to the collection, after
    each has tried every enabled channel. *)
Theorem record_kept_whatever_channels_do
  alert_type agent_name hostname message e1 e2 w :
  mongo_up e1 = true -> mongo_up e2 = true ->
  config e1 = config e2 -> now e1 = now e2 ->
  let d := {| al_id := ObjectId (oid_counter w);
              al_agent_name := agent_name; al_hostname := hostname;
              al_alert_type := alert_type; al_message := message;
              al_timestamp := isoformat (now e1);
              al_acknowledged := false |} in
  exists w1 w2 sends1 sends2,
    send_alert alert_type agent_name hostname message e1 w
    = Ok (bson_id_str (al_id d)) w1 /\
    send_alert alert_type agent_name hostname message e2 w
    = Ok (bson_id_str (al_id d)) w2 /\
    alerts_collection w1 = alerts_collection w ++ [d] /\
    alerts_collection w2 = alerts_collection w ++ [d] /\
    trace w1 = trace w ++ EvInsertAlert d :: sends1 /\
    dispatched (config e1) sends1 /\
    forallb is_channel_event sends1 = true /\
    trace w2 = trace w ++ EvInsertAlert d :: sends2 /\
    dispatched (config e2) sends2 /\
    forallb is_channel_event sends2 = true.
Proof.
  intros Hup1 Hup2 Hcfg Hnow d.
  destruct (send_alert_spec alert_type agent_name hostname message e1 w Hup1)
    as (w1 & Hrun1 & Ha1 & _ & _ & _ & _ & sends1 & logs1 & Ht1 & Hd1 & _).
  destruct (send_alert_spec alert_type agent_name hostname message e2 w Hup2)
    as (w2 & Hrun2 & Ha2 & _ & _ & _ & _ & sends2 & logs2 & Ht2 & Hd2 & _).
  assert (Hrec1 : alert_record e1 w alert_type agent_name hostname message = d)
    by reflexivity.
  assert (Hrec2 : alert_record e2 w alert_type agent_name hostname message = d).
  { unfold alert_record, d. now rewrite Hnow. }
  rewrite Hrec1 in *. rewrite Hrec2 in *.
  exists w1, w2, sends1, sends2.
  repeat (split; [assumption || eauto using dispatched_channel|]).
  eauto using dispatched_channel.
Qed.

(** * The suppression flag of the liveness task *)

Lemma redis_get_not_live e w key :
  ~ live e w key -> redis_get key e w = Ok None w.
Proof.
  intros Hnot. unfold redis_get.
  destruct (redis_client w !! key) as [[v expires_at]|] eqn:Hk; [|reflexivity].
  destruct (Z.leb_spec (now e) expires_at); [|reflexivity].
  exfalso. apply Hnot. now exists v, expires_at.
Qed.

Lemma flags_ok_insert w key expires_at :
  flags_ok w ->
  forall k v x,
    <[key := ("1", expires_at)]> (redis_client w) !! k = Some (v, x) -> v = "1".
Proof.
  intros Hok k v x. destruct (decide (key = k)) as [->|Hne].
  - rewrite lookup_insert_eq. now intros [= <- _].
  - rewrite lookup_insert_ne by assumption. apply Hok.
Qed.

Lemma alert_inactive_agent_suppressed agent e w :
  flags_ok w -> live e w (inactive_key agent) ->
  alert_inactive_agent agent e w = Ok false w.
Proof.
  intros Hok (v & expires_at & Hk & Hlive).
  assert (v = "1") as -> by (eapply Hok; eassumption).
  unfold alert_inactive_agent, bind, redis_get. fold (inactive_key agent).
  rewrite Hk. apply Z.leb_le in Hlive. now rewrite Hlive.
Qed.

Lemma alert_inactive_agent_admitted agent e w :
  mongo_up e = true -> ~ live e w (inactive_key agent) ->
  exists w',
    alert_inactive_agent agent e w = Ok true w' /\
    redis_client w'
    = <[inactive_key agent := ("1", now e + ONE_HOUR)]> (redis_client w) /\
    alerts_collection w'
    = alerts_collection w ++
      [alert_record e w "AGENT_INACTIVE" (ag_name agent) (ag_hostname agent)
                    "Agent has not reported in over 10 minutes"] /\
    agents_collection w' = agents_collection w.
Proof.
  intros Hup Hnot.
  destruct (send_alert_spec "AGENT_INACTIVE" (ag_name agent) (ag_hostname agent)
              "Agent has not reported in over 10 minutes" e w Hup)
    as (w1 & Hrun & Ha & _ & _ & Hg & Hr & _).
  unfold alert_inactive_agent. fold (inactive_key agent).
  rewrite (bind_ok _ _ _ _ _ _ (redis_get_not_live e w _ Hnot)).
  cbn [bytes_truthy negb].
  rewrite (bind_ok _ _ _ _ _ _ Hrun).
  unfold bind, redis_set, ret. eexists. split; [reflexivity|].
  cbn. rewrite Hr, Ha, Hg. auto.
Qed.


(** * A whole sweep *)

Lemma filter_name_unique (P : agent_doc -> bool) agents agent :
  List.NoDup (map ag_name agents) -> List.In agent agents ->
  List.filter (fun d => String.eqb (ag_name d) (ag_name agent))
              (List.filter P agents)
  = if P agent then [agent] else [].
Proof.
  assert (Habsent : forall l,
    ~ List.In (ag_name agent) (map ag_name l) ->
    List.filter (fun d => String.eqb (ag_name d) (ag_name agent))
                (List.filter P l) = []).
  { induction l as [|x l IH]; intros Hnot; [reflexivity|].
    cbn in Hnot. cbn [List.filter].
    assert (Hx : String.eqb (ag_name x) (ag_name agent) = false).
    { apply String.eqb_neq. intros Heq. apply Hnot. now left. }
    destruct (P x); cbn [List.filter]; rewrite ?Hx; apply IH; tauto. }
  induction agents as [|x agents IH]; intros Hnd Hin; [destruct Hin|].
  cbn [map] in Hnd. apply List.NoDup_cons_iff in Hnd as [Hfresh Hnd].
  destruct Hin as [->|Hin].
  - cbn [List.filter]. destruct (P agent); cbn [List.filter];
      rewrite ?String.eqb_refl, Habsent by assumption; reflexivity.
  - assert (Hx : String.eqb (ag_name x) (ag_name agent) = false).
    { apply String.eqb_neq. intros Heq. apply Hfresh. rewrite Heq.
      now apply in_map. }
    cbn [List.filter]. destruct (P x); cbn [List.filter]; rewrite ?Hx;
      now apply IH.
Qed.

Lemma filter_filter_and {A : Type} (P Q : A -> bool) l :
  List.filter Q (List.filter P l) = List.filter (fun x => P x && Q x) l.
Proof.
  induction l as [|x l IH]; [reflexivity|]. cbn.
  destruct (P x); cbn; [destruct (Q x)|]; now rewrite IH.
Qed.

Lemma filter_map_comm {A B : Type} (f : A -> B) (g : B -> bool) l :
  List.filter g (map f l) = map f (List.filter (fun x => g (f x)) l).
Proof.
  induction l as [|x l IH]; [reflexivity|]. cbn.
  destruct (g (f x)); cbn; now rewrite IH.
Qed.

Lemma live_b_spec e w key : live e w key <-> live_b e w key = true.
Proof.
  unfold live, live_b. split.
  - intros (v & x & -> & Hle). now apply Z.leb_le.
  - destruct (redis_client w !! key) as [[v x]|]; [|discriminate].
    intros Hle. exists v, x. split; [reflexivity|]. now apply Z.leb_le.
Qed.

Lemma inactive_key_inj a b :
  inactive_key a = inactive_key b -> ag_name a = ag_name b.
Proof. unfold inactive_key. cbn. intros Heq. now inversion Heq. Qed.

(** The loop body returns normally and touches no flag but its own. *)
Lemma alert_inactive_agent_redis agent e w :
  mongo_up e = true ->
  exists b w',
    alert_inactive_agent agent e w = Ok b w' /\
    forall key, inactive_key agent <> key ->
                redis_client w' !! key = redis_client w !! key.
Proof.
  intros Hup. unfold alert_inactive_agent. fold (inactive_key agent).
  assert (Hget : exists o, redis_get (inactive_key agent) e w = Ok o w)
    by (unfold redis_get; eauto).
  destruct Hget as (o & Hget). rewrite (bind_ok _ _ _ _ _ _ Hget).
  destruct (negb (bytes_truthy o)).
  - destruct (send_alert_spec "AGENT_INACTIVE" (ag_name agent) (ag_hostname agent)
                "Agent has not reported in over 10 minutes" e w Hup)
      as (w1 & Hs & _ & _ & _ & _ & Hr & _).
    rewrite (bind_ok _ _ _ _ _ _ Hs).
    unfold bind, redis_set, ret. eexists _, _. split; [reflexivity|].
    intros key Hne. cbn. rewrite lookup_insert_ne by assumption. now rewrite Hr.
  - exists false, w. split; [reflexivity|auto].
Qed.

(** A sweep over agents with other keys leaves a flag as it is. *)
Lemma sweep_keeps_flag e key v x :
  mongo_up e = true ->
  forall agents w0 w1,
    (forall c, List.In c agents -> inactive_key c <> key) ->
    for_each agents tt sweep_body e w0 = Ok tt w1 ->
    redis_client w0 !! key = Some (v, x) ->
    redis_client w1 !! key = Some (v, x).
Proof.
  intros Hup. induction agents as [|c l IH]; intros w0 w1 Hkeys Hrun Hk0.
  - cbn in Hrun. unfold ret in Hrun. now injection Hrun as <-.
  - assert (Hne : inactive_key c <> key) by (apply Hkeys; now left).
    assert (Hrest : forall c', List.In c' l -> inactive_key c' <> key)
      by (intros c' Hc'; apply Hkeys; now right).
    cbn [for_each] in Hrun. unfold sweep_body at 1 in Hrun.
    rewrite bind_assoc in Hrun.
    destruct (alert_inactive_agent_redis c e w0 Hup) as (b & w2 & Hrun2 & Hr2).
    rewrite (bind_ok _ _ _ _ _ _ Hrun2) in Hrun.
    unfold bind at 1, ret at 1 in Hrun.
    eapply IH; [exact Hrest|exact Hrun|].
    now rewrite Hr2.
Qed.

(** One sweep over agents with distinct names: every agent without a
    live flag gets one AGENT_INACTIVE record, in order, the others none,
    and afterwards every agent of the sweep has a live flag. *)
Lemma sweep_loop_spec e agents :
  mongo_up e = true ->
  forall w,
    flags_ok w -> List.NoDup (map ag_name agents) ->
    exists w' docs,
      for_each agents tt sweep_body e w = Ok tt w' /\
      flags_ok w' /\
      agents_collection w' = agents_collection w /\
      alerts_collection w' = alerts_collection w ++ docs /\
      map record_content docs = map inactive_content (admitted e w agents) /\
      forall a, List.In a agents -> live e w' (inactive_key a).
Proof.
  intros Hup. induction agents as [|a agents IH]; intros w Hok Hnd.
  - exists w, []. cbn. rewrite app_nil_r. repeat split; auto. intros a [].
  - cbn [map] in Hnd. apply List.NoDup_cons_iff in Hnd as [Hfresh Hnd].
    assert (Hkeys : forall c, List.In c agents -> inactive_key c <> inactive_key a).
    { intros c Hc Heq. apply Hfresh. apply inactive_key_inj in Heq.
      rewrite <- Heq. now apply in_map. }
    cbn [for_each]. unfold sweep_body at 1. unfold admitted. cbn [List.filter].
    rewrite bind_assoc.
    destruct (live_b e w (inactive_key a)) eqn:Hlive; cbn [negb].
    + apply live_b_spec in Hlive.
      rewrite (bind_ok _ _ _ _ _ _
                 (alert_inactive_agent_suppressed a e w Hok Hlive)).
      unfold bind at 1, ret at 1.
      destruct (IH w Hok Hnd) as (w' & docs & Hrun & Hok' & Hg & Ha & Hd & Hl).
      exists w', docs. repeat (split; [assumption|]).
      intros b [<-|Hb]; [|now apply Hl].
      destruct Hlive as (v & x & Hk & Hlt). exists v, x.
      split; [|assumption].
      exact (sweep_keeps_flag e _ v x Hup agents w w' Hkeys Hrun Hk).
    + assert (Hnot : ~ live e w (inactive_key a)).
      { intros Hl. apply live_b_spec in Hl. congruence. }
      destruct (alert_inactive_agent_admitted a e w Hup Hnot)
        as (w1 & Hrun1 & Hr1 & Ha1 & Hg1).
      rewrite (bind_ok _ _ _ _ _ _ Hrun1).
      unfold bind at 1, ret at 1.
      assert (Hok1 : flags_ok w1).
      { unfold flags_ok. rewrite Hr1. apply flags_ok_insert, Hok. }
      destruct (IH w1 Hok1 Hnd) as (w' & docs & Hrun & Hok' & Hg & Ha & Hd & Hl).
      assert (Hsame : admitted e w1 agents = admitted e w agents).
      { unfold admitted. apply List.filter_ext_in. intros b Hb.
        unfold live_b. rewrite Hr1.
        rewrite lookup_insert_ne; [reflexivity|].
        intros Heq. now apply (Hkeys b Hb). }
      exists w', (alert_record e w "AGENT_INACTIVE" (ag_name a) (ag_hostname a)
                    "Agent has not reported in over 10 minutes" :: docs).
      split; [exact Hrun|]. split; [exact Hok'|].
      split; [congruence|].
      split. { rewrite Ha, Ha1, <- app_assoc. reflexivity. }
      split. { cbn [map]. rewrite Hd, Hsame. reflexivity. }
      intros b [<-|Hb]; [|now apply Hl].
      exists "1", (now e + ONE_HOUR).
      split; [|unfold ONE_HOUR, US_PER_SECOND; lia].
      apply (sweep_keeps_flag e _ "1" (now e + ONE_HOUR) Hup agents w1 w' Hkeys Hrun).
      rewrite Hr1. apply lookup_insert_eq.
Qed.

Lemma NoDup_names_filter (P : agent_doc -> bool) agents :
  List.NoDup (map ag_name agents) ->
  List.NoDup (map ag_name (List.filter P agents)).
Proof.
  induction agents as [|a agents IH]; intros Hnd; [constructor|].
  cbn [map] in Hnd. apply List.NoDup_cons_iff in Hnd as [Hfresh Hnd].
  cbn [List.filter]. destruct (P a); [|now apply IH].
  cbn [map]. constructor; [|now apply IH].
  intros Hin. apply Hfresh. apply in_map_iff in Hin as (b & Hb & Hin).
  apply filter_In in Hin as [Hin _]. rewrite <- Hb. now apply in_map.
Qed.

Lemma check_agent_status_unfold e w :
  mongo_up e = true -> TEN_MINUTES <= now e ->
  check_agent_status e w
  = for_each (inactive_agents (now e - TEN_MINUTES) (agents_collection w))
             tt sweep_body e w.
Proof.
  intros Hup Hnow.
  unfold check_agent_status, bind, ask, find_agents, bind, mongo_call.
  destruct (Z.ltb_spec (now e - TEN_MINUTES) 0); [lia|].
  now rewrite Hup.
Qed.

(** The periodic task as a whole: it completes, and the records it
    inserts are one AGENT_INACTIVE per agent that the query selected and
    that had no live flag. *)
Lemma check_agent_status_records e w :
  mongo_up e = true -> TEN_MINUTES <= now e ->
  flags_ok w -> List.NoDup (map ag_name (agents_collection w)) ->
  exists w' docs,
    check_agent_status e w = Ok tt w' /\
    flags_ok w' /\
    agents_collection w' = agents_collection w /\
    alerts_collection w' = alerts_collection w ++ docs /\
    map record_content docs
    = map inactive_content
          (admitted e w (inactive_agents (now e - TEN_MINUTES)
                                         (agents_collection w))).
Proof.
  intros Hup Hnow Hok Hnd.
  destruct (sweep_loop_spec e
              (inactive_agents (now e - TEN_MINUTES) (agents_collection w))
              Hup w Hok (NoDup_names_filter _ _ Hnd))
    as (w' & docs & Hrun & Hok' & Hg & Ha & Hd & _).
  exists w', docs.
  split; [|auto].
  rewrite check_agent_status_unfold by assumption. exact Hrun.
Qed.

(** The records of a sweep about one agent of the collection. *)
Lemma sweep_records_about e w a :
  mongo_up e = true -> TEN_MINUTES <= now e ->
  flags_ok w -> List.NoDup (map ag_name (agents_collection w)) ->
  List.In a (agents_collection w) ->
  exists w' docs,
    check_agent_status e w = Ok tt w' /\
    agents_collection w' = agents_collection w /\
    alerts_collection w' = alerts_collection w ++ docs /\
    map record_content docs
    = map inactive_content
          (admitted e w (inactive_agents (now e - TEN_MINUTES)
                                         (agents_collection w))) /\
    map record_content (records_about (ag_name a) docs)
    = if String.ltb (ag_last_seen a) (isoformat (now e - TEN_MINUTES))
         && negb (live_b e w (inactive_key a))
      then [inactive_content a] else [].
Proof.
  intros Hup Hnow Hok Hnd Hin.
  destruct (check_agent_status_records e w Hup Hnow Hok Hnd)
    as (w' & docs & Hrun & _ & Hg & Ha & Hd).
  exists w', docs. repeat (split; [assumption|]).
  unfold records_about.
  rewrite <- (filter_map_comm record_content
                (fun c => String.eqb c.1.1.1.2 (ag_name a))).
  rewrite Hd.
  rewrite (filter_map_comm inactive_content
             (fun c => String.eqb c.1.1.1.2 (ag_name a))).
  cbn [inactive_content fst snd].
  unfold admitted, inactive_agents.
  rewrite (filter_filter_and
             (fun d => String.ltb (ag_last_seen d)
                                  (isoformat (now e - TEN_MINUTES)))
             (fun x => negb (live_b e w (inactive_key x)))).
  cbv beta.
  rewrite (filter_name_unique
             (fun x => String.ltb (ag_last_seen x)
                                  (isoformat (now e - TEN_MINUTES))
                       && negb (live_b e w (inactive_key x)))
             _ a Hnd Hin).
  now destruct (_ && _).
Qed.

(** * The liveness query *)

(** C7. In a sweep at [now] the query of [check_agent_status] selects an
    agent exactly when its [last_seen] is strictly more than ten minutes
    (600 seconds) before [now]: such an agent is one candidate of the
    sweep, once, and an agent seen at [now] minus 600 seconds or later is
    none. The loop of the task runs over these candidates and the sweep
    completes. A candidate without a live flag yields exactly one record
    of type AGENT_INACTIVE, carrying the name and the hostname of the
    agent; a candidate with a live flag is held back by the flag; an agent
    that is no candidate yields no record whatever its flag. *)
Theorem stale_agent_is_candidate e w agent last_seen :
  mongo_up e = true ->
  TEN_MINUTES <= now e < DATETIME_END ->
  0 <= last_seen < DATETIME_END ->
  ag_last_seen agent = isoformat last_seen ->
  flags_ok w ->
  List.NoDup (map ag_name (agents_collection w)) ->
  List.In agent (agents_collection w) ->
  let candidates := inactive_agents (now e - TEN_MINUTES) (agents_collection w) in
  exists w' docs,
    check_agent_status e w = for_each candidates tt sweep_body e w /\
    check_agent_status e w = Ok tt w' /\
    alerts_collection w' = alerts_collection w ++ docs /\
    (last_seen < now e - TEN_MINUTES ->
     List.filter (fun d => String.eqb (ag_name d) (ag_name agent)) candidates
     = [agent] /\
     (~ live e w (inactive_key agent) ->
      map record_content (records_about (ag_name agent) docs)
      = [("AGENT_INACTIVE", ag_name agent, ag_hostname agent,
          "Agent has not reported in over 10 minutes", false)]) /\
     (live e w (inactive_key agent) ->
      records_about (ag_name agent) docs = [])) /\
    (now e - TEN_MINUTES <= last_seen ->
     List.filter (fun d => String.eqb (ag_name d) (ag_name agent)) candidates
     = [] /\
     records_about (ag_name agent) docs = []).
Proof.
  intros Hup Hnow Hls Hiso Hok Hnd Hin candidates.
  assert (Hten : TEN_MINUTES <= now e) by lia.
  assert (Hsel : String.ltb (ag_last_seen agent) (isoformat (now e - TEN_MINUTES))
                 = (last_seen <? now e - TEN_MINUTES)).
  { rewrite Hiso. apply isoformat_ltb; [assumption|].
    unfold TEN_MINUTES, US_PER_SECOND in *. lia. }
  pose proof (filter_name_unique
                (fun d => String.ltb (ag_last_seen d)
                                     (isoformat (now e - TEN_MINUTES)))
                (agents_collection w) agent Hnd Hin) as Huniq.
  cbv beta in Huniq. rewrite Hsel in Huniq.
  fold (inactive_agents (now e - TEN_MINUTES) (agents_collection w)) in Huniq.
  fold candidates in Huniq.
  destruct (sweep_records_about e w agent Hup Hten Hok Hnd Hin)
    as (w' & docs & Hrun & _ & Ha & _ & Hrec).
  rewrite Hsel in Hrec.
  exists w', docs.
  split; [now apply check_agent_status_unfold|].
  split; [exact Hrun|]. split; [exact Ha|]. split.
  - intros Hstale. apply Z.ltb_lt in Hstale. rewrite Hstale in Huniq, Hrec.
    split; [exact Huniq|]. cbn [andb] in Hrec. split.
    + intros Hnot.
      destruct (live_b e w (inactive_key agent)) eqn:Hlive.
      * exfalso. apply Hnot. now apply live_b_spec.
      * exact Hrec.
    + intros Hlive. apply live_b_spec in Hlive. rewrite Hlive in Hrec.
      now apply map_eq_nil in Hrec.
  - intros Hfresh. apply Z.ltb_ge in Hfresh. rewrite Hfresh in Huniq, Hrec.
    split; [exact Huniq|]. now apply map_eq_nil in Hrec.
Qed.

(** * The agents collection stays well formed *)

Lemma update_first_names name (f : agent_doc -> option agent_doc) l :
  (forall d y, f d = Some y -> ag_name y = name) ->
  let p := fun d => String.eqb (ag_name d) name in
  map ag_name (update_first p f l).1 = map ag_name l /\
  (matched_count (update_first p f l).2 = 0 ->
   ~ List.In name (map ag_name l)).
Proof.
  intros Hf p. induction l as [|x l [IHn IHm]].
  - cbn. split; [reflexivity|auto].
  - cbn [update_first]. destruct (p x) eqn:Hx.
    + apply String.eqb_eq in Hx.
      destruct (f x) as [y|] eqn:Hy; cbn; (split; [|discriminate]).
      * now rewrite (Hf x y Hy), Hx.
      * reflexivity.
    + destruct (update_first p f l) as [l' r]. cbn in *.
      split; [now rewrite IHn|].
      intros Hr [Heq|Hin]; [|now apply IHm].
      apply String.eqb_neq in Hx. contradiction.
Qed.

Lemma update_first_Forall {A : Type} (Q : A -> Prop) p f (l : list A) :
  (forall d y, f d = Some y -> Q y) ->
  Forall Q l -> Forall Q (update_first p f l).1.
Proof.
  intros Hf. induction 1 as [|x l Hx Hl IH]; [constructor|].
  cbn [update_first]. destruct (p x).
  - destruct (f x) as [y|] eqn:Hy; cbn; constructor; eauto.
  - destruct (update_first p f l) as [l' r]. cbn in *. now constructor.
Qed.

Lemma receive_metrics_agents_wf metrics x_api_key e w resp w1 :
  0 <= now e < DATETIME_END ->
  agents_wf (agents_collection w) ->
  receive_metrics metrics x_api_key e w = Ok resp w1 ->
  agents_wf (agents_collection w1) /\
  exists d,
    List.In d (agents_collection w1) /\ ag_name d = agent_name metrics /\
    ag_last_seen d = isoformat (now e).
Proof.
  intros Hnow [Hnd Hall] Hrun.
  unfold receive_metrics, verify_api_key, bind, ask, log, insert_one_metrics,
    update_one_agent, bind, mongo_call, raise, ret in Hrun.
  destruct (negb (existsb _ _)); [discriminate|].
  destruct (mongo_up e); [|discriminate]. cbn in Hrun.
  set (p := fun d => String.eqb (ag_name d) (agent_name metrics)) in *.
  set (f := fun d : agent_doc => Some _) in *.
  pose proof (update_first_names (agent_name metrics) f (agents_collection w))
    as [Hnames Hmatch].
  { intros d y [= <-]. reflexivity. }
  pose proof (update_first_Forall
                (fun d => exists t, 0 <= t < DATETIME_END /\
                                    ag_last_seen d = isoformat t)
                p f (agents_collection w)) as Hall'.
  fold p in Hnames, Hmatch.
  destruct (update_first p f (agents_collection w)) as [l' r] eqn:Hup.
  cbn [fst snd] in *. injection Hrun as _ <-. cbn [agents_collection emit set_agents].
  specialize (Hall' ltac:(intros d y [= <-]; eauto) Hall).
  destruct (matched_count r =? 0) eqn:Hm.
  - apply Z.eqb_eq in Hm. specialize (Hmatch Hm). split; [split|].
    + rewrite map_app, Hnames. cbn [map].
      apply List.NoDup_app; [assumption|repeat constructor; intros []|].
      intros a Ha [<-|[]]. contradiction.
    + apply Forall_app. split; [assumption|]. repeat constructor. eauto.
    + eexists. split; [apply in_or_app; right; left; reflexivity|].
      split; reflexivity.
  - split; [split; [now rewrite Hnames|assumption]|].
    clear Hnames Hmatch Hall' Hnd Hall. revert l' r Hup Hm.
    induction (agents_collection w) as [|x l IH]; intros l' r Hup Hm.
    + cbn in Hup. injection Hup as <- <-. discriminate.
    + cbn [update_first] in Hup. destruct (p x) eqn:Hx.
      * cbn in Hup. injection Hup as <- <-.
        eexists. split; [left; reflexivity|]. split; reflexivity.
      * destruct (update_first p f l) as [l'' r'']. injection Hup as <- <-.
        destruct (IH l'' r'' eq_refl Hm) as (d & Hin & Hd).
        exists d. split; [now right|assumption].
Qed.

(** * Acknowledging an alert *)

(** The filter of [acknowledge_alert] compares the stored [_id] with a
    string, so it matches no record whose [_id] is an ObjectId, and
    [send_alert] stores no other kind. *)
Lemma update_first_no_match {A : Type} (p : A -> bool) f (l : list A) :
  Forall (fun x => p x = false) l ->
  update_first p f l = (l, {| matched_count := 0; modified_count := 0 |}).
Proof.
  induction 1 as [|x l Hx _ IH]; [reflexivity|].
  cbn. now rewrite Hx, IH.
Qed.

Lemma acknowledge_alert_object_ids alert_id x_api_key e w :
  mongo_up e = true ->
  existsb (String.eqb x_api_key) (API_KEYS (config e)) = true ->
  Forall (fun d => exists n, al_id d = ObjectId n) (alerts_collection w) ->
  exists w',
    acknowledge_alert alert_id x_api_key e w
    = Raise (HTTPException 404 "Alert not found") w' /\
    alerts_collection w' = alerts_collection w.
Proof.
  intros Hup Hkey Hids.
  unfold acknowledge_alert, verify_api_key, bind, ask, update_one_alert, bind,
    mongo_call, raise, ret.
  rewrite Hkey, Hup. cbn.
  rewrite update_first_no_match.
  - cbn. eexists. split; reflexivity.
  - eapply Forall_impl; [exact Hids|]. intros d (n & ->). reflexivity.
Qed.

(** C8 fails on the code. The alert that [send_alert] has just stored, not
    acknowledged, is reported as not found when its own id is
    acknowledged, and its flag stays false: the stored [_id] is an
    ObjectId and the endpoint filters on the string. *)
Theorem acknowledge_alert_not_found_for_stored_alert :
  let e := env_at example_time in
  let sent :=
    send_alert "CPU_HIGH" "web-1" "web-1.local"
      "CPU usage is 92.0%, which exceeds the threshold of 80.0%"
      e empty_world in
  let ack :=
    acknowledge_alert "000000000000000000000000" "your_api_key_here" e
                      (res_world sent) in
  result_value sent = Some "000000000000000000000000" /\
  map (fun d => (bson_id_str (al_id d), al_acknowledged d))
      (alerts_collection (res_world sent))
  = [("000000000000000000000000", false)] /\
  result_value ack = None /\
  (exists w', ack = Raise (HTTPException 404 "Alert not found") w') /\
  map al_acknowledged (alerts_collection (res_world ack)) = [false].
Proof.
  vm_compute. repeat split. eexists. reflexivity.
Qed.

(** The second way the endpoint misses: it tests [modified_count], so an
    alert that exists and is already acknowledged is reported as not
    found, where the sibling [update_agent_config] tests
    [matched_count]. *)
Lemma acknowledge_alert_twice_not_found :
  let e := env_at example_time in
  let first := acknowledge_alert "a1" "your_api_key_here" e world_with_string_id in
  let second := acknowledge_alert "a1" "your_api_key_here" e (res_world first) in
  result_value first
  = Some [("status", "success"); ("message", "Alert acknowledged")] /\
  map al_acknowledged (alerts_collection (res_world first)) = [true] /\
  (exists w', second = Raise (HTTPException 404 "Alert not found") w') /\
  map al_acknowledged (alerts_collection (res_world second)) = [true].
Proof.
  vm_compute. repeat split. eexists. reflexivity.
Qed.

(** * The properties on the example deployment *)

Lemma absent_field_no_alert_witness :
  no_alert_of_type "CPU_HIGH" empty_world
    (check_thresholds (H := example_runtime) (example_metrics None None None)
                      (env_at example_time) empty_world).
Proof.
  apply (proj1 (absent_field_no_alert (H := example_runtime)
                  (example_metrics None None None)
                  (env_at example_time) empty_world)).
  reflexivity.
Defined.

(** C1 fails on the code: the same report, cpu 92 against the default
    threshold 80, submitted twice one second apart leaves two CPU_HIGH
    records, and a third submission an hour later a third. *)
Lemma cpu_high_twice_two_records :
  let key := "your_api_key_here" in
  let r1 := submit (H := example_runtime) cpu_92 key
                   (env_at example_time) empty_world in
  let r2 := submit (H := example_runtime) cpu_92 key
                   (env_at (example_time + US_PER_SECOND)) (res_world r1) in
  let r3 := submit (H := example_runtime) cpu_92 key
                   (env_at (example_time + ONE_HOUR + US_PER_SECOND))
                   (res_world r2) in
  map al_alert_type (alerts_collection (res_world r2)) = ["CPU_HIGH"; "CPU_HIGH"] /\
  length (List.filter (has_type "CPU_HIGH") (alerts_collection (res_world r2)))
  <> 1%nat /\
  length (List.filter (has_type "CPU_HIGH") (alerts_collection (res_world r3)))
  = 3%nat.
Proof. vm_compute. repeat split. discriminate. Qed.

Lemma cpu_high_every_submission_witness :
  exists sent1 w1 sent2 w2,
    submit (H := example_runtime) cpu_92 "your_api_key_here"
           (env_at example_time) empty_world = Ok sent1 w1 /\
    length (List.filter (has_type "CPU_HIGH") (alerts_collection w1))
    = S (length (List.filter (has_type "CPU_HIGH")
                             (alerts_collection empty_world))) /\
    submit (H := example_runtime) cpu_92 "your_api_key_here"
           (env_at (example_time + US_PER_SECOND)) w1 = Ok sent2 w2 /\
    length (List.filter (has_type "CPU_HIGH") (alerts_collection w2))
    = S (S (length (List.filter (has_type "CPU_HIGH")
                                (alerts_collection empty_world)))).
Proof.
  apply (cpu_high_every_submission (H := example_runtime) cpu_92 92%float
           "your_api_key_here" (env_at example_time)
           (env_at (example_time + US_PER_SECOND)) empty_world);
    reflexivity.
Defined.

Example disk_95_40_one_alert :
  let r := check_thresholds (H := example_runtime) disk_95_40
                            (env_at example_time) empty_world in
  result_value r
  = Some [[("type", "DISK_HIGH"); ("id", "000000000000000000000000");
           ("path", "/data")]] /\
  map al_message (alerts_collection (res_world r))
  = ["Disk usage for /data is 95.0%, which exceeds the threshold of 90.0%"].
Proof. vm_compute. split; reflexivity. Qed.

Lemma disk_alerts_per_path_witness :
  exists sent w',
    check_thresholds (H := example_runtime) disk_95_40
                     (env_at example_time) empty_world = Ok sent w' /\
    map (fun entry => dict_get entry "path") (sent_of_type "DISK_HIGH" sent)
    = [Some "/data"] /\
    length (entries_for_path "/data" (sent_of_type "DISK_HIGH" sent)) = 1%nat /\
    length (entries_for_path "/backup" (sent_of_type "DISK_HIGH" sent)) = 0%nat.
Proof.
  destruct (disk_alerts_per_path (H := example_runtime) disk_95_40
              [("/data", 95%float); ("/backup", 40%float)]
              (env_at example_time) empty_world eq_refl eq_refl)
    as (sent & w' & Hrun & Hpaths & _ & Hcount).
  - repeat constructor; cbn; intuition discriminate.
  - exists sent, w'. split; [exact Hrun|]. split; [exact Hpaths|]. split.
    + apply (Hcount "/data" 95%float). now left.
    + apply (Hcount "/backup" 40%float). right. now left.
Defined.




Lemma alert_inactive_agent_steps agent :
  alert_inactive_agent agent
  = (flag <- gate_check agent ;; gate_admit agent flag).
Proof. reflexivity. Qed.




Example channels_down_trace :
  let r := send_alert "CPU_HIGH" "web-1" "web-1.local" "cpu"
                      (env_channels_down example_time) empty_world in
  map is_channel_event (trace (res_world r)) = [false; true; true; true] /\
  logged_outcomes (res_world r) = [false; false; false] /\
  map al_alert_type (alerts_collection (res_world r)) = ["CPU_HIGH"].
Proof. vm_compute. repeat split. Qed.

Lemma record_kept_whatever_channels_do_witness :
  let d := {| al_id := ObjectId 0;
              al_agent_name := "web-1"; al_hostname := "web-1.local";
              al_alert_type := "CPU_HIGH"; al_message := "cpu";
              al_timestamp := "2024-01-01T00:00:00";
              al_acknowledged := false |} in
  exists w1 w2 sends1 sends2,
    send_alert "CPU_HIGH" "web-1" "web-1.local" "cpu"
               (env_at example_time) empty_world
    = Ok "000000000000000000000000" w1 /\
    send_alert "CPU_HIGH" "web-1" "web-1.local" "cpu"
               (env_channels_down example_time) empty_world
    = Ok "000000000000000000000000" w2 /\
    alerts_collection w1 = alerts_collection empty_world ++ [d] /\
    alerts_collection w2 = alerts_collection empty_world ++ [d] /\
    trace w1 = trace empty_world ++ EvInsertAlert d :: sends1 /\
    dispatched example_settings sends1 /\
    forallb is_channel_event sends1 = true /\
    trace w2 = trace empty_world ++ EvInsertAlert d :: sends2 /\
    dispatched example_settings sends2 /\
    forallb is_channel_event sends2 = true.
Proof.
  apply (record_kept_whatever_channels_do "CPU_HIGH" "web-1" "web-1.local" "cpu"
           (env_at example_time) (env_channels_down example_time) empty_world);
    reflexivity.
Defined.

Example sweep_601_599 :
  map ag_name
      (inactive_agents (example_time - TEN_MINUTES) [stale_agent; fresh_agent])
  = ["db-1"].
Proof. vm_compute. reflexivity. Qed.

Example sweep_exactly_600 :
  inactive_agents (example_time - TEN_MINUTES)
    [{| ag_name := "edge"; ag_hostname := "edge.local";
        ag_last_seen := isoformat (example_time - TEN_MINUTES);
        ag_alert_config := None |}]
  = [].
Proof. vm_compute. reflexivity. Qed.

Lemma flags_ok_no_flags w : redis_client w = ∅ -> flags_ok w.
Proof.
  intros Hempty key v x Hk. rewrite Hempty, lookup_empty in Hk. discriminate.
Qed.

Lemma world_with_agents_names :
  List.NoDup (map ag_name (agents_collection world_with_agents)).
Proof. repeat constructor; cbn; intuition discriminate. Qed.

Lemma not_live_no_flags e w key : redis_client w = ∅ -> ~ live e w key.
Proof.
  intros Hempty (v & x & Hk & _). rewrite Hempty, lookup_empty in Hk.
  discriminate.
Qed.

Lemma stale_agent_is_candidate_witness :
  exists w' docs,
    check_agent_status (env_at example_time) world_with_agents = Ok tt w' /\
    alerts_collection w' = alerts_collection world_with_agents ++ docs /\
    List.filter (fun d => String.eqb (ag_name d) "db-1")
                (inactive_agents (example_time - TEN_MINUTES)
                                 (agents_collection world_with_agents))
    = [stale_agent] /\
    map record_content (records_about "db-1" docs)
    = [("AGENT_INACTIVE", "db-1", "db-1.local",
        "Agent has not reported in over 10 minutes", false)].
Proof.
  destruct (stale_agent_is_candidate (env_at example_time) world_with_agents
              stale_agent (example_time - 601 * US_PER_SECOND) eq_refl)
    as (w' & docs & _ & Hrun & Ha & Hstale & _).
  - cbv. split; congruence.
  - cbv. split; congruence.
  - reflexivity.
  - now apply flags_ok_no_flags.
  - exact world_with_agents_names.
  - now left.
  - destruct Hstale as (Hcand & Hrec & _); [cbv; reflexivity|].
    exists w', docs. split; [exact Hrun|]. split; [exact Ha|].
    split; [exact Hcand|]. apply Hrec. now apply not_live_no_flags.
Defined.

(** Cpu 50 is under the default threshold, so checks run against the
    defaults would complete with no alert, yet when the agent lookup fails
    the run does not complete at all. *)
Lemma lookup_failure_aborts_checks :
  let m := example_metrics (Some 50%float) None None in
  Evaluate (H := example_runtime) m AlertConfig_default = [] /\
  ~ exists sent w',
      check_thresholds (H := example_runtime) m (env_mongo_down example_time)
                       empty_world = Ok sent w'.
Proof.
  split; [reflexivity|]. intros (sent & w' & Hrun). vm_compute in Hrun.
  discriminate.
Qed.

Lemma policy_defaults_when_unset_witness :
  exists w',
    check_thresholds (H := example_runtime) cpu_92 (env_at example_time)
                     empty_world
    = Ok (fired_entries (oid_counter empty_world)
            (Evaluate (H := example_runtime) cpu_92 AlertConfig_default)) w' /\
    new_alerts empty_world
      (check_thresholds (H := example_runtime) cpu_92 (env_at example_time)
                        empty_world)
    = fired_docs (env_at example_time) (agent_name cpu_92) (hostname cpu_92)
        (oid_counter empty_world)
        (Evaluate (H := example_runtime) cpu_92 AlertConfig_default).
Proof.
  apply (proj1 (policy_defaults_when_unset (H := example_runtime) cpu_92
                  (env_at example_time) empty_world)).
  - reflexivity.
  - intros doc Hdoc. discriminate Hdoc.
Defined.

Lemma ssh_missing_keys_witness :
  map al_message
      (List.filter (has_type "SSH_BRUTE_FORCE")
         (new_alerts empty_world
            (check_thresholds (H := example_runtime) ssh_exceeded_only
                              (env_at example_time) empty_world)))
  = ["SSH brute force attack detected with 0 failed login attempts"].
Proof.
  apply (proj2 (ssh_missing_keys (H := example_runtime) ssh_exceeded_only
                  [("threshold_exceeded", PBool true)]
                  (env_at example_time) empty_world eq_refl)
               (PBool true));
    reflexivity.
Defined.

Example sweep_twice_then_after_the_hour :
  let s1 := check_agent_status (env_at example_time) world_with_agents in
  let s2 := check_agent_status (env_at (example_time + 300 * US_PER_SECOND))
                               (res_world s1) in
  let s3 := check_agent_status (env_at (example_time + ONE_HOUR))
                               (res_world s2) in
  let s4 := check_agent_status (env_at (example_time + ONE_HOUR + 1))
                               (res_world s3) in
  map al_agent_name (alerts_collection (res_world s1)) = ["db-1"] /\
  map al_agent_name (alerts_collection (res_world s2)) = ["db-1"; "web-1"] /\
  map al_agent_name (alerts_collection (res_world s3)) = ["db-1"; "web-1"] /\
  map (fun d => (al_alert_type d, al_agent_name d))
      (alerts_collection (res_world s4))
  = [("AGENT_INACTIVE", "db-1"); ("AGENT_INACTIVE", "web-1");
     ("AGENT_INACTIVE", "db-1")].
Proof. vm_compute. repeat split. Qed.

(** * Requests without a valid key *)

(** X1. A request whose key is not among the configured API keys is
    answered 401 by every endpoint that writes, and nothing is written:
    no metrics are stored, no agent is registered or reconfigured, no
    alert is acknowledged, and the threshold check of the report never
    runs. *)
Theorem invalid_api_key_changes_nothing `{PyRuntime}
  metrics alert_id name cfg x_api_key e w :
  existsb (String.eqb x_api_key) (API_KEYS (config e)) = false ->
  receive_metrics metrics x_api_key e w
  = Raise (HTTPException 401 "Invalid API key") w /\
  submit metrics x_api_key e w
  = Raise (HTTPException 401 "Invalid API key") w /\
  acknowledge_alert alert_id x_api_key e w
  = Raise (HTTPException 401 "Invalid API key") w /\
  update_agent_config name cfg x_api_key e w
  = Raise (HTTPException 401 "Invalid API key") w.
Proof.
  intros Hkey.
  assert (Hv : verify_api_key x_api_key e w
               = Raise (HTTPException 401 "Invalid API key") w).
  { unfold verify_api_key, bind, ask, raise. now rewrite Hkey. }
  assert (Hr : receive_metrics metrics x_api_key e w
               = Raise (HTTPException 401 "Invalid API key") w).
  { unfold receive_metrics. now rewrite (bind_raise _ _ _ _ _ _ Hv). }
  split; [exact Hr|]. split.
  - unfold submit. now rewrite (bind_raise _ _ _ _ _ _ Hr).
  - split.
    + unfold acknowledge_alert. now rewrite (bind_raise _ _ _ _ _ _ Hv).
    + unfold update_agent_config. now rewrite (bind_raise _ _ _ _ _ _ Hv).
Qed.

(** * Registering and configuring agents *)

Lemma update_first_find_same {A : Type} (p : A -> bool) f (l : list A) :
  (forall x y, p x = true -> f x = Some y -> p y = true) ->
  List.find p (update_first p f l).1
  = match List.find p l with
    | Some x => Some (match f x with Some y => y | None => x end)
    | None => None
    end.
Proof.
  intros Hp. induction l as [|x l IH]; [reflexivity|].
  cbn [update_first List.find]. destruct (p x) eqn:Hx.
  - destruct (f x) as [y|] eqn:Hy; cbn [fst List.find].
    + now rewrite (Hp x y Hx Hy).
    + now rewrite Hx.
  - destruct (update_first p f l) as [l' r]. cbn [fst] in *.
    cbn [List.find]. now rewrite Hx.
Qed.

Lemma update_first_find_other {A : Type} (p q : A -> bool) f (l : list A) :
  (forall x, p x = true -> q x = false) ->
  (forall x y, p x = true -> f x = Some y -> q y = false) ->
  List.find q (update_first p f l).1 = List.find q l.
Proof.
  intros Hpq Hf. induction l as [|x l IH]; [reflexivity|].
  cbn [update_first List.find]. destruct (p x) eqn:Hx.
  - rewrite (Hpq x Hx).
    destruct (f x) as [y|] eqn:Hy; cbn [fst List.find].
    + now rewrite (Hf x y Hx Hy).
    + now rewrite (Hpq x Hx).
  - destruct (update_first p f l) as [l' r]. cbn [fst] in *.
    cbn [List.find]. now rewrite IH.
Qed.

Lemma update_first_matched {A : Type} (p : A -> bool) f (l : list A) :
  matched_count (update_first p f l).2
  = match List.find p l with Some _ => 1 | None => 0 end.
Proof.
  induction l as [|x l IH]; [reflexivity|].
  cbn [update_first List.find]. destruct (p x).
  - now destruct (f x).
  - destruct (update_first p f l) as [l' r]. exact IH.
Qed.

Lemma update_first_unmatched {A : Type} (p : A -> bool) f (l : list A) :
  List.find p l = None -> (update_first p f l).1 = l.
Proof.
  induction l as [|x l IH]; [reflexivity|].
  cbn [update_first List.find]. destruct (p x); [discriminate|].
  intros Hnone. specialize (IH Hnone).
  destruct (update_first p f l) as [l' r]. cbn in *. now rewrite IH.
Qed.

Lemma find_app_none {A : Type} (p : A -> bool) l1 l2 :
  List.find p l1 = None -> List.find p (l1 ++ l2) = List.find p l2.
Proof.
  induction l1 as [|x l1 IH]; [reflexivity|].
  cbn. destruct (p x); [discriminate|]. exact IH.
Qed.

Lemma find_app_some {A : Type} (p : A -> bool) l1 l2 x :
  List.find p l1 = Some x -> List.find p (l1 ++ l2) = Some x.
Proof.
  induction l1 as [|y l1 IH]; [discriminate|].
  cbn. destruct (p y); [auto|]. exact IH.
Qed.

(** The agents collection after the upsert of [receive_metrics]. *)
Lemma receive_metrics_agents metrics x_api_key e w :
  mongo_up e = true ->
  existsb (String.eqb x_api_key) (API_KEYS (config e)) = true ->
  exists w1,
    receive_metrics metrics x_api_key e w
    = Ok [("status", "success"); ("message", "Metrics received")] w1 /\
    metrics_collection w1 = metrics_collection w ++ [metrics] /\
    alerts_collection w1 = alerts_collection w /\
    redis_client w1 = redis_client w /\
    stored_agent w1 (agent_name metrics)
    = Some {| ag_name := agent_name metrics;
              ag_hostname := hostname metrics;
              ag_last_seen := isoformat (now e);
              ag_alert_config :=
                match stored_agent w (agent_name metrics) with
                | Some d => ag_alert_config d
                | None => None
                end |} /\
    forall other,
      other <> agent_name metrics ->
      stored_agent w1 other = stored_agent w other.
Proof.
  intros Hup Hkey.
  unfold receive_metrics, verify_api_key, bind, ask, log, insert_one_metrics,
    update_one_agent, bind, mongo_call, raise, ret.
  rewrite Hkey, Hup. cbn.
  set (p := fun d => String.eqb (ag_name d) (agent_name metrics)).
  set (f := fun d : agent_doc => Some _).
  pose proof (update_first_find_same p f (agents_collection w)) as Hsame.
  pose proof (update_first_matched p f (agents_collection w)) as Hcount.
  pose proof (update_first_unmatched p f (agents_collection w)) as Hun.
  assert (Hother : forall other, other <> agent_name metrics ->
            List.find (fun d => String.eqb (ag_name d) other)
                      (update_first p f (agents_collection w)).1
            = List.find (fun d => String.eqb (ag_name d) other)
                        (agents_collection w)).
  { intros other Hne. apply update_first_find_other.
    - intros x Hx. apply String.eqb_eq in Hx. rewrite Hx.
      apply String.eqb_neq. congruence.
    - intros x y Hx [= <-]. cbn. apply String.eqb_neq. congruence. }
  destruct (update_first p f (agents_collection w)) as [l' r].
  cbn [fst snd] in *.
  eexists. split; [reflexivity|]. cbn. repeat (split; [reflexivity|]).
  unfold stored_agent. cbn. fold p.
  destruct (List.find p (agents_collection w)) as [d|] eqn:Hfind.
  - rewrite Hcount. cbn. split.
    + rewrite Hsame; [reflexivity|]. intros x y _ [= <-]. unfold p. cbn.
      apply String.eqb_refl.
    + intros other Hne. now apply Hother.
  - rewrite Hcount. cbn. rewrite (Hun eq_refl). split.
    + rewrite find_app_none by assumption. unfold p. cbn.
      now rewrite String.eqb_refl.
    + intros other Hne.
      destruct (List.find (fun d => String.eqb (ag_name d) other)
                          (agents_collection w)) as [d|] eqn:Ho.
      * now apply find_app_some.
      * rewrite find_app_none by assumption. cbn.
        destruct (String.eqb_spec (agent_name metrics) other); congruence.
Qed.

(** X2. An accepted report stores the snapshot and registers or refreshes
    its agent: afterwards the agent's document carries the reported
    hostname and [last_seen] of this very moment, there is still one
    document per agent name, every [last_seen] still renders a datetime,
    and no alert was touched. *)
Theorem report_registers_agent metrics x_api_key e w :
  mongo_up e = true ->
  existsb (String.eqb x_api_key) (API_KEYS (config e)) = true ->
  0 <= now e < DATETIME_END ->
  agents_wf (agents_collection w) ->
  exists w1 d,
    receive_metrics metrics x_api_key e w
    = Ok [("status", "success"); ("message", "Metrics received")] w1 /\
    metrics_collection w1 = metrics_collection w ++ [metrics] /\
    alerts_collection w1 = alerts_collection w /\
    agents_wf (agents_collection w1) /\
    stored_agent w1 (agent_name metrics) = Some d /\
    ag_hostname d = hostname metrics /\
    ag_last_seen d = isoformat (now e).
Proof.
  intros Hup Hkey Hnow Hwf.
  destruct (receive_metrics_agents metrics x_api_key e w Hup Hkey)
    as (w1 & Hrun & Hm & Ha & _ & Hd & _).
  destruct (receive_metrics_agents_wf metrics x_api_key e w _ w1 Hnow Hwf Hrun)
    as [Hwf1 _].
  eexists w1, _. repeat (split; [eassumption|]). split; reflexivity.
Qed.

(** X3. A report never changes alert configuration: the reporting agent
    keeps the [alert_config] it had (none, if it is new), and the
    documents of all other agents are found exactly as before. *)
Theorem report_keeps_configurations metrics x_api_key e w :
  mongo_up e = true ->
  existsb (String.eqb x_api_key) (API_KEYS (config e)) = true ->
  exists w1 d,
    receive_metrics metrics x_api_key e w
    = Ok [("status", "success"); ("message", "Metrics received")] w1 /\
    stored_agent w1 (agent_name metrics) = Some d /\
    ag_alert_config d
    = match stored_agent w (agent_name metrics) with
      | Some d0 => ag_alert_config d0
      | None => None
      end /\
    forall other,
      other <> agent_name metrics ->
      stored_agent w1 other = stored_agent w other.
Proof.
  intros Hup Hkey.
  destruct (receive_metrics_agents metrics x_api_key e w Hup Hkey)
    as (w1 & Hrun & _ & _ & _ & Hd & Hother).
  eexists w1, _. split; [exact Hrun|]. split; [exact Hd|].
  split; [reflexivity|exact Hother].
Qed.

Section Configuration.
Context `{PyRuntime}.

(** X4. Configuring a known agent succeeds and takes effect: the stored
    policy of that agent is the submitted one, other agents and all alerts
    and metrics are untouched, and every later threshold check of that
    agent is evaluated against the submitted policy. Submitting the
    policy the agent already has succeeds as well. *)
Theorem agent_config_round_trip name cfg x_api_key e w d :
  mongo_up e = true ->
  existsb (String.eqb x_api_key) (API_KEYS (config e)) = true ->
  stored_agent w name = Some d ->
  exists w1,
    update_agent_config name cfg x_api_key e w
    = Ok [("status", "success"); ("message", "Agent configuration updated")]
         w1 /\
    resolve_alert_config (stored_agent w1 name) = cfg /\
    (forall other, other <> name -> stored_agent w1 other = stored_agent w other) /\
    alerts_collection w1 = alerts_collection w /\
    metrics_collection w1 = metrics_collection w /\
    forall metrics e',
      agent_name metrics = name -> mongo_up e' = true ->
      check_thresholds metrics e' w1
      = fire_all name (hostname metrics) (Evaluate metrics cfg) [] e' w1.
Proof.
  intros Hup Hkey Hd.
  unfold update_agent_config, verify_api_key, bind, ask, update_one_agent, bind,
    mongo_call, raise, ret.
  rewrite Hkey, Hup. cbn.
  set (p := fun d => String.eqb (ag_name d) name).
  set (f := fun d : agent_doc => Some _).
  pose proof (update_first_find_same p f (agents_collection w)) as Hsame.
  pose proof (update_first_matched p f (agents_collection w)) as Hcount.
  assert (Hother : forall other, other <> name ->
            List.find (fun d => String.eqb (ag_name d) other)
                      (update_first p f (agents_collection w)).1
            = List.find (fun d => String.eqb (ag_name d) other)
                        (agents_collection w)).
  { intros other Hne. apply update_first_find_other.
    - intros x Hx. apply String.eqb_eq in Hx. rewrite Hx.
      apply String.eqb_neq. congruence.
    - intros x y Hx [= <-]. cbn. apply String.eqb_eq in Hx. rewrite Hx.
      apply String.eqb_neq. congruence. }
  unfold stored_agent in Hd. fold p in Hd. rewrite Hd in Hsame, Hcount.
  destruct (update_first p f (agents_collection w)) as [l' r].
  cbn [fst snd] in *. rewrite Hcount. cbn.
  eexists. split; [reflexivity|].
  assert (Hpol : resolve_alert_config
                   (stored_agent
                      (emit (set_agents w l') (EvUpdateAgent name)) name) = cfg).
  { unfold stored_agent. cbn. fold p. rewrite Hsame; [reflexivity|].
    intros x y Hx [= <-]. exact Hx. }
  split; [exact Hpol|]. split.
  { intros other Hne. unfold stored_agent. cbn. now apply Hother. }
  split; [reflexivity|]. split; [reflexivity|].
  intros metrics e' Hname Hup'.
  rewrite check_thresholds_refines by assumption.
  now rewrite Hname, Hpol.
Qed.

(** X5. Configuring an unknown agent answers 404 and creates nothing: the
    agents collection is as it was, so the agent stays unknown and its
    reports keep being checked against the defaults. *)
Theorem agent_config_unknown_agent name cfg x_api_key e w :
  mongo_up e = true ->
  existsb (String.eqb x_api_key) (API_KEYS (config e)) = true ->
  stored_agent w name = None ->
  exists w1,
    update_agent_config name cfg x_api_key e w
    = Raise (HTTPException 404 "Agent not found") w1 /\
    agents_collection w1 = agents_collection w /\
    alerts_collection w1 = alerts_collection w /\
    resolve_alert_config (stored_agent w1 name) = AlertConfig_default.
Proof.
  intros Hup Hkey Hnone.
  unfold update_agent_config, verify_api_key, bind, ask, update_one_agent, bind,
    mongo_call, raise, ret.
  rewrite Hkey, Hup. cbn.
  set (p := fun d => String.eqb (ag_name d) name).
  set (f := fun d : agent_doc => Some _).
  pose proof (update_first_matched p f (agents_collection w)) as Hcount.
  pose proof (update_first_unmatched p f (agents_collection w)) as Hun.
  unfold stored_agent in Hnone. fold p in Hnone. rewrite Hnone in Hcount.
  specialize (Hun Hnone).
  destruct (update_first p f (agents_collection w)) as [l' r].
  cbn [fst snd] in *. subst l'. rewrite Hcount. cbn.
  eexists. split; [reflexivity|]. cbn. repeat (split; [reflexivity|]).
  unfold stored_agent. cbn. fold p. now rewrite Hnone.
Qed.
End Configuration.

(** * Timestamps *)

(** X6. Rendered timestamps order as time does: over the whole range of
    [datetime], comparing two [isoformat] strings bytewise gives the
    comparison of the two moments, whether or not the microsecond part is
    printed, and distinct moments never render alike. *)
Theorem isoformat_chronological t1 t2 :
  0 <= t1 < DATETIME_END -> 0 <= t2 < DATETIME_END ->
  String.compare (isoformat t1) (isoformat t2) = (t1 ?= t2) /\
  String.ltb (isoformat t1) (isoformat t2) = (t1 <? t2) /\
  String.leb (isoformat t1) (isoformat t2) = (t1 <=? t2) /\
  (isoformat t1 = isoformat t2 -> t1 = t2).
Proof.
  intros H1 H2. pose proof (isoformat_compare t1 t2 H1 H2) as Hc.
  split; [exact Hc|]. split; [now apply isoformat_ltb|]. split.
  - unfold String.leb, Z.leb. now rewrite Hc.
  - intros Heq. rewrite Heq in Hc.
    assert (Hrefl : String.compare (isoformat t2) (isoformat t2) = Eq).
    { rewrite (isoformat_compare t2 t2 H2 H2). apply Z.compare_refl. }
    rewrite Hrefl in Hc. symmetry in Hc. now apply Z.compare_eq_iff.
Qed.

(** * Sweeps of the liveness task *)









(** * What the channels do *)

Ltac session_done :=
  do 3 eexists; split; [reflexivity|]; cbn;
  split; [rewrite <- ?app_assoc; cbn [app]; reflexivity|].

(** X9. The e-mail channel never sends credentials over a connection it
    has not secured: in every session a login comes only after STARTTLS,
    and with the user name or the password unset there is neither; and
    when the function reports success, the session ended with the message
    handed over and the connection closed. *)
Theorem email_session_discipline subject message e w :
  ALERT_EMAIL_ENABLED (config e) = true ->
  exists b w' evs,
    send_email_alert subject message e w = Ok b w' /\
    trace w' = trace w ++ evs /\
    tls_before_login false evs = true /\
    (str_truthy (ALERT_EMAIL_USERNAME (config e))
     && str_truthy (ALERT_EMAIL_PASSWORD (config e)) = false ->
     forallb (fun ev => negb (is_login_event ev)) evs = true) /\
    (b = true ->
     exists session,
       evs = session ++
             [EvSmtp (SmtpSendMessage (ALERT_EMAIL_FROM (config e))
                                      (ALERT_EMAIL_TO (config e))
                                      subject message);
              EvSmtp SmtpQuit]).
Proof.
  intros Hen. unfold send_email_alert, bind, ask, try_except, when.
  rewrite Hen. cbn [negb]. unfold smtp, log, ret, bind. cbn.
  destruct (smtp_fault e (length (trace w)) _) as [m1|]; cbn.
  { session_done. repeat split; try reflexivity. discriminate. }
  destruct (str_truthy _ && str_truthy _) eqn:Hcreds; cbn.
  - destruct (smtp_fault e _ SmtpStartTls) as [m2|]; cbn.
    { session_done. repeat split; try reflexivity; discriminate. }
    destruct (smtp_fault e _ (SmtpLogin _ _)) as [m3|]; cbn.
    { session_done. repeat split; try reflexivity; discriminate. }
    destruct (smtp_fault e _ (SmtpSendMessage _ _ _ _)) as [m4|]; cbn.
    { session_done. repeat split; try reflexivity; discriminate. }
    destruct (smtp_fault e _ SmtpQuit) as [m5|]; cbn; session_done.
    + repeat split; try reflexivity; discriminate.
    + split; [reflexivity|]. split; [discriminate|]. intros _.
      eexists [_; _; _]. reflexivity.
  - destruct (smtp_fault e _ (SmtpSendMessage _ _ _ _)) as [m4|]; cbn.
    { session_done. repeat split; try reflexivity; discriminate. }
    destruct (smtp_fault e _ SmtpQuit) as [m5|]; cbn; session_done.
    + repeat split; try reflexivity; discriminate.
    + split; [reflexivity|]. split; [reflexivity|]. intros _.
      eexists [_]. reflexivity.
Qed.

(** X10. What the two HTTP channels count as delivered: the Telegram
    channel answers true exactly when the API replied with status 200 and
    the Discord channel exactly when the webhook replied with status 204;
    any other status, a 200 from the webhook included, and any exception
    of the request give false. Each makes exactly one request, to the bot
    URL built from the token and to the webhook URL. *)
Theorem http_channel_outcomes message e w :
  let c := config e in
  let bot_url := "https://api.telegram.org/bot" +:+ ALERT_TELEGRAM_BOT_TOKEN c
                 +:+ "/sendMessage" in
  (ALERT_TELEGRAM_ENABLED c = true ->
   exists w',
     send_telegram_alert message e w
     = Ok (match http_reply e (length (trace w)) bot_url with
           | HttpResponse status_code _ => status_code =? 200
           | HttpRaises _ => false
           end) w' /\
     trace w'
     = trace w ++
       [EvHttpPost bot_url [("chat_id", ALERT_TELEGRAM_CHAT_ID c);
                            ("text", message); ("parse_mode", "Markdown")]]) /\
  (ALERT_DISCORD_ENABLED c = true ->
   exists w',
     send_discord_alert message e w
     = Ok (match http_reply e (length (trace w)) (ALERT_DISCORD_WEBHOOK_URL c) with
           | HttpResponse status_code _ => status_code =? 204
           | HttpRaises _ => false
           end) w' /\
     trace w'
     = trace w ++
       [EvHttpPost (ALERT_DISCORD_WEBHOOK_URL c) [("content", message)]]).
Proof.
  intros c bot_url. subst c bot_url. split; intros Hen.
  - unfold send_telegram_alert, bind, ask, try_except.
    rewrite Hen. cbn [negb]. unfold requests_post, log, ret, bind. cbn.
    destruct (http_reply e _ _) as [m|status text] eqn:Hreply; cbn.
    + eexists. split; reflexivity.
    + destruct (status =? 200) eqn:Hs; cbn; eexists; split; reflexivity.
  - unfold send_discord_alert, bind, ask, try_except.
    rewrite Hen. cbn [negb]. unfold requests_post, log, ret, bind. cbn.
    destruct (http_reply e _ _) as [m|status text] eqn:Hreply; cbn.
    + eexists. split; reflexivity.
    + destruct (status =? 204) eqn:Hs; cbn; eexists; split; reflexivity.
Qed.

(** * More on the threshold checks *)

Lemma fired_entries_ids e agent_name hostname n cs :
  map (fun entry => dict_get entry "id") (fired_entries n cs)
  = map (fun d => Some (bson_id_str (al_id d)))
        (fired_docs e agent_name hostname n cs) /\
  map (fun entry => dict_get entry "type") (fired_entries n cs)
  = map (fun d => Some (al_alert_type d))
        (fired_docs e agent_name hostname n cs).
Proof.
  revert n. induction cs as [|c cs IH]; intros n; [split; reflexivity|].
  destruct (IH (n + 1)%N) as [IHi IHt].
  cbn [fired_entries fired_docs map]. rewrite IHi, IHt. split; reflexivity.
Qed.

Lemma fired_docs_fields e agent_name hostname n cs :
  Forall (fun d => al_agent_name d = agent_name /\ al_hostname d = hostname /\
                   al_acknowledged d = false)
         (fired_docs e agent_name hostname n cs).
Proof.
  revert n. induction cs as [|c cs IH]; intros n; constructor; [cbn; auto|apply IH].
Qed.

Lemma fired_entries_of_kind_key key ty n cs :
  String.eqb "type" key = false -> String.eqb "id" key = false ->
  map (fun entry => dict_get entry key) (sent_of_type ty (fired_entries n cs))
  = map (fun c => dict_get (extra c) key) (List.filter (of_kind ty) cs).
Proof.
  intros Ht Hi. revert n. induction cs as [|c cs IH]; intros n; [reflexivity|].
  unfold sent_of_type in *. cbn [fired_entries List.filter].
  unfold of_kind at 1. change (dict_get (_ ++ extra c) "type") with (Some (kind c)).
  destruct (String.eqb (kind c) ty); cbn [map].
  - f_equal; [|apply IH]. cbn [app dict_get]. now rewrite Ht, Hi.
  - apply IH.
Qed.

Section MoreChecks.
Context `{PyRuntime}.

(** X11. What a run reports is what it stored: a completed run appends
    its new records to the collection and returns one [alerts_sent] entry
    per new record, in the same order, each carrying the type and the id
    of its record; every new record is unacknowledged and carries the
    agent name and the hostname of the report. Nothing is said about the
    timestamps: each record is stamped by its own call of [send_alert]. *)
Theorem alerts_sent_match_records metrics e w :
  mongo_up e = true ->
  exists sent w',
    check_thresholds metrics e w = Ok sent w' /\
    alerts_collection w'
    = alerts_collection w ++ new_alerts w (check_thresholds metrics e w) /\
    map (fun entry => dict_get entry "id") sent
    = map (fun d => Some (bson_id_str (al_id d)))
          (new_alerts w (check_thresholds metrics e w)) /\
    map (fun entry => dict_get entry "type") sent
    = map (fun d => Some (al_alert_type d))
          (new_alerts w (check_thresholds metrics e w)) /\
    Forall (fun d => al_agent_name d = agent_name metrics /\
                     al_hostname d = hostname metrics /\
                     al_acknowledged d = false)
           (new_alerts w (check_thresholds metrics e w)).
Proof.
  intros Hup.
  destruct (check_thresholds_up metrics e w Hup)
    as (w' & Hrun & Hnew & Hall & _).
  eexists _, w'. split; [exact Hrun|]. split; [exact Hall|].
  rewrite Hnew.
  destruct (fired_entries_ids e (agent_name metrics) (hostname metrics)
              (oid_counter w)
              (Evaluate metrics
                 (resolve_alert_config (stored_agent w (agent_name metrics)))))
    as [Hi Ht].
  split; [exact Hi|]. split; [exact Ht|]. apply fired_docs_fields.
Qed.

Lemma no_candidate_no_alert_policy ty metrics e w :
  List.filter (of_kind ty)
    (Evaluate metrics
       (resolve_alert_config (stored_agent w (agent_name metrics)))) = [] ->
  no_alert_of_type ty w (check_thresholds metrics e w).
Proof.
  intros Hnone. unfold no_alert_of_type. destruct (mongo_up e) eqn:Hup.
  - destruct (check_thresholds_up metrics e w Hup) as (w' & Hrun & Hnew & _).
    rewrite Hnew, Hrun. split.
    + apply map_eq_nil with (f := al_message).
      now rewrite fired_docs_of_kind, Hnone.
    + intros sent [= <-].
      apply map_eq_nil with (f := fun entry => dict_get entry "path").
      now rewrite fired_entries_of_kind, Hnone.
  - destruct (check_thresholds_down_new metrics e w Hup) as (-> & ->).
    split; [reflexivity|discriminate].
Qed.

(** X12. The two switches of a policy silence their alerts: with
    [service_alerts] off no SERVICE_DOWN alert is raised whatever the
    services report, and with [ssh_brute_force_alerts] off no
    SSH_BRUTE_FORCE alert is raised whatever the agent counted. *)
Theorem alert_switches_off metrics e w :
  (service_alerts
     (resolve_alert_config (stored_agent w (agent_name metrics))) = false ->
   no_alert_of_type "SERVICE_DOWN" w (check_thresholds metrics e w)) /\
  (ssh_brute_force_alerts
     (resolve_alert_config (stored_agent w (agent_name metrics))) = false ->
   no_alert_of_type "SSH_BRUTE_FORCE" w (check_thresholds metrics e w)).
Proof.
  split; intros Hoff; apply no_candidate_no_alert_policy;
    rewrite Evaluate_of_kind; cbn [String.eqb Ascii.eqb Bool.eqb].
  - unfold service_candidates. now rewrite Hoff.
  - unfold ssh_candidates. now rewrite Hoff.
Qed.

(** X13. With service alerts on, a run that reaches the checks raises
    SERVICE_DOWN for exactly the services whose reported status is not
    the string [active] (so also for [inactive], [failed], [unknown] and
    the empty string), in the order of the map, each with a message naming
    the service and its status. *)
Theorem service_alerts_per_service metrics items e w :
  mongo_up e = true ->
  services metrics = Some items ->
  service_alerts
    (resolve_alert_config (stored_agent w (agent_name metrics))) = true ->
  exists sent w',
    check_thresholds metrics e w = Ok sent w' /\
    map (fun entry => dict_get entry "service") (sent_of_type "SERVICE_DOWN" sent)
    = map (fun item => Some item.1) (not_active items) /\
    map al_message
        (List.filter (has_type "SERVICE_DOWN")
                     (new_alerts w (check_thresholds metrics e w)))
    = map (fun item => "Service " +:+ item.1 +:+ " is " +:+ item.2)
          (not_active items).
Proof.
  intros Hup Hs Hon.
  destruct (check_thresholds_up metrics e w Hup) as (w' & Hrun & Hnew & _).
  eexists _, w'. split; [exact Hrun|]. split.
  - rewrite fired_entries_of_kind_key by reflexivity.
    rewrite Evaluate_of_kind. cbn [String.eqb Ascii.eqb Bool.eqb].
    unfold service_candidates, not_active. rewrite Hon, Hs.
    rewrite List.map_map. apply List.map_ext. now intros [s st].
  - rewrite Hnew, fired_docs_of_kind, Evaluate_of_kind.
    cbn [String.eqb Ascii.eqb Bool.eqb].
    unfold service_candidates, not_active. rewrite Hon, Hs.
    now rewrite List.map_map.
Qed.

(** X14. Memory follows the same rule as CPU: a run that reaches the
    checks inserts one RAM_HIGH record, with both numbers in its message,
    when [ram_usage] is strictly over the RAM threshold of the policy in
    force, and no RAM_HIGH record otherwise. *)
Theorem ram_high_iff_over_threshold metrics ram e w :
  mongo_up e = true ->
  ram_usage metrics = Some ram ->
  let policy := resolve_alert_config (stored_agent w (agent_name metrics)) in
  map al_message
      (List.filter (has_type "RAM_HIGH")
                   (new_alerts w (check_thresholds metrics e w)))
  = if PrimFloat.ltb (ram_threshold policy) ram
    then ["RAM usage is " +:+ float_repr ram +:+
          "%, which exceeds the threshold of " +:+
          float_repr (ram_threshold policy) +:+ "%"]
    else [].
Proof.
  intros Hup Hram policy.
  destruct (check_thresholds_up metrics e w Hup) as (w' & _ & Hnew & _).
  rewrite Hnew, fired_docs_of_kind, Evaluate_of_kind.
  cbn [String.eqb Ascii.eqb Bool.eqb].
  unfold ram_candidates. fold policy. rewrite Hram.
  now destruct (PrimFloat.ltb _ _).
Qed.
End MoreChecks.

(** * Acknowledging, in general *)

(** X15. No alert that [send_alert] stored can be acknowledged through
    the endpoint: in a world whose alerts all carry driver-assigned
    ObjectIds, [send_alert] adds another such alert, and acknowledging the
    id it returned, like any other id, answers 404 and leaves every alert
    as it was. *)
Theorem stored_alerts_cannot_be_acknowledged
  alert_type agent_name hostname message x_api_key e e' w :
  mongo_up e = true -> mongo_up e' = true ->
  existsb (String.eqb x_api_key) (API_KEYS (config e')) = true ->
  Forall (fun d => exists n, al_id d = ObjectId n) (alerts_collection w) ->
  exists alert_id w1,
    send_alert alert_type agent_name hostname message e w = Ok alert_id w1 /\
    Forall (fun d => exists n, al_id d = ObjectId n) (alerts_collection w1) /\
    forall any_id,
      exists w2,
        acknowledge_alert any_id x_api_key e' w1
        = Raise (HTTPException 404 "Alert not found") w2 /\
        alerts_collection w2 = alerts_collection w1.
Proof.
  intros Hup Hup' Hkey Hids.
  destruct (send_alert_spec alert_type agent_name hostname message e w Hup)
    as (w1 & Hrun & Ha & _).
  assert (Hids1 : Forall (fun d => exists n, al_id d = ObjectId n)
                         (alerts_collection w1)).
  { rewrite Ha. apply Forall_app. split; [assumption|].
    repeat constructor. now exists (oid_counter w). }
  exists (hexfill 24 (oid_counter w)), w1. split; [exact Hrun|].
  split; [exact Hids1|].
  intros any_id. now apply acknowledge_alert_object_ids.
Qed.

(** * Reading back: the GET endpoints *)

Lemma insert_desc_perm {A : Type} (key : A -> string) x (l : list A) :
  Permutation (insert_desc key x l) (x :: l).
Proof.
  induction l as [|y l IH]; [reflexivity|]. cbn.
  destruct (String.leb (key y) (key x)); [reflexivity|].
  rewrite IH. apply perm_swap.
Qed.

Lemma sort_desc_perm {A : Type} (key : A -> string) (l : list A) :
  Permutation (sort_desc key l) l.
Proof.
  induction l as [|x l IH]; [reflexivity|]. cbn.
  rewrite insert_desc_perm. now constructor.
Qed.

Lemma insert_desc_sorted {A : Type} (key : A -> string) x (l : list A) :
  Sorted (descending key) l -> Sorted (descending key) (insert_desc key x l).
Proof.
  induction 1 as [|y l Hl IH Hhd]; [repeat constructor|]. cbn.
  destruct (String.leb (key y) (key x)) eqn:Hyx.
  - constructor; [now constructor|]. now constructor.
  - assert (Hxy : descending key y x).
    { unfold descending. destruct (String.leb_total (key x) (key y)); congruence. }
    constructor; [exact IH|].
    destruct Hhd as [|z l Hz]; cbn.
    + now constructor.
    + destruct (String.leb (key z) (key x)); now constructor.
Qed.

Lemma sort_desc_sorted {A : Type} (key : A -> string) (l : list A) :
  Sorted (descending key) (sort_desc key l).
Proof.
  induction l as [|x l IH]; [constructor|]. now apply insert_desc_sorted.
Qed.

Lemma Sorted_map {A B : Type} (R : A -> A -> Prop) (R' : B -> B -> Prop)
  (f : A -> B) l :
  (forall a b, R a b -> R' (f a) (f b)) ->
  Sorted R l -> Sorted R' (map f l).
Proof.
  intros HR. induction 1 as [|x l Hl IH Hhd]; [constructor|].
  cbn. constructor; [exact IH|].
  destruct Hhd; cbn; constructor. now apply HR.
Qed.

Lemma window_run e hours w :
  window_ok e hours ->
  timedelta_hours hours e w = Ok (hours * 3600 * US_PER_SECOND) w /\
  datetime_sub (now e) (hours * 3600 * US_PER_SECOND) e w
  = Ok (now e - hours * 3600 * US_PER_SECOND) w.
Proof.
  intros [Hd Hs]. unfold timedelta_hours, datetime_sub, raise, ret.
  destruct (Z.ltb_spec (hours * 3600 * US_PER_SECOND) TIMEDELTA_MIN); [lia|].
  destruct (Z.ltb_spec TIMEDELTA_MAX (hours * 3600 * US_PER_SECOND)); [lia|].
  destruct (Z.ltb_spec (now e - hours * 3600 * US_PER_SECOND) 0); [lia|].
  destruct (Z.leb_spec DATETIME_END (now e - hours * 3600 * US_PER_SECOND));
    [lia|].
  split; reflexivity.
Qed.

Lemma get_alerts_run acknowledged hours x_api_key e w :
  mongo_up e = true ->
  existsb (String.eqb x_api_key) (API_KEYS (config e)) = true ->
  window_ok e hours ->
  get_alerts acknowledged hours x_api_key e w
  = Ok (map project_alert
          (sort_desc al_timestamp
             (List.filter
                (fun d =>
                   in_window (now e - hours * 3600 * US_PER_SECOND) (now e)
                             (al_timestamp d)
                   && match acknowledged with
                      | Some flag => Bool.eqb (al_acknowledged d) flag
                      | None => true
                      end)
                (alerts_collection w)))) w.
Proof.
  intros Hup Hkey Hwin. destruct (window_run e hours w Hwin) as [Htd Hsub].
  unfold get_alerts.
  assert (Hv : verify_api_key x_api_key e w = Ok x_api_key w).
  { unfold verify_api_key, bind, ask, ret. now rewrite Hkey. }
  rewrite (bind_ok _ _ _ _ _ _ Hv).
  unfold bind at 1, ask at 1.
  rewrite (bind_ok _ _ _ _ _ _ Htd), (bind_ok _ _ _ _ _ _ Hsub).
  unfold bind, find_alerts, bind, mongo_call, ret. now rewrite Hup.
Qed.

(** X16. Listing alerts: with a valid key and a representable window the
    endpoint returns, newest first, the projections of exactly the stored
    alerts whose timestamp lies in the window and whose flag matches the
    filter when one is given, and it leaves the world as it was. *)
Theorem get_alerts_lists_the_window acknowledged hours x_api_key e w :
  mongo_up e = true ->
  existsb (String.eqb x_api_key) (API_KEYS (config e)) = true ->
  window_ok e hours ->
  exists views,
    get_alerts acknowledged hours x_api_key e w = Ok views w /\
    Sorted (descending av_timestamp) views /\
    Permutation views
      (map project_alert
         (List.filter
            (fun d =>
               in_window (now e - hours * 3600 * US_PER_SECOND) (now e)
                         (al_timestamp d)
               && match acknowledged with
                  | Some flag => Bool.eqb (al_acknowledged d) flag
                  | None => true
                  end)
            (alerts_collection w))) /\
    Forall (fun v =>
              in_window (now e - hours * 3600 * US_PER_SECOND) (now e)
                        (av_timestamp v) = true /\
              forall flag, acknowledged = Some flag -> av_acknowledged v = flag)
           views.
Proof.
  intros Hup Hkey Hwin. eexists. split; [now apply get_alerts_run|].
  split; [|split].
  - apply (Sorted_map (descending al_timestamp)); [auto|apply sort_desc_sorted].
  - apply Permutation_map, sort_desc_perm.
  - apply List.Forall_forall. intros v Hv.
    apply in_map_iff in Hv as (d & <- & Hd).
    apply (Permutation_in _ (sort_desc_perm _ _)) in Hd.
    apply filter_In in Hd as [_ Hq]. apply andb_prop in Hq as [Hw Hack].
    split; [exact Hw|]. intros flag ->. now apply Bool.eqb_prop in Hack.
Qed.

Lemma in_window_time start_time end_time t :
  0 <= start_time < DATETIME_END -> 0 <= end_time < DATETIME_END ->
  0 <= t < DATETIME_END ->
  in_window start_time end_time (isoformat t)
  = (start_time <=? t) && (t <=? end_time).
Proof.
  intros Hs He Ht. unfold in_window, String.leb.
  rewrite !isoformat_compare by assumption. reflexivity.
Qed.

Lemma get_alerts_member acknowledged hours e w d t :
  window_ok e hours ->
  0 <= now e < DATETIME_END ->
  List.In d (alerts_collection w) ->
  0 <= t < DATETIME_END -> al_timestamp d = isoformat t ->
  List.In (project_alert d)
    (map project_alert
       (sort_desc al_timestamp
          (List.filter
             (fun d =>
                in_window (now e - hours * 3600 * US_PER_SECOND) (now e)
                          (al_timestamp d)
                && match acknowledged with
                   | Some flag => Bool.eqb (al_acknowledged d) flag
                   | None => true
                   end)
             (alerts_collection w)))) <->
  now e - hours * 3600 * US_PER_SECOND <= t <= now e /\
  forall flag, acknowledged = Some flag -> al_acknowledged d = flag.
Proof.
  intros Hwin Hnow Hin Ht Hstamp.
  set (q := fun d0 : alert_doc => _ && _).
  assert (Hq : forall d0,
             al_timestamp d0 = al_timestamp d ->
             al_acknowledged d0 = al_acknowledged d ->
             q d0 = true <->
             (now e - hours * 3600 * US_PER_SECOND <= t <= now e /\
              forall flag, acknowledged = Some flag -> al_acknowledged d = flag)).
  { intros d0 Hts Hack. unfold q. rewrite Hts, Hack, Hstamp.
    rewrite in_window_time by (assumption || apply Hwin).
    rewrite !andb_true_iff, !Z.leb_le.
    destruct acknowledged as [flag|].
    - rewrite Bool.eqb_true_iff. split.
      + intros [Hw Hf]. split; [lia|]. now intros flag' [= <-].
      + intros [Hw Hf]. split; [lia|]. now apply Hf.
    - split; [intros [Hw _]; split; [lia|discriminate]|]. intros [Hw _].
      split; [lia|reflexivity]. }
  split.
  - intros Hv. apply in_map_iff in Hv as (d0 & Hproj & Hd0).
    apply (Permutation_in _ (sort_desc_perm _ _)) in Hd0.
    apply filter_In in Hd0 as [_ Hq0].
    apply (Hq d0); [| |exact Hq0].
    + now apply (f_equal av_timestamp) in Hproj.
    + now apply (f_equal av_acknowledged) in Hproj.
  - intros Hcond. apply in_map.
    apply (Permutation_in _ (Permutation_sym (sort_desc_perm _ _))).
    apply filter_In. split; [exact Hin|]. now apply (Hq d).
Qed.

(** X17. The window is a window of time: an alert stamped with the moment
    [t] is listed exactly when [t] lies between [now] minus the requested
    hours and [now], both ends included, and its flag passes the filter.
    So a request for zero hours lists only alerts of this very
    microsecond, and a request for a negative number of hours lists
    nothing. *)
Theorem get_alerts_window_of_time acknowledged hours x_api_key e w d t :
  mongo_up e = true ->
  existsb (String.eqb x_api_key) (API_KEYS (config e)) = true ->
  window_ok e hours ->
  0 <= now e < DATETIME_END ->
  List.In d (alerts_collection w) ->
  0 <= t < DATETIME_END -> al_timestamp d = isoformat t ->
  exists views,
    get_alerts acknowledged hours x_api_key e w = Ok views w /\
    (List.In (project_alert d) views <->
     now e - hours * 3600 * US_PER_SECOND <= t <= now e /\
     forall flag, acknowledged = Some flag -> al_acknowledged d = flag).
Proof.
  intros Hup Hkey Hwin Hnow Hin Ht Hstamp.
  eexists. split; [now apply get_alerts_run|].
  now apply get_alerts_member.
Qed.

(** X18. An alert can be read back: after [send_alert] stored an alert at
    the moment [now], a listing whose window covers that moment returns
    it, with the fields it was sent with, unacknowledged and stamped with
    that moment, both without a filter and among the unacknowledged
    alerts, and never among the acknowledged ones. *)
Theorem stored_alert_is_listed
  alert_type agent_name hostname message hours x_api_key e e2 w :
  mongo_up e = true -> mongo_up e2 = true ->
  existsb (String.eqb x_api_key) (API_KEYS (config e2)) = true ->
  0 <= now e < DATETIME_END -> 0 <= now e2 < DATETIME_END ->
  window_ok e2 hours ->
  now e2 - hours * 3600 * US_PER_SECOND <= now e <= now e2 ->
  let view := {| av_agent_name := agent_name; av_hostname := hostname;
                 av_alert_type := alert_type; av_message := message;
                 av_timestamp := isoformat (now e);
                 av_acknowledged := false |} in
  exists alert_id w1 all open closed,
    send_alert alert_type agent_name hostname message e w = Ok alert_id w1 /\
    get_alerts None hours x_api_key e2 w1 = Ok all w1 /\
    get_alerts (Some false) hours x_api_key e2 w1 = Ok open w1 /\
    get_alerts (Some true) hours x_api_key e2 w1 = Ok closed w1 /\
    List.In view all /\ List.In view open /\ ~ List.In view closed.
Proof.
  intros Hup Hup2 Hkey Hnow Hnow2 Hwin Hcover view.
  destruct (send_alert_spec alert_type agent_name hostname message e w Hup)
    as (w1 & Hrun & Ha & _).
  set (d := alert_record e w alert_type agent_name hostname message) in *.
  assert (Hin : List.In d (alerts_collection w1)).
  { rewrite Ha. apply in_or_app. right. now left. }
  pose proof (fun acknowledged =>
                get_alerts_member acknowledged hours e2 w1 d (now e)
                                  Hwin Hnow2 Hin Hnow eq_refl) as Hmem.
  pose proof (fun acknowledged =>
                get_alerts_run acknowledged hours x_api_key e2 w1
                               Hup2 Hkey Hwin) as Hlist.
  eexists (hexfill 24 (oid_counter w)), w1, _, _, _.
  split; [exact Hrun|]. repeat (split; [apply Hlist|]). split; [|split].
  - apply (Hmem None). split; [exact Hcover|discriminate].
  - apply (Hmem (Some false)). split; [exact Hcover|]. now intros flag [= <-].
  - intros Hv. apply (Hmem (Some true)) in Hv as [_ Hf].
    specialize (Hf true eq_refl). discriminate Hf.
Qed.

Lemma window_overflow e hours w :
  ~ window_ok e hours ->
  bind (timedelta_hours hours)
       (fun delta => datetime_sub (now e) delta) e w
  = Raise OverflowError w.
Proof.
  intros Hbad. unfold bind, timedelta_hours, datetime_sub, raise, ret.
  destruct (Z.ltb_spec (hours * 3600 * US_PER_SECOND) TIMEDELTA_MIN);
    [reflexivity|].
  destruct (Z.ltb_spec TIMEDELTA_MAX (hours * 3600 * US_PER_SECOND));
    [reflexivity|]. cbn.
  destruct (Z.ltb_spec (now e - hours * 3600 * US_PER_SECOND) 0);
    [reflexivity|].
  destruct (Z.leb_spec DATETIME_END (now e - hours * 3600 * US_PER_SECOND));
    [reflexivity|].
  exfalso. apply Hbad. unfold window_ok. lia.
Qed.

(** X19. A window the calendar cannot hold is an error, not an empty or a
    full listing: when the requested hours do not fit a [timedelta], or
    [now] minus the hours falls before year 1 or after year 9999, both
    listings fail with [OverflowError] and read nothing. *)
Theorem unrepresentable_window_fails acknowledged name hours x_api_key e w :
  existsb (String.eqb x_api_key) (API_KEYS (config e)) = true ->
  ~ window_ok e hours ->
  get_alerts acknowledged hours x_api_key e w = Raise OverflowError w /\
  get_agent_history name hours x_api_key e w = Raise OverflowError w.
Proof.
  intros Hkey Hbad.
  assert (Hv : verify_api_key x_api_key e w = Ok x_api_key w).
  { unfold verify_api_key, bind, ask, ret. now rewrite Hkey. }
  pose proof (window_overflow e hours w Hbad) as Hov.
  split.
  - unfold get_alerts. rewrite (bind_ok _ _ _ _ _ _ Hv).
    unfold bind at 1, ask at 1.
    rewrite <- bind_assoc. now rewrite (bind_raise _ _ _ _ _ _ Hov).
  - unfold get_agent_history. rewrite (bind_ok _ _ _ _ _ _ Hv).
    unfold bind at 1, ask at 1.
    rewrite <- bind_assoc. now rewrite (bind_raise _ _ _ _ _ _ Hov).
Qed.

Lemma get_agent_history_run name hours x_api_key e w :
  mongo_up e = true ->
  existsb (String.eqb x_api_key) (API_KEYS (config e)) = true ->
  window_ok e hours ->
  get_agent_history name hours x_api_key e w
  = Ok (name,
        sort_desc timestamp
          (List.filter
             (history_query name (now e - hours * 3600 * US_PER_SECOND) (now e))
             (metrics_collection w))) w.
Proof.
  intros Hup Hkey Hwin. destruct (window_run e hours w Hwin) as [Htd Hsub].
  unfold get_agent_history.
  assert (Hv : verify_api_key x_api_key e w = Ok x_api_key w).
  { unfold verify_api_key, bind, ask, ret. now rewrite Hkey. }
  rewrite (bind_ok _ _ _ _ _ _ Hv).
  unfold bind at 1, ask at 1.
  rewrite (bind_ok _ _ _ _ _ _ Htd), (bind_ok _ _ _ _ _ _ Hsub).
  unfold bind, find_metrics, bind, mongo_call, ret. now rewrite Hup.
Qed.

(** X20. The history of an agent holds its own reports, filed under the
    clock of the agent: after a report is accepted, the history of its
    agent returns it exactly when the timestamp string the agent wrote
    into it lies in the window of the query, whatever the time at which
    the server received it; reports are returned newest first and
    reports of other agents never. *)
Theorem report_is_in_history metrics hours x_api_key e e2 w :
  mongo_up e = true -> mongo_up e2 = true ->
  existsb (String.eqb x_api_key) (API_KEYS (config e)) = true ->
  existsb (String.eqb x_api_key) (API_KEYS (config e2)) = true ->
  window_ok e2 hours ->
  exists resp w1 reports,
    receive_metrics metrics x_api_key e w = Ok resp w1 /\
    get_agent_history (agent_name metrics) hours x_api_key e2 w1
    = Ok (agent_name metrics, reports) w1 /\
    Sorted (descending timestamp) reports /\
    Forall (fun m => agent_name m = agent_name metrics) reports /\
    (List.In metrics reports <->
     in_window (now e2 - hours * 3600 * US_PER_SECOND) (now e2)
               (timestamp metrics) = true).
Proof.
  intros Hup Hup2 Hkey Hkey2 Hwin.
  destruct (receive_metrics_agents metrics x_api_key e w Hup Hkey)
    as (w1 & Hrun & Hm & _).
  eexists _, w1, _. split; [exact Hrun|].
  split; [now apply get_agent_history_run|].
  split; [apply sort_desc_sorted|]. split.
  - apply List.Forall_forall. intros m Hin.
    apply (Permutation_in _ (sort_desc_perm _ _)) in Hin.
    apply filter_In in Hin as [_ Hq]. unfold history_query in Hq.
    apply andb_prop in Hq as [Hn _]. now apply String.eqb_eq.
  - split.
    + intros Hin. apply (Permutation_in _ (sort_desc_perm _ _)) in Hin.
      apply filter_In in Hin as [_ Hq]. unfold history_query in Hq.
      now apply andb_prop in Hq as [_ Hw].
    + intros Hw.
      apply (Permutation_in _ (Permutation_sym (sort_desc_perm _ _))).
      apply filter_In. split.
      * rewrite Hm. apply in_or_app. right. now left.
      * unfold history_query. now rewrite String.eqb_refl, Hw.
Qed.

(** X21. Reading never writes: whatever the key, the state of MongoDB and
    the requested window, and whether they answer or fail, the three GET
    endpoints leave the world exactly as they found it. *)
Theorem get_endpoints_read_only acknowledged name hours x_api_key e w :
  res_world (get_agents x_api_key e w) = w /\
  res_world (get_agent_history name hours x_api_key e w) = w /\
  res_world (get_alerts acknowledged hours x_api_key e w) = w.
Proof.
  unfold get_agents, get_agent_history, get_alerts, verify_api_key,
    timedelta_hours, datetime_sub, find_agents, find_metrics, find_alerts,
    bind, ask, mongo_call, raise, ret.
  destruct (negb (existsb _ _)); [repeat split|].
  destruct (mongo_up e);
    destruct ((_ <? TIMEDELTA_MIN) || (TIMEDELTA_MAX <? _)); cbn;
    try (repeat split; fail);
    destruct ((_ <? 0) || (DATETIME_END <=? _)); repeat split.
Qed.

(** * The monitoring agent *)

Example failed_password_count_sample :
  failed_password_count
    ("Jan  1 00:00:01 web sshd[1]: Failed password for root from 10.0.0.1" +:+
     nl +:+ "Jan  1 00:00:02 web sshd[1]: Accepted password for ada" +:+ nl +:+
     "Jan  1 00:00:03 web sshd[1]: Failed password for invalid user x" +:+ nl)
  = 2.
Proof. vm_compute. reflexivity. Qed.

Lemma dict_get_set_same {A : Type} (d : list (string * A)) key value :
  dict_get (dict_set d key value) key = Some value.
Proof.
  induction d as [|[k v] d IH]; cbn.
  - now rewrite String.eqb_refl.
  - destruct (String.eqb k key) eqn:Hk; cbn; now rewrite Hk.
Qed.

Lemma dict_get_set_other {A : Type} (d : list (string * A)) key value key' :
  key <> key' ->
  dict_get (dict_set d key value) key' = dict_get d key'.
Proof.
  intros Hne. induction d as [|[k v] d IH]; cbn.
  - destruct (String.eqb_spec key key'); [contradiction|reflexivity].
  - destruct (String.eqb_spec k key) as [->|Hk]; cbn.
    + destruct (String.eqb_spec key key'); [contradiction|reflexivity].
    + now rewrite IH.
Qed.

Lemma dict_set_keys {A : Type} (d : list (string * A)) key value :
  map fst (dict_set d key value)
  = if existsb (String.eqb key) (map fst d) then map fst d
    else map fst d ++ [key].
Proof.
  induction d as [|[k v] d IH]; [reflexivity|]. cbn.
  rewrite (String.eqb_sym key k).
  destruct (String.eqb k key) eqn:Hk; cbn; [reflexivity|].
  rewrite IH. now destruct (existsb _ _).
Qed.

Lemma dict_set_nodup {A : Type} (d : list (string * A)) key value :
  List.NoDup (map fst d) -> List.NoDup (map fst (dict_set d key value)).
Proof.
  intros Hnd. rewrite dict_set_keys.
  destruct (existsb (String.eqb key) (map fst d)) eqn:Hk; [assumption|].
  apply List.NoDup_app; [assumption|repeat constructor; intros []|].
  intros a Ha [Heq|[]]. subst a.
  assert (Htrue : existsb (String.eqb key) (map fst d) = true).
  { apply existsb_exists. exists key. split; [assumption|apply String.eqb_refl]. }
  congruence.
Qed.

Lemma dict_set_in_keys {A : Type} (d : list (string * A)) key value k :
  List.In k (map fst (dict_set d key value)) <->
  List.In k (map fst d) \/ k = key.
Proof.
  rewrite dict_set_keys.
  destruct (existsb (String.eqb key) (map fst d)) eqn:Hk.
  - apply existsb_exists in Hk as (x & Hx & Heq).
    apply String.eqb_eq in Heq. subst x.
    split; [auto|]. intros [?| ->]; assumption.
  - rewrite in_app_iff. cbn. intuition.
Qed.

Lemma disk_usage_loop_spec h paths acc d :
  disk_usage_loop h paths acc = inr d ->
  List.NoDup (map fst acc) ->
  List.NoDup (map fst d) /\
  (forall k, List.In k (map fst d) <-> List.In k (map fst acc) \/ List.In k paths) /\
  (forall path, List.In path paths ->
     exists percent,
       psutil_disk_usage_percent h path = inr percent /\
       dict_get d path = Some percent) /\
  (forall k, ~ List.In k paths -> dict_get d k = dict_get acc k).
Proof.
  revert acc. induction paths as [|p paths IH]; intros acc Hrun Hnd.
  - cbn in Hrun. injection Hrun as <-. repeat split; auto.
    + intros [?|[]]; assumption.
    + intros path [].
  - cbn [disk_usage_loop] in Hrun.
    destruct (psutil_disk_usage_percent h p) as [e|percent] eqn:Hp;
      [discriminate|].
    destruct (IH _ Hrun (dict_set_nodup acc p percent Hnd))
      as (Hnd' & Hkeys & Hvals & Hrest).
    split; [exact Hnd'|]. split; [|split].
    + intros k. rewrite Hkeys, dict_set_in_keys. cbn. intuition.
    + intros path [<-|Hin]; [|now apply Hvals].
      destruct (in_dec String.string_dec p paths) as [Hin|Hout].
      * now apply Hvals.
      * exists percent. split; [assumption|].
        rewrite (Hrest p Hout). apply dict_get_set_same.
    + intros k Hk. rewrite Hrest by (intros Hin; apply Hk; now right).
      apply dict_get_set_other. intros ->. apply Hk. now left.
Qed.

Lemma disk_usage_loop_fails h paths acc path e :
  List.In path paths -> psutil_disk_usage_percent h path = inl e ->
  exists e', disk_usage_loop h paths acc = inl e'.
Proof.
  revert acc. induction paths as [|p paths IH]; intros acc Hin Hfail; [destruct Hin|].
  cbn [disk_usage_loop].
  destruct (psutil_disk_usage_percent h p) as [e0|percent] eqn:Hp; [eauto|].
  destruct Hin as [->|Hin]; [congruence|]. now apply IH.
Qed.

(** X22. The disk map the agent reports is a proper map of the configured
    paths: when the collector answers, its keys are exactly the
    configured paths, each once even if the configuration repeats a path,
    and the value under a path is the usage the host reported for it. *)
Theorem disk_report_covers_the_paths c h d logs :
  get_disk_usage c h = (Some d, logs) ->
  List.NoDup (map fst d) /\
  (forall path, List.In path (map fst d) <-> List.In path (cfg_disk_paths c)) /\
  (forall path, List.In path (cfg_disk_paths c) ->
     exists percent,
       psutil_disk_usage_percent h path = inr percent /\
       dict_get d path = Some percent) /\
  logs = [].
Proof.
  unfold get_disk_usage. destruct (negb (cfg_disk_enabled c)); [discriminate|].
  destruct (disk_usage_loop h (cfg_disk_paths c) []) as [e|d0] eqn:Hloop;
    [discriminate|].
  intros [= <- <-].
  destruct (disk_usage_loop_spec h _ [] d0 Hloop ltac:(constructor))
    as (Hnd & Hkeys & Hvals & _).
  repeat split; auto.
  - intros Hin. apply Hkeys in Hin as [[]|Hin]. exact Hin.
  - intros Hin. apply Hkeys. now right.
Qed.

Section AgentToServer.
Context `{PyRuntime}.

(** X23. One unreadable path hides every disk: when the host raises for
    any one configured path, the collector reports no disk usage at all
    and logs one error, and a report carrying that answer raises no
    DISK_HIGH alert at the server, however full the other disks are. *)
Theorem unreadable_path_silences_disk_alerts c h path error metrics e w :
  cfg_disk_enabled c = true ->
  List.In path (cfg_disk_paths c) ->
  psutil_disk_usage_percent h path = inl error ->
  disk_usage metrics = (get_disk_usage c h).1 ->
  (exists e', get_disk_usage c h
              = (None, [(LOG_ERROR, "Error getting disk usage: " +:+ e')])) /\
  no_alert_of_type "DISK_HIGH" w (check_thresholds metrics e w).
Proof.
  intros Hen Hin Hfail Hreport.
  destruct (disk_usage_loop_fails h (cfg_disk_paths c) [] path error Hin Hfail)
    as (e' & Hloop).
  assert (Hrun : get_disk_usage c h
                 = (None, [(LOG_ERROR, "Error getting disk usage: " +:+ e')])).
  { unfold get_disk_usage. now rewrite Hen, Hloop. }
  split; [now exists e'|].
  rewrite Hrun in Hreport. cbn in Hreport.
  apply no_candidate_no_alert. intros p.
  rewrite Evaluate_of_kind. cbn [String.eqb Ascii.eqb Bool.eqb].
  unfold disk_candidates. now rewrite Hreport.
Qed.

(** X24. The count of failed SSH logins travels unchanged from the agent
    to the alert: the agent reports how often [Failed password for] occurs
    in the tail of the log and whether that reaches its threshold, always
    with both keys; a report carrying this answer, checked with SSH alerts
    on, yields one SSH_BRUTE_FORCE record exactly when the count reaches
    the threshold, and its message states that count. *)
Theorem ssh_count_reaches_the_alert c h d logs metrics e w :
  check_ssh_brute_force c h = (Some d, logs) ->
  ssh_brute_force metrics = Some d ->
  mongo_up e = true ->
  ssh_brute_force_alerts
    (resolve_alert_config (stored_agent w (agent_name metrics))) = true ->
  exists log_content,
    tail_100 h (cfg_ssh_log_path c) = inr log_content /\
    dict_get d "failed_attempts"
    = Some (PInt (failed_password_count log_content)) /\
    dict_get d "threshold_exceeded"
    = Some (PBool (cfg_ssh_threshold c <=? failed_password_count log_content)) /\
    map al_message
        (List.filter (has_type "SSH_BRUTE_FORCE")
                     (new_alerts w (check_thresholds metrics e w)))
    = if cfg_ssh_threshold c <=? failed_password_count log_content
      then ["SSH brute force attack detected with " +:+
            pretty (failed_password_count log_content) +:+
            " failed login attempts"]
      else [].
Proof.
  unfold check_ssh_brute_force.
  destruct (negb (cfg_ssh_enabled c)); [discriminate|].
  destruct (negb (os_path_exists h (cfg_ssh_log_path c))); [discriminate|].
  destruct (tail_100 h (cfg_ssh_log_path c)) as [err|log_content];
    [discriminate|].
  intros [= <- <-] Hssh Hup Hon.
  exists log_content. split; [reflexivity|]. split; [reflexivity|].
  split; [reflexivity|].
  destruct (check_thresholds_up metrics e w Hup) as (w' & _ & Hnew & _).
  rewrite Hnew, fired_docs_of_kind, Evaluate_of_kind.
  cbn [String.eqb Ascii.eqb Bool.eqb].
  unfold ssh_candidates. rewrite Hon, Hssh. cbn.
  now destruct (cfg_ssh_threshold c <=? failed_password_count log_content).
Qed.
End AgentToServer.

Lemma service_status_loop_spec h services acc logs d logs' :
  service_status_loop h services acc logs = (d, logs') ->
  List.NoDup (map fst acc) ->
  List.NoDup (map fst d) /\
  (forall k, List.In k (map fst d)
             <-> List.In k (map fst acc) \/ List.In k services) /\
  (forall service, List.In service services ->
     dict_get d service
     = Some match systemctl_is_active h service with
            | inr status => status
            | inl _ => "unknown"
            end) /\
  (forall k, ~ List.In k services -> dict_get d k = dict_get acc k).
Proof.
  revert acc logs. induction services as [|s services IH];
    intros acc logs Hrun Hnd.
  - cbn in Hrun. injection Hrun as <- <-. repeat split; auto.
    + intros [?|[]]; assumption.
    + intros service [].
  - cbn [service_status_loop] in Hrun.
    set (status := match systemctl_is_active h s with
                   | inr status => status
                   | inl _ => "unknown"
                   end).
    assert (Hstep : exists logs1,
              service_status_loop h services (dict_set acc s status) logs1
              = (d, logs')).
    { unfold status. destruct (systemctl_is_active h s); eauto. }
    destruct Hstep as (logs1 & Hstep).
    destruct (IH _ _ Hstep (dict_set_nodup acc s status Hnd))
      as (Hnd' & Hkeys & Hvals & Hrest).
    split; [exact Hnd'|]. split; [|split].
    + intros k. rewrite Hkeys, dict_set_in_keys. cbn. intuition.
    + intros service [<-|Hin]; [|now apply Hvals].
      destruct (in_dec String.string_dec s services) as [Hin|Hout].
      * now apply Hvals.
      * rewrite (Hrest s Hout). apply dict_get_set_same.
    + intros k Hk. rewrite Hrest by (intros Hin; apply Hk; now right).
      apply dict_get_set_other. intros ->. apply Hk. now left.
Qed.

(** X25. A service check that fails does not disturb the others: with
    service monitoring on the collector always answers, with one entry
    per configured service; the entry holds what [systemctl] printed, or
    [unknown] when the check of that service raised, whatever happened to
    the checks of the other services. *)
Theorem service_report_covers_the_services c h :
  cfg_services_enabled c = true ->
  exists d logs,
    get_service_status c h = (Some d, logs) /\
    List.NoDup (map fst d) /\
    (forall service,
       List.In service (map fst d) <-> List.In service (cfg_services_list c)) /\
    forall service,
      List.In service (cfg_services_list c) ->
      dict_get d service
      = Some match systemctl_is_active h service with
             | inr status => status
             | inl _ => "unknown"
             end.
Proof.
  intros Hen. unfold get_service_status. rewrite Hen. cbn [negb].
  destruct (service_status_loop h (cfg_services_list c) [] []) as [d logs]
    eqn:Hloop.
  destruct (service_status_loop_spec h _ [] [] d logs Hloop ltac:(constructor))
    as (Hnd & Hkeys & Hvals & _).
  exists d, logs. repeat split; auto.
  - intros Hin. apply Hkeys in Hin as [[]|Hin]. exact Hin.
  - intros Hin. apply Hkeys. now right.
Qed.

(** * The properties at the example deployment *)

Lemma invalid_api_key_changes_nothing_witness :
  let e := env_at example_time in
  let w := world_with_agents in
  receive_metrics cpu_92 "guess" e w
  = Raise (HTTPException 401 "Invalid API key") w /\
  submit (H := example_runtime) cpu_92 "guess" e w
  = Raise (HTTPException 401 "Invalid API key") w /\
  acknowledge_alert "a1" "guess" e w
  = Raise (HTTPException 401 "Invalid API key") w /\
  update_agent_config "web-1" strict_policy "guess" e w
  = Raise (HTTPException 401 "Invalid API key") w.
Proof.
  apply (invalid_api_key_changes_nothing (H := example_runtime) cpu_92 "a1"
           "web-1" strict_policy "guess" (env_at example_time)
           world_with_agents).
  reflexivity.
Defined.

Lemma example_time_in_range : 0 <= example_time < DATETIME_END.
Proof. cbv. split; congruence. Qed.

Lemma report_registers_agent_witness :
  exists w1 d,
    receive_metrics cpu_92 "your_api_key_here" (env_at example_time) empty_world
    = Ok [("status", "success"); ("message", "Metrics received")] w1 /\
    metrics_collection w1 = metrics_collection empty_world ++ [cpu_92] /\
    alerts_collection w1 = alerts_collection empty_world /\
    agents_wf (agents_collection w1) /\
    stored_agent w1 "web-1" = Some d /\
    ag_hostname d = "web-1.local" /\
    ag_last_seen d = isoformat example_time.
Proof.
  apply (report_registers_agent cpu_92 "your_api_key_here"
           (env_at example_time) empty_world eq_refl eq_refl
           example_time_in_range).
  split; constructor.
Defined.

Lemma report_keeps_configurations_witness :
  exists w1 d,
    receive_metrics cpu_92 "your_api_key_here" (env_at example_time)
                    world_with_agents
    = Ok [("status", "success"); ("message", "Metrics received")] w1 /\
    stored_agent w1 "web-1" = Some d /\
    ag_alert_config d = None /\
    forall other,
      other <> "web-1" ->
      stored_agent w1 other = stored_agent world_with_agents other.
Proof.
  apply (report_keeps_configurations cpu_92 "your_api_key_here"
           (env_at example_time) world_with_agents eq_refl eq_refl).
Defined.

Lemma agent_config_round_trip_witness :
  exists w1,
    update_agent_config "web-1" strict_policy "your_api_key_here"
                        (env_at example_time) world_with_agents
    = Ok [("status", "success"); ("message", "Agent configuration updated")]
         w1 /\
    resolve_alert_config (stored_agent w1 "web-1") = strict_policy /\
    (forall other,
        other <> "web-1" ->
        stored_agent w1 other = stored_agent world_with_agents other) /\
    alerts_collection w1 = alerts_collection world_with_agents /\
    metrics_collection w1 = metrics_collection world_with_agents /\
    forall metrics e',
      agent_name metrics = "web-1" -> mongo_up e' = true ->
      check_thresholds (H := example_runtime) metrics e' w1
      = fire_all "web-1" (hostname metrics)
                 (Evaluate (H := example_runtime) metrics strict_policy) [] e' w1.
Proof.
  apply (agent_config_round_trip (H := example_runtime) "web-1" strict_policy
           "your_api_key_here" (env_at example_time) world_with_agents
           fresh_agent eq_refl eq_refl eq_refl).
Defined.

Lemma agent_config_unknown_agent_witness :
  exists w1,
    update_agent_config "ghost" strict_policy "your_api_key_here"
                        (env_at example_time) world_with_agents
    = Raise (HTTPException 404 "Agent not found") w1 /\
    agents_collection w1 = agents_collection world_with_agents /\
    alerts_collection w1 = alerts_collection world_with_agents /\
    resolve_alert_config (stored_agent w1 "ghost") = AlertConfig_default.
Proof.
  apply (agent_config_unknown_agent "ghost" strict_policy "your_api_key_here"
           (env_at example_time) world_with_agents eq_refl eq_refl eq_refl).
Defined.

Lemma isoformat_chronological_witness :
  String.compare (isoformat example_time) (isoformat (example_time + 1))
  = (example_time ?= example_time + 1) /\
  String.ltb (isoformat example_time) (isoformat (example_time + 1))
  = (example_time <? example_time + 1) /\
  String.leb (isoformat example_time) (isoformat (example_time + 1))
  = (example_time <=? example_time + 1) /\
  (isoformat example_time = isoformat (example_time + 1) ->
   example_time = example_time + 1).
Proof.
  apply (isoformat_chronological example_time (example_time + 1));
    cbv; split; congruence.
Defined.



Example three_sweeps_two_records :
  let es := [env_at example_time;
             env_at (example_time + 300 * US_PER_SECOND);
             env_at (example_time + 600 * US_PER_SECOND)] in
  option_map (map (map al_agent_name))
             (result_value (sweep_each es world_with_agents))
  = Some [["db-1"]; ["web-1"]; []].
Proof. vm_compute. reflexivity. Qed.

Lemma email_session_discipline_witness :
  exists b w' evs,
    send_email_alert "subject" "message" (env_at example_time) empty_world
    = Ok b w' /\
    trace w' = trace empty_world ++ evs /\
    tls_before_login false evs = true /\
    (str_truthy "" && str_truthy "" = false ->
     forallb (fun ev => negb (is_login_event ev)) evs = true) /\
    (b = true ->
     exists session,
       evs = session ++
             [EvSmtp (SmtpSendMessage "alerts@sentora.local" "admin@example.com"
                                      "subject" "message");
              EvSmtp SmtpQuit]).
Proof.
  apply (email_session_discipline "subject" "message" (env_at example_time)
           empty_world eq_refl).
Defined.

Lemma alerts_sent_match_records_witness :
  let run := check_thresholds (H := example_runtime) ram_91_sshd_failed
                              (env_at example_time) empty_world in
  exists sent w',
    run = Ok sent w' /\
    alerts_collection w'
    = alerts_collection empty_world ++ new_alerts empty_world run /\
    map (fun entry => dict_get entry "id") sent
    = map (fun d => Some (bson_id_str (al_id d))) (new_alerts empty_world run) /\
    map (fun entry => dict_get entry "type") sent
    = map (fun d => Some (al_alert_type d)) (new_alerts empty_world run) /\
    Forall (fun d => al_agent_name d = "web-1" /\
                     al_hostname d = "web-1.local" /\
                     al_acknowledged d = false)
           (new_alerts empty_world run).
Proof.
  apply (alerts_sent_match_records (H := example_runtime) ram_91_sshd_failed
           (env_at example_time) empty_world eq_refl).
Defined.

Example ram_91_sshd_failed_two_records :
  map al_alert_type
      (new_alerts empty_world
         (check_thresholds (H := example_runtime) ram_91_sshd_failed
                           (env_at example_time) empty_world))
  = ["RAM_HIGH"; "SERVICE_DOWN"].
Proof. vm_compute. reflexivity. Qed.

Lemma service_alerts_per_service_witness :
  let run := check_thresholds (H := example_runtime) ram_91_sshd_failed
                              (env_at example_time) empty_world in
  exists sent w',
    run = Ok sent w' /\
    map (fun entry => dict_get entry "service") (sent_of_type "SERVICE_DOWN" sent)
    = [Some "sshd"] /\
    map al_message
        (List.filter (has_type "SERVICE_DOWN") (new_alerts empty_world run))
    = ["Service sshd is failed"].
Proof.
  apply (service_alerts_per_service (H := example_runtime) ram_91_sshd_failed
           [("nginx", "active"); ("sshd", "failed"); ("cron", "active")]
           (env_at example_time) empty_world eq_refl eq_refl eq_refl).
Defined.

Lemma ram_high_iff_over_threshold_witness :
  map al_message
      (List.filter (has_type "RAM_HIGH")
         (new_alerts empty_world
            (check_thresholds (H := example_runtime) ram_91_sshd_failed
                              (env_at example_time) empty_world)))
  = ["RAM usage is 91.0%, which exceeds the threshold of 85.0%"].
Proof.
  apply (ram_high_iff_over_threshold (H := example_runtime) ram_91_sshd_failed
           91%float (env_at example_time) empty_world eq_refl eq_refl).
Defined.

Lemma stored_alerts_cannot_be_acknowledged_witness :
  exists alert_id w1,
    send_alert "CPU_HIGH" "web-1" "web-1.local" "cpu" (env_at example_time)
               empty_world = Ok alert_id w1 /\
    Forall (fun d => exists n, al_id d = ObjectId n) (alerts_collection w1) /\
    forall any_id,
      exists w2,
        acknowledge_alert any_id "your_api_key_here"
                          (env_at (example_time + US_PER_SECOND)) w1
        = Raise (HTTPException 404 "Alert not found") w2 /\
        alerts_collection w2 = alerts_collection w1.
Proof.
  apply (stored_alerts_cannot_be_acknowledged "CPU_HIGH" "web-1" "web-1.local"
           "cpu" "your_api_key_here" (env_at example_time)
           (env_at (example_time + US_PER_SECOND)) empty_world
           eq_refl eq_refl eq_refl).
  constructor.
Defined.

Lemma window_ok_one_day t :
  US_PER_DAY <= t < DATETIME_END -> window_ok (env_at t) 24.
Proof.
  unfold window_ok, TIMEDELTA_MIN, TIMEDELTA_MAX, DATETIME_END, MAXORDINAL,
    US_PER_DAY, US_PER_SECOND. cbn [now env_at]. lia.
Qed.

Lemma example_time_after_day_one t :
  0 <= t <= ONE_HOUR -> US_PER_DAY <= example_time + t < DATETIME_END.
Proof.
  unfold ONE_HOUR, DATETIME_END, MAXORDINAL, US_PER_DAY, US_PER_SECOND,
    example_time. lia.
Qed.

Lemma get_alerts_lists_the_window_witness :
  exists views,
    get_alerts (Some false) 24 "your_api_key_here" (env_at (example_time + 0))
               world_with_string_id
    = Ok views world_with_string_id /\
    Sorted (descending av_timestamp) views /\
    Permutation views
      (map project_alert (alerts_collection world_with_string_id)) /\
    Forall (fun v =>
              in_window (example_time + 0 - 24 * 3600 * US_PER_SECOND)
                        (example_time + 0) (av_timestamp v) = true /\
              forall flag, Some false = Some flag -> av_acknowledged v = flag)
           views.
Proof.
  apply (get_alerts_lists_the_window (Some false) 24 "your_api_key_here"
           (env_at (example_time + 0)) world_with_string_id eq_refl eq_refl).
  apply window_ok_one_day, example_time_after_day_one.
  cbv. split; congruence.
Defined.

Lemma get_alerts_window_of_time_witness :
  let d := {| al_id := BsonString "a1"; al_agent_name := "web-1";
              al_hostname := "web-1.local"; al_alert_type := "CPU_HIGH";
              al_message :=
                "CPU usage is 92.0%, which exceeds the threshold of 80.0%";
              al_timestamp := "2024-01-01T00:00:00";
              al_acknowledged := false |} in
  exists views,
    get_alerts None 24 "your_api_key_here" (env_at (example_time + ONE_HOUR))
               world_with_string_id
    = Ok views world_with_string_id /\
    (List.In (project_alert d) views <->
     example_time + ONE_HOUR - 24 * 3600 * US_PER_SECOND <= example_time
     <= example_time + ONE_HOUR /\
     forall flag, None = Some flag -> al_acknowledged d = flag).
Proof.
  intros d.
  apply (get_alerts_window_of_time None 24 "your_api_key_here"
           (env_at (example_time + ONE_HOUR)) world_with_string_id d
           example_time eq_refl eq_refl).
  - apply window_ok_one_day, example_time_after_day_one. cbv. split; congruence.
  - cbv. split; congruence.
  - now left.
  - exact example_time_in_range.
  - vm_compute. reflexivity.
Defined.

Lemma stored_alert_is_listed_witness :
  let e := env_at example_time in
  let e2 := env_at (example_time + ONE_HOUR) in
  let view := {| av_agent_name := "web-1"; av_hostname := "web-1.local";
                 av_alert_type := "CPU_HIGH"; av_message := "cpu";
                 av_timestamp := isoformat example_time;
                 av_acknowledged := false |} in
  exists alert_id w1 all open closed,
    send_alert "CPU_HIGH" "web-1" "web-1.local" "cpu" e empty_world
    = Ok alert_id w1 /\
    get_alerts None 24 "your_api_key_here" e2 w1 = Ok all w1 /\
    get_alerts (Some false) 24 "your_api_key_here" e2 w1 = Ok open w1 /\
    get_alerts (Some true) 24 "your_api_key_here" e2 w1 = Ok closed w1 /\
    List.In view all /\ List.In view open /\ ~ List.In view closed.
Proof.
  apply (stored_alert_is_listed "CPU_HIGH" "web-1" "web-1.local" "cpu" 24
           "your_api_key_here" (env_at example_time)
           (env_at (example_time + ONE_HOUR)) empty_world
           eq_refl eq_refl eq_refl example_time_in_range).
  - cbv. split; congruence.
  - apply window_ok_one_day, example_time_after_day_one. cbv. split; congruence.
  - cbv. split; congruence.
Defined.

Lemma unrepresentable_window_fails_witness :
  let e := env_at example_time in
  get_alerts None 20000000 "your_api_key_here" e world_with_string_id
  = Raise OverflowError world_with_string_id /\
  get_agent_history "web-1" 20000000 "your_api_key_here" e world_with_string_id
  = Raise OverflowError world_with_string_id.
Proof.
  apply (unrepresentable_window_fails None "web-1" 20000000 "your_api_key_here"
           (env_at example_time) world_with_string_id eq_refl).
  intros [_ [Hstart _]]. now apply Hstart.
Defined.

Lemma report_is_in_history_witness :
  let e := env_at example_time in
  let e2 := env_at (example_time + ONE_HOUR) in
  exists resp w1 reports,
    receive_metrics cpu_92 "your_api_key_here" e empty_world = Ok resp w1 /\
    get_agent_history "web-1" 24 "your_api_key_here" e2 w1
    = Ok ("web-1", reports) w1 /\
    Sorted (descending timestamp) reports /\
    Forall (fun m => agent_name m = "web-1") reports /\
    (List.In cpu_92 reports <->
     in_window (example_time + ONE_HOUR - 24 * 3600 * US_PER_SECOND)
               (example_time + ONE_HOUR) "2024-01-01T00:00:00" = true).
Proof.
  apply (report_is_in_history cpu_92 24 "your_api_key_here"
           (env_at example_time) (env_at (example_time + ONE_HOUR)) empty_world
           eq_refl eq_refl eq_refl eq_refl).
  apply window_ok_one_day, example_time_after_day_one. cbv. split; congruence.
Defined.

Lemma disk_report_covers_the_paths_witness :
  let c := example_agent_config ["/"; "/data"; "/"] in
  let d := [("/", 40%float); ("/data", 95%float)] in
  List.NoDup (map fst d) /\
  (forall path, List.In path (map fst d) <-> List.In path (cfg_disk_paths c)) /\
  (forall path, List.In path (cfg_disk_paths c) ->
     exists percent,
       psutil_disk_usage_percent example_host path = inr percent /\
       dict_get d path = Some percent) /\
  @nil (agent_level * string) = [].
Proof.
  apply (disk_report_covers_the_paths (example_agent_config ["/"; "/data"; "/"])
           example_host [("/", 40%float); ("/data", 95%float)] []).
  reflexivity.
Defined.

Lemma unreadable_path_silences_disk_alerts_witness :
  let c := example_agent_config ["/"; "/mnt/usb"; "/data"] in
  let metrics := example_metrics None None None in
  (exists e', get_disk_usage c example_host
              = (None, [(LOG_ERROR, "Error getting disk usage: " +:+ e')])) /\
  no_alert_of_type "DISK_HIGH" empty_world
    (check_thresholds (H := example_runtime) metrics (env_at example_time)
                      empty_world).
Proof.
  apply (unreadable_path_silences_disk_alerts (H := example_runtime)
           (example_agent_config ["/"; "/mnt/usb"; "/data"]) example_host
           "/mnt/usb" "[Errno 2] No such file or directory: '/mnt/usb'"
           (example_metrics None None None) (env_at example_time) empty_world
           eq_refl).
  - right. now left.
  - reflexivity.
  - reflexivity.
Defined.

Lemma ssh_count_reaches_the_alert_witness :
  let c := example_agent_config ["/"] in
  let d := [("failed_attempts", PInt 2); ("threshold_exceeded", PBool true)] in
  let metrics := example_metrics None None (Some d) in
  exists log_content,
    tail_100 example_host "/var/log/auth.log" = inr log_content /\
    dict_get d "failed_attempts"
    = Some (PInt (failed_password_count log_content)) /\
    dict_get d "threshold_exceeded"
    = Some (PBool (2 <=? failed_password_count log_content)) /\
    map al_message
        (List.filter (has_type "SSH_BRUTE_FORCE")
           (new_alerts empty_world
              (check_thresholds (H := example_runtime) metrics
                                (env_at example_time) empty_world)))
    = if 2 <=? failed_password_count log_content
      then ["SSH brute force attack detected with " +:+
            pretty (failed_password_count log_content) +:+
            " failed login attempts"]
      else [].
Proof.
  apply (ssh_count_reaches_the_alert (H := example_runtime)
           (example_agent_config ["/"]) example_host
           [("failed_attempts", PInt 2); ("threshold_exceeded", PBool true)] []
           (example_metrics None None
              (Some [("failed_attempts", PInt 2);
                     ("threshold_exceeded", PBool true)]))
           (env_at example_time) empty_world);
    reflexivity.
Defined.

Lemma service_report_covers_the_services_witness :
  let c := example_agent_config ["/"] in
  exists d logs,
    get_service_status c example_host = (Some d, logs) /\
    List.NoDup (map fst d) /\
    (forall service,
       List.In service (map fst d) <-> List.In service (cfg_services_list c)) /\
    forall service,
      List.In service (cfg_services_list c) ->
      dict_get d service
      = Some match systemctl_is_active example_host service with
             | inr status => status
             | inl _ => "unknown"
             end.
Proof.
  apply (service_report_covers_the_services (example_agent_config ["/"])
           example_host).
  reflexivity.
Defined.
